(** * Query understanding and retrieval pipeline of the bookstore assistant

    A shallow embedding of [src/query/intent_classifier.py],
    [src/query/entity_extractor.py], [src/query/processor.py],
    [src/query/router.py] and [src/query/retriever.py].

    Conventions of the embedding:
    - a Python [str] is a [string] of 8-bit characters; queries are read as
      ASCII text, so [lower], [strip] and the regular-expression classes
      [\s], [\d], [\w] are the ASCII restrictions of Python's;
    - a Python [float] is an exact rational [Q]; a decimal literal read by
      [float(...)] is kept in lowest terms;
    - a Python [int] is a [Z];
    - a [dict] used as a map is a [gmap], a [set] is a [gset];
    - a call that may raise returns an [outcome]; where exceptions outside
      [Exception] matter, a call ends in a [completion]. *)

From Stdlib Require Import String Ascii List ZArith QArith Qminmax Lia Permutation Sorted.
From stdpp Require Import gmap strings list fin_maps pretty.

Open Scope string_scope.
Open Scope list_scope.
Open Scope Z_scope.
Open Scope nat_scope.

(** ** Python strings *)

Module PyStr.

Definition is_upper (c : ascii) : bool :=
  let n := nat_of_ascii c in (65 <=? n) && (n <=? 90).

Definition is_lower (c : ascii) : bool :=
  let n := nat_of_ascii c in (97 <=? n) && (n <=? 122).

(** [\d] *)
Definition is_digit (c : ascii) : bool :=
  let n := nat_of_ascii c in (48 <=? n) && (n <=? 57).

(** [\s] and the characters removed by [str.strip()]: tab, newline,
    vertical tab, form feed, carriage return, the four separators
    0x1c-0x1f and the space. *)
Definition is_space (c : ascii) : bool :=
  let n := nat_of_ascii c in
  ((9 <=? n) && (n <=? 13)) || ((28 <=? n) && (n <=? 31)) || (n =? 32).

(** [\w] *)
Definition is_word (c : ascii) : bool :=
  is_upper c || is_lower c || is_digit c || (nat_of_ascii c =? 95).

Definition lower_char (c : ascii) : ascii :=
  if is_upper c then ascii_of_nat (nat_of_ascii c + 32) else c.

Definition upper_char (c : ascii) : ascii :=
  if is_lower c then ascii_of_nat (nat_of_ascii c - 32) else c.

Fixpoint map_chars (f : ascii -> ascii) (s : string) : string :=
  match s with
  | EmptyString => EmptyString
  | String c s' => String (f c) (map_chars f s')
  end.

(** [s.lower()] and [s.upper()] *)
Definition lower (s : string) : string := map_chars lower_char s.
Definition upper (s : string) : string := map_chars upper_char s.

(** [s.capitalize()] *)
Definition capitalize (s : string) : string :=
  match s with
  | EmptyString => EmptyString
  | String c s' => String (upper_char c) (lower s')
  end.

Fixpoint lstrip (s : string) : string :=
  match s with
  | String c s' => if is_space c then lstrip s' else s
  | EmptyString => EmptyString
  end.

Fixpoint rstrip (s : string) : string :=
  match s with
  | EmptyString => EmptyString
  | String c s' =>
      match rstrip s' with
      | EmptyString => if is_space c then EmptyString else String c EmptyString
      | r => String c r
      end
  end.

(** [s.strip()] *)
Definition strip (s : string) : string := rstrip (lstrip s).

(** [s.startswith(p)] *)
Fixpoint startswith (p s : string) : bool :=
  match p, s with
  | EmptyString, _ => true
  | String a p', String b s' => if Ascii.eqb a b then startswith p' s' else false
  | String _ _, EmptyString => false
  end.

(** [sub in s] *)
Fixpoint contains (sub s : string) : bool :=
  startswith sub s ||
  match s with
  | EmptyString => false
  | String _ s' => contains sub s'
  end.

(** [s[n:]] *)
Fixpoint drop (n : nat) (s : string) : string :=
  match n, s with
  | O, _ => s
  | S n', String _ s' => drop n' s'
  | S _, EmptyString => EmptyString
  end.

(** [s[:n]] *)
Fixpoint take (n : nat) (s : string) : string :=
  match n, s with
  | O, _ => EmptyString
  | S n', String c s' => String c (take n' s')
  | S _, EmptyString => EmptyString
  end.

(** [s.replace(old, new)] for a non-empty [old]: occurrences are replaced
    from the left and do not overlap; [skip] counts the characters of a
    replaced occurrence still to be passed over. *)
Fixpoint replace_from (old new : string) (skip : nat) (s : string) : string :=
  match s with
  | EmptyString => EmptyString
  | String c s' =>
      match skip with
      | S k => replace_from old new k s'
      | O =>
          if startswith old s
          then new +:+ replace_from old new (String.length old - 1) s'
          else String c (replace_from old new 0 s')
      end
  end.

Definition replace (old new s : string) : string := replace_from old new 0 s.

(** [sep.join(parts)] *)
Fixpoint join (sep : string) (parts : list string) : string :=
  match parts with
  | [] => ""
  | [p] => p
  | p :: rest => p +:+ sep +:+ join sep rest
  end.

(** Maximal runs of characters satisfying [p], left to right. *)
Fixpoint runs (p : ascii -> bool) (cur : string) (s : string) : list string :=
  match s with
  | EmptyString => match cur with EmptyString => [] | _ => [cur] end
  | String c s' =>
      if p c then runs p (cur +:+ String c EmptyString) s'
      else match cur with
           | EmptyString => runs p EmptyString s'
           | _ => cur :: runs p EmptyString s'
           end
  end.

(** [s.split()]: the maximal runs of non-blank characters. *)
Definition split (s : string) : list string :=
  runs (fun c => negb (is_space c)) EmptyString s.

(** [re.findall(r'\b\w+\b', s)]: a match starts at a word boundary, takes
    word characters greedily and must end at a word boundary, so the
    matches are the maximal runs of word characters. *)
Definition findall_words (s : string) : list string :=
  runs is_word EmptyString s.

Definition digit_val (c : ascii) : Z := Z.of_nat (nat_of_ascii c - 48).

Fixpoint digits_acc (acc : Z) (s : string) : Z :=
  match s with
  | EmptyString => acc
  | String c s' => digits_acc (10 * acc + digit_val c)%Z s'
  end.

(** The value of [int(s)] for a non-empty string of decimal digits; the
    conversion with the interpreter's digit limit is [int_conversion]. *)
Definition int_of (s : string) : Z := digits_acc 0 s.

Fixpoint split_dot (s : string) : string * option string :=
  match s with
  | EmptyString => (EmptyString, None)
  | String c s' =>
      if Ascii.eqb c "."%char then (EmptyString, Some s')
      else let '(a, b) := split_dot s' in (String c a, b)
  end.

(** [float(s)] on [digits] or [digits.digits]: the rational the decimal
    literal denotes, in lowest terms. *)
Definition float_of (s : string) : Q :=
  match split_dot s with
  | (i, None) => inject_Z (int_of i)
  | (i, Some f) =>
      Qred (Qmake (int_of i * 10 ^ Z.of_nat (String.length f) + int_of f)
                  (Z.to_pos (10 ^ Z.of_nat (String.length f))))
  end.

End PyStr.

(** ** Regular expressions

    The fragment of Python's [re] syntax the source uses: literals,
    character classes, [+] on a class, sequencing, [|], [?] and capturing
    groups.  Matching is the backtracking search of [re]: alternatives are
    tried from the left, [+] and [?] are greedy, and [re.search] returns
    the first match at the leftmost position that has one. *)

Module Re.

Inductive regex : Type :=
| Lit (s : string)
| Cls (p : ascii -> bool)
| Plus (p : ascii -> bool)
| Seq (r1 r2 : regex)
| Alt (r1 r2 : regex)
| Opt (r : regex)
| Grp (n : nat) (r : regex).

(** The groups captured so far, most recent first. *)
Definition captures := list (nat * string).

Fixpoint group (n : nat) (c : captures) : option string :=
  match c with
  | [] => None
  | (m, s) :: c' => if Nat.eqb n m then Some s else group n c'
  end.

Section Matcher.
Context {R : Type}.

Definition or_else (a : option R) (b : unit -> option R) : option R :=
  match a with
  | Some x => Some x
  | None => b tt
  end.

(** [p+] followed by [k]: the longest run first, then shorter ones. *)
Fixpoint plus_then (p : ascii -> bool) (s : string)
         (k : string -> option R) : option R :=
  match s with
  | String c s' =>
      if p c then or_else (plus_then p s' k) (fun _ => k s') else None
  | EmptyString => None
  end.

Fixpoint run (r : regex) (s : string) (c : captures)
         (k : string -> captures -> option R) : option R :=
  match r with
  | Lit l =>
      if PyStr.startswith l s then k (PyStr.drop (String.length l) s) c
      else None
  | Cls p =>
      match s with
      | String a s' => if p a then k s' c else None
      | EmptyString => None
      end
  | Plus p => plus_then p s (fun s' => k s' c)
  | Seq r1 r2 => run r1 s c (fun s1 c1 => run r2 s1 c1 k)
  | Alt r1 r2 => or_else (run r1 s c k) (fun _ => run r2 s c k)
  | Opt r1 => or_else (run r1 s c k) (fun _ => k s c)
  | Grp n r1 =>
      run r1 s c (fun s' c' =>
        k s' ((n, PyStr.take (String.length s - String.length s') s) :: c'))
  end.
End Matcher.

(** [re.match(r, s)]: a match anchored at the start of [s]. *)
Definition match_here (r : regex) (s : string) : option captures :=
  run r s [] (fun _ c => Some c).

(** [re.search(r, s)] *)
Fixpoint search (r : regex) (s : string) : option captures :=
  match match_here r s with
  | Some c => Some c
  | None =>
      match s with
      | EmptyString => None
      | String _ s' => search r s'
      end
  end.

Definition matches (r : regex) (s : string) : bool :=
  match search r s with Some _ => true | None => false end.

(** [(a|b|...)] over literals *)
Fixpoint lits (first : string) (rest : list string) : regex :=
  match rest with
  | [] => Lit first
  | x :: rest' => Alt (Lit first) (lits x rest')
  end.

Fixpoint seq (first : regex) (rest : list regex) : regex :=
  match rest with
  | [] => first
  | x :: rest' => Seq first (seq x rest')
  end.

Definition ws1 : regex := Plus PyStr.is_space.        (* \s+ *)
Definition digits1 : regex := Plus PyStr.is_digit.    (* \d+ *)
Definition digit : regex := Cls PyStr.is_digit.       (* \d *)
Definition dollar_opt : regex := Opt (Lit "$").       (* \$? *)
Definition plural (w : string) : regex := Seq (Lit w) (Opt (Lit "s")).
(** [\d+(?:\.\d{2})?] *)
Definition amount : regex :=
  Seq digits1 (Opt (seq (Lit ".") [digit; digit])).
(** [\d(?:\.\d)?] *)
Definition stars : regex := Seq digit (Opt (Seq (Lit ".") digit)).

End Re.

(** ** Shared Python idioms *)

(** The result of a call that may raise: the value returned, or the message
    [str(e)] of the [Exception] raised. *)
Inductive outcome (A : Type) : Type :=
| Returns (v : A)
| Raises (msg : string).
Arguments Returns {A} v.
Arguments Raises {A} msg.

(** [int(s)] on a string of decimal digits.  [max_str_digits] is the
    interpreter's limit for integer string conversion
    ([sys.get_int_max_str_digits()], 4300 by default where the limit exists,
    0 where it is switched off or absent).  A text of more than 640 digits
    that exceeds the limit raises [ValueError]. *)
Definition int_conversion (max_str_digits : nat) (s : string) : outcome Z :=
  let digits := String.length s in
  if (640 <? digits) && (0 <? max_str_digits) && (max_str_digits <? digits)
  then Raises ("Exceeds the limit (" +:+ pretty max_str_digits
               +:+ " digits) for integer string conversion: value has "
               +:+ pretty digits
               +:+ " digits; use sys.set_int_max_str_digits() to increase the limit")
  else Returns (PyStr.int_of s).

(** [d[k] = v] on a dictionary kept in insertion order: an existing key keeps
    its place, a new key goes last. *)
Fixpoint assoc_set {K V : Type} (eqb : K -> K -> bool) (k : K) (v : V)
         (d : list (K * V)) : list (K * V) :=
  match d with
  | [] => [(k, v)]
  | (k', v') :: d' =>
      if eqb k k' then (k, v) :: d' else (k', v') :: assoc_set eqb k v d'
  end.

(** [max(xs, key=key)] on a non-empty sequence [x :: xs]: the first element
    whose key is maximal. *)
Fixpoint py_max_by {A : Type} (key : A -> Q) (best : A) (xs : list A) : A :=
  match xs with
  | [] => best
  | x :: xs' =>
      py_max_by key (if Qle_bool (key x) (key best) then best else x) xs'
  end.

(** [min(a, b)] and [max(a, b)] on floats: the first argument wins a tie. *)
Definition py_min2 (a b : Q) : Q := if Qle_bool a b then a else b.
Definition py_max2 (a b : Q) : Q := if Qle_bool b a then a else b.

(** ** Intent classifier ([src/query/intent_classifier.py]) *)

Inductive QueryIntent : Set :=
| SEARCH | RECOMMENDATION | COMPARISON | ANALYTICS | FILTER | INFORMATION
| UNKNOWN.

#[global] Instance QueryIntent_eq_dec : EqDecision QueryIntent.
Proof. solve_decision. Defined.

Definition intent_index (i : QueryIntent) : nat :=
  match i with
  | SEARCH => 0 | RECOMMENDATION => 1 | COMPARISON => 2 | ANALYTICS => 3
  | FILTER => 4 | INFORMATION => 5 | UNKNOWN => 6
  end.

Definition intent_of_index (n : nat) : QueryIntent :=
  match n with
  | 0 => SEARCH | 1 => RECOMMENDATION | 2 => COMPARISON | 3 => ANALYTICS
  | 4 => FILTER | 5 => INFORMATION | _ => UNKNOWN
  end.

#[global] Instance QueryIntent_countable : Countable QueryIntent.
Proof.
  apply (inj_countable' intent_index intent_of_index).
  intros []; reflexivity.
Defined.

Definition intent_eqb (a b : QueryIntent) : bool := bool_decide (a = b).

(** The members of the enumeration, in definition order. *)
Definition all_intents : list QueryIntent :=
  [SEARCH; RECOMMENDATION; COMPARISON; ANALYTICS; FILTER; INFORMATION; UNKNOWN].

(** [intent.value] *)
Definition intent_value (i : QueryIntent) : string :=
  match i with
  | SEARCH => "search"
  | RECOMMENDATION => "recommendation"
  | COMPARISON => "comparison"
  | ANALYTICS => "analytics"
  | FILTER => "filter"
  | INFORMATION => "information"
  | UNKNOWN => "unknown"
  end.

Record IntentPatterns : Type := {
  keywords : list string;
  patterns : list Re.regex
}.

Module IntentClassifier.
Import Re.

Definition search_patterns : list regex := [
  (* (find|search|looking for|show me|get me)\s+(books?|novels?) *)
  seq (Grp 1 (lits "find" ["search"; "looking for"; "show me"; "get me"]))
      [ws1; Grp 2 (Alt (plural "book") (plural "novel"))];
  (* (want|need)\s+(a|an|some)\s+(book|novel) *)
  seq (Grp 1 (lits "want" ["need"]))
      [ws1; Grp 2 (lits "a" ["an"; "some"]); ws1; Grp 3 (lits "book" ["novel"])];
  (* books?\s+(about|on|related to) *)
  seq (plural "book") [ws1; Grp 1 (lits "about" ["on"; "related to"])]
].

Definition recommendation_patterns : list regex := [
  (* (recommend|suggest)\s+(books?|something) *)
  seq (Grp 1 (lits "recommend" ["suggest"]))
      [ws1; Grp 2 (Alt (plural "book") (Lit "something"))];
  (* (similar|like)\s+ *)
  seq (Grp 1 (lits "similar" ["like"])) [ws1];
  (* based on *)
  Lit "based on";
  (* what should I read *)
  Lit "what should I read";
  (* good books?\s+(for|about) *)
  seq (Lit "good ") [plural "book"; ws1; Grp 1 (lits "for" ["about"])]
].

Definition comparison_patterns : list regex := [
  (* (compare|comparison)\s+ *)
  seq (Grp 1 (lits "compare" ["comparison"])) [ws1];
  (* (cheaper|better|best)\s+(store|price) *)
  seq (Grp 1 (lits "cheaper" ["better"; "best"]))
      [ws1; Grp 2 (lits "store" ["price"])];
  (* (which|what)\s+(store|bookstore)\s+(is|has) *)
  seq (Grp 1 (lits "which" ["what"]))
      [ws1; Grp 2 (lits "store" ["bookstore"]); ws1; Grp 3 (lits "is" ["has"])];
  (* (versus|vs\.?)\s+ *)
  seq (Grp 1 (Alt (Lit "versus") (Seq (Lit "vs") (Opt (Lit "."))))) [ws1];
  (* difference between *)
  Lit "difference between"
].

Definition analytics_patterns : list regex := [
  (* (most|least)\s+(popular|expensive|rated) *)
  seq (Grp 1 (lits "most" ["least"]))
      [ws1; Grp 2 (lits "popular" ["expensive"; "rated"])];
  (* (average|mean)\s+(price|rating) *)
  seq (Grp 1 (lits "average" ["mean"])) [ws1; Grp 2 (lits "price" ["rating"])];
  (* (how many|total|count) *)
  Grp 1 (lits "how many" ["total"; "count"]);
  (* statistics\s+(about|on|for) *)
  seq (Lit "statistics") [ws1; Grp 1 (lits "about" ["on"; "for"])];
  (* (top|best)\s+\d+ *)
  seq (Grp 1 (lits "top" ["best"])) [ws1; digits1]
].

Definition filter_patterns : list regex := [
  (* (under|below|less than)\s+\$?\d+ *)
  seq (Grp 1 (lits "under" ["below"; "less than"])) [ws1; dollar_opt; digits1];
  (* (over|above|more than)\s+\$?\d+ *)
  seq (Grp 1 (lits "over" ["above"; "more than"])) [ws1; dollar_opt; digits1];
  (* between\s+\$?\d+\s+and\s+\$?\d+ *)
  seq (Lit "between")
      [ws1; dollar_opt; digits1; ws1; Lit "and"; ws1; dollar_opt; digits1];
  (* (only|just)\s+(available|in stock) *)
  seq (Grp 1 (lits "only" ["just"])) [ws1; Grp 2 (lits "available" ["in stock"])];
  (* rated\s+(above|below|over)\s+\d *)
  seq (Lit "rated") [ws1; Grp 1 (lits "above" ["below"; "over"]); ws1; digit]
].

Definition information_patterns : list regex := [
  (* tell me about *)
  Lit "tell me about";
  (* (information|details)\s+(about|on) *)
  seq (Grp 1 (lits "information" ["details"])) [ws1; Grp 2 (lits "about" ["on"])];
  (* (describe|explain) *)
  Grp 1 (lits "describe" ["explain"]);
  (* what is\s+ *)
  seq (Lit "what is") [ws1]
].

(** [self.intent_patterns], in insertion order *)
Definition intent_patterns : list (QueryIntent * IntentPatterns) := [
  (SEARCH,
   {| keywords := ["find"; "search"; "looking for"; "show me"; "get"; "want"; "need"];
      patterns := search_patterns |});
  (RECOMMENDATION,
   {| keywords := ["recommend"; "suggest"; "similar"; "like"; "based on"];
      patterns := recommendation_patterns |});
  (COMPARISON,
   {| keywords := ["compare"; "cheaper"; "better"; "versus"; "vs"; "difference"; "which"];
      patterns := comparison_patterns |});
  (ANALYTICS,
   {| keywords := ["most popular"; "average"; "statistics"; "how many"; "total"; "count"];
      patterns := analytics_patterns |});
  (FILTER,
   {| keywords := ["under"; "over"; "between"; "more than"; "less than"; "only"];
      patterns := filter_patterns |});
  (INFORMATION,
   {| keywords := ["tell me about"; "information"; "details"; "describe"; "what is"];
      patterns := information_patterns |})
].

(** The number of elements a generator [1 for x in xs if p x] yields,
    summed. *)
Definition count_if {A : Type} (p : A -> bool) (xs : list A) : Z :=
  Z.of_nat (length (List.filter p xs)).

(** The body of the loop over [intent_patterns] for one intent.  A score is
    [k * 0.3 + p * 0.5] capped at 1; two such rationals compare as the
    floats the source computes do. *)
Definition intent_score (pats : IntentPatterns) (query_lower : string) : Q :=
  let score := 0%Q in
  let keyword_matches :=
    count_if (fun kw => PyStr.contains kw query_lower) (keywords pats) in
  let score := (score + inject_Z keyword_matches * (3 # 10))%Q in
  let pattern_matches :=
    count_if (fun pattern => Re.matches pattern query_lower) (patterns pats) in
  let score := (score + inject_Z pattern_matches * (5 # 10))%Q in
  py_min2 score 1%Q.

(** [intent_scores] after the loop: every member starts at [0.0] and the
    members that have patterns receive their capped score. *)
Definition intent_scores (query_lower : string) : list (QueryIntent * Q) :=
  fold_left
    (fun scores '(intent, pats) =>
       assoc_set intent_eqb intent (intent_score pats query_lower) scores)
    intent_patterns
    (List.map (fun intent => (intent, 0%Q)) all_intents).

(** [max(intent_scores.items(), key=lambda x: x[1])] *)
Definition best_intent (query_lower : string) : QueryIntent * Q :=
  match intent_scores query_lower with
  | [] => (UNKNOWN, 0%Q)
  | x :: xs => py_max_by snd x xs
  end.

Definition classify (query : string) : QueryIntent * Q :=
  let query_lower := PyStr.strip (PyStr.lower query) in
  let best := best_intent query_lower in
  if Qlt_le_dec (snd best) (3 # 10) then (UNKNOWN, snd best)
  else (fst best, snd best).

(** The largest of the per-intent scores of a query. *)
Definition max_score (query : string) : Q :=
  let query_lower := PyStr.strip (PyStr.lower query) in
  match intent_scores query_lower with
  | [] => 0%Q
  | (_, s) :: rest => fold_left (fun m x => Qmax m (snd x)) rest s
  end.

End IntentClassifier.

(** ** Entity extractor ([src/query/entity_extractor.py]) *)

(** A [{'min': .., 'max': ..}] dictionary in which either key may be
    missing. *)
Record Range : Type := {
  range_min : option Q;
  range_max : option Q
}.

Definition empty_range : Range := {| range_min := None; range_max := None |}.
Definition set_min (v : Q) (r : Range) : Range :=
  {| range_min := Some v; range_max := range_max r |}.
Definition set_max (v : Q) (r : Range) : Range :=
  {| range_min := range_min r; range_max := Some v |}.

(** Truth value of the dictionary: false when it has no key. *)
Definition range_truthy (r : Range) : bool :=
  match range_min r, range_max r with
  | None, None => false
  | _, _ => true
  end.

(** [d if d else None] *)
Definition range_or_none (r : Range) : option Range :=
  if range_truthy r then Some r else None.

Record Entities : Type := {
  genres : list string;
  price_range : option Range;
  rating_range : option Range;
  authors : list string;
  stores : list string;
  format : option string;
  availability : option bool;
  sort_by : option string;
  limit : option Z
}.

Module EntityExtractor.
Import Re.

(** [self.genre_keywords], in insertion order *)
Definition genre_keywords : list (string * list string) := [
  ("science fiction", ["sci-fi"; "scifi"; "science fiction"; "sf"; "space"; "futuristic"]);
  ("fantasy", ["fantasy"; "magic"; "wizard"; "dragon"; "medieval"; "quest"]);
  ("mystery", ["mystery"; "detective"; "crime"; "thriller"; "investigation"; "murder"]);
  ("romance", ["romance"; "love"; "romantic"; "relationship"]);
  ("horror", ["horror"; "scary"; "terror"; "haunted"; "ghost"]);
  ("biography", ["biography"; "autobiography"; "memoir"; "life story"]);
  ("history", ["history"; "historical"; "war"; "ancient"]);
  ("self-help", ["self-help"; "self help"; "personal development"; "motivation"]);
  ("children", ["children"; "kids"; "young readers"; "picture book"]);
  ("young adult", ["ya"; "young adult"; "teen"; "teenage"])
].

(** [([AB]|a|b)] *)
Definition store_letter : regex :=
  Alt (Cls (fun c => Ascii.eqb c "A" || Ascii.eqb c "B")) (lits "a" ["b"]).

(** [self.store_patterns] *)
Definition store_patterns : list regex := [
  (* (store|bookstore)\s+([AB]|a|b) *)
  seq (Grp 1 (lits "store" ["bookstore"])) [ws1; Grp 2 store_letter];
  (* (bookstore|shop)\s+([AB]|a|b) *)
  seq (Grp 1 (lits "bookstore" ["shop"])) [ws1; Grp 2 store_letter]
].

(** [any(phrase in query for phrase in phrases)] *)
Definition any_in (phrases : list string) (query : string) : bool :=
  existsb (fun phrase => PyStr.contains phrase query) phrases.

(** [list(set(xs))]: the distinct elements.  Python leaves the order of a
    set unspecified; the order of first occurrence is kept here. *)
Definition list_of_set (xs : list string) : list string := remove_dups xs.

(** One genre per table row that has a keyword in the query. *)
Definition _extract_genres (query : string) : list string :=
  let found_genres :=
    List.map fst (List.filter (fun '(_, kws) => any_in kws query) genre_keywords) in
  list_of_set found_genres.

(** [float(m.group(n))] for a group that took part in the match *)
Definition float_group (n : nat) (m : captures) : Q :=
  match group n m with
  | Some s => PyStr.float_of s
  | None => 0%Q
  end.

Definition int_group (n : nat) (m : captures) : Z :=
  match group n m with
  | Some s => PyStr.int_of s
  | None => 0%Z
  end.

Definition _extract_price_range (query : string) : option Range :=
  let price_range := empty_range in
  (* (under|below|less than)\s+\$?(\d+(?:\.\d{2})?) *)
  let under_match :=
    search (seq (Grp 1 (lits "under" ["below"; "less than"]))
                [ws1; dollar_opt; Grp 2 amount]) query in
  let price_range :=
    match under_match with
    | Some m => set_max (float_group 2 m) price_range
    | None => price_range
    end in
  (* (over|above|more than)\s+\$?(\d+(?:\.\d{2})?) *)
  let over_match :=
    search (seq (Grp 1 (lits "over" ["above"; "more than"]))
                [ws1; dollar_opt; Grp 2 amount]) query in
  let price_range :=
    match over_match with
    | Some m => set_min (float_group 2 m) price_range
    | None => price_range
    end in
  (* between\s+\$?(\d+(?:\.\d{2})?)\s+and\s+\$?(\d+(?:\.\d{2})?) *)
  let between_match :=
    search (seq (Lit "between")
                [ws1; dollar_opt; Grp 1 amount; ws1; Lit "and"; ws1;
                 dollar_opt; Grp 2 amount]) query in
  let price_range :=
    match between_match with
    | Some m => set_max (float_group 2 m) (set_min (float_group 1 m) price_range)
    | None => price_range
    end in
  range_or_none price_range.

Definition _extract_rating_range (query : string) : option Range :=
  let rating_range := empty_range in
  (* rated?\s+(above|over)\s+(\d(?:\.\d)?) *)
  let above_match :=
    search (seq (Lit "rate")
                [Opt (Lit "d"); ws1; Grp 1 (lits "above" ["over"]); ws1;
                 Grp 2 stars]) query in
  let rating_range :=
    match above_match with
    | Some m => set_min (float_group 2 m) rating_range
    | None => rating_range
    end in
  (* rated?\s+(below|under)\s+(\d(?:\.\d)?) *)
  let below_match :=
    search (seq (Lit "rate")
                [Opt (Lit "d"); ws1; Grp 1 (lits "below" ["under"]); ws1;
                 Grp 2 stars]) query in
  let rating_range :=
    match below_match with
    | Some m => set_max (float_group 2 m) rating_range
    | None => rating_range
    end in
  let rating_range :=
    if PyStr.contains "highly rated" query || PyStr.contains "high rating" query
    then set_min 4%Q rating_range
    else rating_range in
  range_or_none rating_range.

Definition _extract_stores (query : string) : list string :=
  let stores :=
    fold_left
      (fun stores pattern =>
         match search pattern query with
         | Some m =>
             let store_letter :=
               PyStr.upper (default "" (group 2 m)) in
             stores ++ ["store_" +:+ PyStr.lower store_letter]
         | None => stores
         end)
      store_patterns [] in
  if PyStr.contains "both stores" query || PyStr.contains "all stores" query
  then ["store_a"; "store_b"]
  else stores.

(** [format_keywords], in insertion order *)
Definition format_keywords : list (string * list string) := [
  ("ebook", ["ebook"; "e-book"; "digital"; "kindle"]);
  ("audiobook", ["audiobook"; "audio book"; "audible"]);
  ("hardcover", ["hardcover"; "hardback"]);
  ("paperback", ["paperback"; "softcover"])
].

(** The first row of the table with a keyword in the query decides. *)
Definition _extract_format (query : string) : option string :=
  match List.filter (fun '(_, kws) => any_in kws query) format_keywords with
  | (format_type, _) :: _ => Some (PyStr.capitalize format_type)
  | [] => None
  end.

Definition _extract_availability (query : string) : option bool :=
  if any_in ["in stock"; "available"; "available now"] query then Some true
  else if any_in ["out of stock"; "unavailable"] query then Some false
  else None.

Definition _extract_sort_preference (query : string) : option string :=
  if PyStr.contains "cheapest" query || PyStr.contains "lowest price" query
  then Some "price_asc"
  else if PyStr.contains "most expensive" query || PyStr.contains "highest price" query
  then Some "price_desc"
  else if PyStr.contains "highest rated" query || PyStr.contains "best rated" query
  then Some "rating_desc"
  else if PyStr.contains "newest" query || PyStr.contains "most recent" query
  then Some "year_desc"
  else if PyStr.contains "oldest" query
  then Some "year_asc"
  else None.

Definition _extract_limit (query : string) : option Z :=
  (* top\s+(\d+) *)
  match search (seq (Lit "top") [ws1; Grp 1 digits1]) query with
  | Some top_match => Some (int_group 1 top_match)
  | None =>
      (* (\d+)\s+books? *)
      match search (seq (Grp 1 digits1) [ws1; plural "book"]) query with
      | Some books_match => Some (int_group 1 books_match)
      | None =>
          (* first\s+(\d+) *)
          match search (seq (Lit "first") [ws1; Grp 1 digits1]) query with
          | Some first_match => Some (int_group 1 first_match)
          | None => None
          end
      end
  end.

Definition extract (query : string) : Entities :=
  let query_lower := PyStr.strip (PyStr.lower query) in
  {| genres := _extract_genres query_lower;
     price_range := _extract_price_range query_lower;
     rating_range := _extract_rating_range query_lower;
     authors := [];
     stores := _extract_stores query_lower;
     format := _extract_format query_lower;
     availability := _extract_availability query_lower;
     sort_by := _extract_sort_preference query_lower;
     limit := _extract_limit query_lower |}.

(** The text [_extract_limit] hands to [int]: group 1 of the first of its
    three patterns that matches. *)
Definition limit_text (query : string) : option string :=
  match search (seq (Lit "top") [ws1; Grp 1 digits1]) query with
  | Some top_match => Some (default "" (group 1 top_match))
  | None =>
      match search (seq (Grp 1 digits1) [ws1; plural "book"]) query with
      | Some books_match => Some (default "" (group 1 books_match))
      | None =>
          match search (seq (Lit "first") [ws1; Grp 1 digits1]) query with
          | Some first_match => Some (default "" (group 1 first_match))
          | None => None
          end
      end
  end.

(** [_extract_limit] as a call: the one [int] it makes may raise. *)
Definition _extract_limit_call (max_str_digits : nat) (query : string)
  : outcome (option Z) :=
  match limit_text query with
  | Some digits =>
      match int_conversion max_str_digits digits with
      | Returns n => Returns (Some n)
      | Raises msg => Raises msg
      end
  | None => Returns None
  end.

End EntityExtractor.

(** ** Query processor ([src/query/processor.py]) *)

(** The value stored under one key of the filter dictionary. *)
Inductive FilterValue : Type :=
| EqStr (s : string)                 (* key: 'text' *)
| EqBool (b : bool)                  (* key: True / False *)
| Bounds (gte lte : option Q)        (* key: {'$gte': .., '$lte': ..} *)
| InList (l : list string).          (* key: {'$in': [...]} *)

Record QueryMetadata : Type := {
  query_length : nat;
  word_count : nat;
  has_price_constraint : bool;
  has_rating_constraint : bool;
  has_store_preference : bool;
  genre_count : nat;
  sort_preference : option string;
  result_limit : option Z;
  requires_comparison : bool;
  requires_aggregation : bool
}.

Record ParsedQuery : Type := {
  original_query : string;
  intent : QueryIntent;
  confidence : Q;
  entities : Entities;
  pq_keywords : list string;
  filters : gmap string FilterValue;
  metadata : QueryMetadata
}.

Module QueryProcessor.

Definition stop_words : gset string :=
  list_to_set [
    "a"; "an"; "the"; "and"; "or"; "but"; "in"; "on"; "at"; "to"; "for";
    "of"; "with"; "by"; "from"; "about"; "as"; "is"; "are"; "was"; "were";
    "be"; "been"; "being"; "have"; "has"; "had"; "do"; "does"; "did";
    "will"; "would"; "should"; "could"; "may"; "might"; "can"; "i"; "you";
    "he"; "she"; "it"; "we"; "they"; "me"; "him"; "her"; "us"; "them";
    "find"; "search"; "looking"; "show"; "get"; "want"; "need"
  ].

Definition _extract_keywords (query : string) : list string :=
  let words := PyStr.findall_words (PyStr.lower query) in
  List.filter
    (fun word => bool_decide (word ∉ stop_words) && (2 <? String.length word))
    words.

(** [filters.setdefault(key, {})['$gte'] = v] *)
Definition set_gte (key : string) (v : Q) (filters : gmap string FilterValue)
  : gmap string FilterValue :=
  match filters !! key with
  | Some (Bounds _ lte) => <[key := Bounds (Some v) lte]> filters
  | _ => <[key := Bounds (Some v) None]> filters
  end.

(** [filters.setdefault(key, {})['$lte'] = v] *)
Definition set_lte (key : string) (v : Q) (filters : gmap string FilterValue)
  : gmap string FilterValue :=
  match filters !! key with
  | Some (Bounds gte _) => <[key := Bounds gte (Some v)]> filters
  | _ => <[key := Bounds None (Some v)]> filters
  end.

(** The two [if 'min' in r] / [if 'max' in r] updates for one range. *)
Definition range_filter (key : string) (r : Range)
           (filters : gmap string FilterValue) : gmap string FilterValue :=
  let filters :=
    match range_min r with
    | Some v => set_gte key v filters
    | None => filters
    end in
  match range_max r with
  | Some v => set_lte key v filters
  | None => filters
  end.

(** Equality for one value, [$in] for any other non-empty list. *)
Definition membership_filter (key : string) (values : list string)
           (filters : gmap string FilterValue) : gmap string FilterValue :=
  match values with
  | [] => filters
  | [v] => <[key := EqStr v]> filters
  | _ => <[key := InList values]> filters
  end.

Definition _build_filters (entities : Entities) : gmap string FilterValue :=
  let filters : gmap string FilterValue := ∅ in
  (* Price filters *)
  let filters :=
    match price_range entities with
    | Some r => if range_truthy r then range_filter "price" r filters else filters
    | None => filters
    end in
  (* Rating filters *)
  let filters :=
    match rating_range entities with
    | Some r => if range_truthy r then range_filter "rating" r filters else filters
    | None => filters
    end in
  (* Store filters *)
  let filters := membership_filter "store_id" (stores entities) filters in
  (* Format filters *)
  let filters :=
    match format entities with
    | Some f => if String.eqb f "" then filters else <["format_type" := EqStr f]> filters
    | None => filters
    end in
  (* Availability filters *)
  let filters :=
    match availability entities with
    | Some b => <["availability" := EqBool b]> filters
    | None => filters
    end in
  (* Genre filters *)
  membership_filter "genre" (genres entities) filters.

Definition is_some {A : Type} (o : option A) : bool :=
  match o with Some _ => true | None => false end.

Definition _extract_metadata (query : string) (intent : QueryIntent)
           (entities : Entities) : QueryMetadata :=
  {| query_length := String.length query;
     word_count := length (PyStr.split query);
     has_price_constraint := is_some (price_range entities);
     has_rating_constraint := is_some (rating_range entities);
     has_store_preference := (0 <? length (stores entities));
     genre_count := length (genres entities);
     sort_preference := sort_by entities;
     result_limit := limit entities;
     requires_comparison := intent_eqb intent COMPARISON;
     requires_aggregation := intent_eqb intent ANALYTICS |}.

Definition process (query : string) : ParsedQuery :=
  let '(intent, confidence) := IntentClassifier.classify query in
  let entities := EntityExtractor.extract query in
  let keywords := _extract_keywords query in
  let filters := _build_filters entities in
  let metadata := _extract_metadata query intent entities in
  {| original_query := query;
     intent := intent;
     confidence := confidence;
     entities := entities;
     pq_keywords := keywords;
     filters := filters;
     metadata := metadata |}.

(** [process(query)] as a call.  The [int] of the limit extraction is the
    only step that can raise; when it does not, the value is
    [process query]. *)
Definition process_call (max_str_digits : nat) (query : string)
  : outcome ParsedQuery :=
  match EntityExtractor._extract_limit_call max_str_digits
          (PyStr.strip (PyStr.lower query)) with
  | Returns _ => Returns (process query)
  | Raises msg => Raises msg
  end.

End QueryProcessor.

(** The attribute names the search collaborator accepts in a filter. *)
Definition filter_whitelist : gset string :=
  {[ "price"; "rating"; "store_id"; "format_type"; "availability"; "genre" ]}.

(** ** Retrieved items and the search collaborator *)

(** The fields of a hit's [metadata] the retriever reads.  A field read with
    [.get] is optional: [None] stands for a missing key and for a stored
    [None] alike. *)
Record BookMetadata : Type := {
  title : string;
  author : string;
  genre : string;
  price : Q;
  rating : option Q;
  store_id : string;
  store_name : string;
  publisher : option string;
  publication_year : option Z;
  format_type : option string;
  md_availability : bool
}.

(** One hit: [{'id': .., 'score': .., 'metadata': .., 'document': ..}] *)
Record Item : Type := {
  item_id : string;
  score : Q;
  item_metadata : BookMetadata;
  document : string
}.

Definition option_eqb {A : Type} (eqb : A -> A -> bool) (a b : option A) : bool :=
  match a, b with
  | Some x, Some y => eqb x y
  | None, None => true
  | _, _ => false
  end.

(** [a == b] on two metadata dictionaries: floats compare by value. *)
Definition metadata_eqb (a b : BookMetadata) : bool :=
  String.eqb (title a) (title b) &&
  String.eqb (author a) (author b) &&
  String.eqb (genre a) (genre b) &&
  Qeq_bool (price a) (price b) &&
  option_eqb Qeq_bool (rating a) (rating b) &&
  String.eqb (store_id a) (store_id b) &&
  String.eqb (store_name a) (store_name b) &&
  option_eqb String.eqb (publisher a) (publisher b) &&
  option_eqb Z.eqb (publication_year a) (publication_year b) &&
  option_eqb String.eqb (format_type a) (format_type b) &&
  Bool.eqb (md_availability a) (md_availability b).

(** [a == b] on two hits *)
Definition item_eqb (a b : Item) : bool :=
  String.eqb (item_id a) (item_id b) &&
  Qeq_bool (score a) (score b) &&
  metadata_eqb (item_metadata a) (item_metadata b) &&
  String.eqb (document a) (document b).

(** [x in xs] *)
Definition py_in (x : Item) (xs : list Item) : bool := existsb (item_eqb x) xs.

(** [xs[:n]] for any integer [n]: a negative [n] counts from the end. *)
Definition py_take {A : Type} (n : Z) (xs : list A) : list A :=
  if (0 <=? n)%Z then firstn (Z.to_nat n) xs
  else firstn (length xs - Z.to_nat (- n)) xs.

(** [sorted(xs, key=..)]: a stable sort; [le a b] holds when [a] may stand
    before [b]. *)
Fixpoint sorted_insert {A : Type} (le : A -> A -> bool) (x : A) (xs : list A)
  : list A :=
  match xs with
  | [] => [x]
  | y :: ys => if le x y then x :: y :: ys else y :: sorted_insert le x ys
  end.

Definition py_sorted {A : Type} (le : A -> A -> bool) (xs : list A) : list A :=
  fold_right (sorted_insert le) [] xs.

(** [sum(xs)] *)
Definition py_sum (xs : list Q) : Q := fold_left Qplus xs 0%Q.

(** [min(xs)] and [max(xs)]: the first smallest and first largest element;
    [ValueError] on an empty list. *)
Definition py_min (xs : list Q) : outcome Q :=
  match xs with
  | [] => Raises "min() arg is an empty sequence"
  | x :: xs' => Returns (fold_left py_min2 xs' x)
  end.

Definition py_max (xs : list Q) : outcome Q :=
  match xs with
  | [] => Raises "max() arg is an empty sequence"
  | x :: xs' => Returns (fold_left py_max2 xs' x)
  end.

(** [sum(xs) / len(xs)] *)
Definition py_mean (xs : list Q) : outcome Q :=
  match xs with
  | [] => Raises "division by zero"
  | _ => Returns (py_sum xs / inject_Z (Z.of_nat (length xs)))%Q
  end.

(** Truth value of [d.get('rating')]: a present, non-zero number. *)
Definition rating_truthy (r : option Q) : bool :=
  match r with
  | Some v => negb (Qeq_bool v 0)
  | None => false
  end.

(** One call [indexer.search_books(query=.., n_results=.., filters=..)] *)
Record SearchCall : Type := {
  call_query : string;
  call_n_results : Z;
  call_filters : gmap string FilterValue
}.

(** The collaborator: what a call answers, or the error it raises. *)
Definition Indexer : Type :=
  string -> Z -> gmap string FilterValue -> outcome (list Item).

(** A retrieval strategy runs against the log of the calls made so far and
    either returns or raises; the log is kept in both cases. *)
Definition Retrieval (A : Type) : Type :=
  list SearchCall -> outcome A * list SearchCall.

Definition ret {A : Type} (v : A) : Retrieval A := fun log => (Returns v, log).

Definition bind {A B : Type} (m : Retrieval A) (f : A -> Retrieval B)
  : Retrieval B :=
  fun log =>
    match m log with
    | (Returns v, log') => f v log'
    | (Raises msg, log') => (Raises msg, log')
    end.

Definition lift {A : Type} (o : outcome A) : Retrieval A := fun log => (o, log).

Notation "'let*' x ':=' m 'in' f" := (bind m (fun x => f))
  (at level 10, x name, m at level 100, f at level 200).

Definition search_books (indexer : Indexer) (query : string) (n_results : Z)
           (filters : gmap string FilterValue) : Retrieval (list Item) :=
  fun log =>
    (indexer query n_results filters,
     log ++ [{| call_query := query; call_n_results := n_results;
                call_filters := filters |}]).

(** The calls a strategy makes when started with an empty log. *)
Definition calls_of {A : Type} (m : Retrieval A) : list SearchCall := snd (m []).
Definition result_of {A : Type} (m : Retrieval A) : outcome A := fst (m []).

(** ** Query retriever ([src/query/retriever.py])

    The recommendation, comparison, analytics, filter and information
    strategies with the helpers they use. *)

(** One store's entry of the comparison result. *)
Record StoreComparison : Type := {
  sc_store_name : string;
  book_count : nat;
  avg_price : Q;
  min_price : Q;
  max_price : Q;
  avg_rating : option Q;
  sample_books : list Item
}.

Record Comparison : Type := {
  cmp_stores : list (string * StoreComparison);
  total_books : nat;
  stores_compared : nat
}.

Record PriceStats : Type := {
  ps_average : Q;
  ps_min : Q;
  ps_max : Q;
  ps_median : Q
}.

(** [{'average': None, 'min': None, 'max': None}], or the four statistics. *)
Inductive RatingStats : Type :=
| NullRatingStats
| RatingStatsOf (average minimum maximum : Q) (count : nat).

Record Analytics : Type := {
  an_total_books : nat;
  price_stats : PriceStats;
  rating_stats : RatingStats;
  genre_distribution : list (string * nat);
  store_distribution : list (string * nat);
  format_distribution : list (string * nat)
}.

(** [{'error': ..}] or the statistics. *)
Inductive AnalyticsResult : Type :=
| AnalyticsError (error : string)
| AnalyticsData (a : Analytics).

Module QueryRetriever.

(** [o or d] on an optional integer: [None] and [0] give [d]. *)
Definition or_default (o : option Z) (d : Z) : Z :=
  match o with
  | Some n => if (n =? 0)%Z then d else n
  | None => d
  end.

Definition _build_search_text (parsed_query : ParsedQuery) : string :=
  let components := pq_keywords parsed_query ++ genres (entities parsed_query) in
  match components with
  | [] =>
      let text := PyStr.lower (original_query parsed_query) in
      let text :=
        fold_left (fun text word => PyStr.replace word "" text)
                  ["find"; "search"; "looking for"; "show me"; "get"; "want"; "need"]
                  text in
      PyStr.strip text
  | _ => PyStr.join " " components
  end.

Definition _build_recommendation_text (parsed_query : ParsedQuery) : string :=
  let components := genres (entities parsed_query) in
  let thematic_keywords :=
    List.filter
      (fun kw => negb (existsb (String.eqb kw)
                         ["book"; "books"; "recommend"; "suggest"; "similar"]))
      (pq_keywords parsed_query) in
  let components := components ++ thematic_keywords in
  match components with
  | [] => "popular books"
  | _ => PyStr.join " " components
  end.

(** First loop of [_diversify_results]: keep a result whose author or
    genre is new, and leave the loop once [limit] results are kept. *)
Fixpoint first_pass (limit : Z) (results diversified : list Item)
         (seen_authors seen_genres : gset string) : list Item :=
  match results with
  | [] => diversified
  | result :: rest =>
      let author := author (item_metadata result) in
      let genre := genre (item_metadata result) in
      if bool_decide (author ∉ seen_authors) || bool_decide (genre ∉ seen_genres)
      then
        let diversified := diversified ++ [result] in
        if (limit <=? Z.of_nat (length diversified))%Z then diversified
        else first_pass limit rest diversified
                        ({[author]} ∪ seen_authors) ({[genre]} ∪ seen_genres)
      else first_pass limit rest diversified seen_authors seen_genres
  end.

(** Second loop: append the results not kept yet, up to [limit]. *)
Fixpoint second_pass (limit : Z) (results diversified : list Item) : list Item :=
  match results with
  | [] => diversified
  | result :: rest =>
      if negb (py_in result diversified)
      then
        let diversified := diversified ++ [result] in
        if (limit <=? Z.of_nat (length diversified))%Z then diversified
        else second_pass limit rest diversified
      else second_pass limit rest diversified
  end.

Definition _diversify_results (results : list Item) (limit : Z) : list Item :=
  let diversified := first_pass limit results [] ∅ ∅ in
  let diversified :=
    if (Z.of_nat (length diversified) <? limit)%Z
    then second_pass limit results diversified
    else diversified in
  py_take limit diversified.

Definition retrieve_for_recommendation (indexer : Indexer)
           (parsed_query : ParsedQuery) : Retrieval (list Item) :=
  let search_text := _build_recommendation_text parsed_query in
  let limit := or_default (limit (entities parsed_query)) 10 in
  let* results :=
    search_books indexer search_text (limit * 2)%Z (filters parsed_query) in
  ret (_diversify_results results limit).

(** [store_data]: the hits of each store, stores in order of first
    appearance. *)
Fixpoint group_by_store (books : list Item) (store_data : list (string * list Item))
  : list (string * list Item) :=
  match books with
  | [] => store_data
  | book :: rest =>
      let sid := store_id (item_metadata book) in
      let current :=
        match List.find (fun '(k, _) => String.eqb k sid) store_data with
        | Some (_, bs) => bs
        | None => []
        end in
      group_by_store rest (assoc_set String.eqb sid (current ++ [book]) store_data)
  end.

(** The ratings that enter a store's mean:
    [[b['metadata'].get('rating', 0) for b in books if b['metadata'].get('rating')]] *)
Definition truthy_ratings (books : list Item) : list Q :=
  omap (fun b => if rating_truthy (rating (item_metadata b))
                 then rating (item_metadata b) else None) books.

Definition store_comparison (books : list Item) : outcome StoreComparison :=
  match books with
  | [] => Raises "list index out of range"
  | first :: _ =>
      let prices := List.map (fun b => price (item_metadata b)) books in
      let ratings := truthy_ratings books in
      match py_mean prices, py_min prices, py_max prices with
      | Returns avg, Returns lo, Returns hi =>
          Returns
            {| sc_store_name := store_name (item_metadata first);
               book_count := length books;
               avg_price := avg;
               min_price := lo;
               max_price := hi;
               avg_rating :=
                 match py_mean ratings with
                 | Returns r => Some r
                 | Raises _ => None
                 end;
               sample_books := firstn 3 books |}
      | Raises msg, _, _ | _, Raises msg, _ | _, _, Raises msg => Raises msg
      end
  end.

(** The loop over [store_data.items()]; an empty group is skipped. *)
Fixpoint compare_stores (store_data : list (string * list Item))
  : outcome (list (string * StoreComparison)) :=
  match store_data with
  | [] => Returns []
  | (sid, books) :: rest =>
      match books with
      | [] => compare_stores rest
      | _ =>
          match store_comparison books, compare_stores rest with
          | Returns c, Returns cs => Returns ((sid, c) :: cs)
          | Raises msg, _ | _, Raises msg => Raises msg
          end
      end
  end.

Definition retrieve_for_comparison (indexer : Indexer)
           (parsed_query : ParsedQuery) : Retrieval Comparison :=
  let search_text := _build_search_text parsed_query in
  let* all_books := search_books indexer search_text 50 ∅ in
  let store_data := group_by_store all_books [] in
  let* stores := lift (compare_stores store_data) in
  ret {| cmp_stores := stores;
         total_books := length all_books;
         stores_compared := length store_data |}.

Definition prices_of (books : list Item) : list Q :=
  List.map (fun b => price (item_metadata b)) books.

(** [sorted(prices)[len(prices) // 2]] *)
Definition median_of (prices : list Q) : outcome Q :=
  match nth_error (py_sorted Qle_bool prices) (length prices / 2) with
  | Some m => Returns m
  | None => Raises "list index out of range"
  end.

Definition _calculate_price_stats (books : list Item) : outcome PriceStats :=
  let prices := prices_of books in
  match py_mean prices with
  | Raises msg => Raises msg
  | Returns avg =>
      match py_min prices, py_max prices, median_of prices with
      | Returns lo, Returns hi, Returns med =>
          Returns {| ps_average := avg; ps_min := lo; ps_max := hi;
                     ps_median := med |}
      | Raises msg, _, _ | _, Raises msg, _ | _, _, Raises msg => Raises msg
      end
  end.

Definition _calculate_rating_stats (books : list Item) : RatingStats :=
  let ratings := truthy_ratings books in
  match py_mean ratings, py_min ratings, py_max ratings with
  | Returns avg, Returns lo, Returns hi =>
      RatingStatsOf avg lo hi (length ratings)
  | _, _, _ => NullRatingStats
  end.

(** [Counter(xs)]: occurrences per value, values in order of first
    appearance. *)
Fixpoint counter (xs : list string) (counts : list (string * nat))
  : list (string * nat) :=
  match xs with
  | [] => counts
  | x :: rest =>
      let n :=
        match List.find (fun '(k, _) => String.eqb k x) counts with
        | Some (_, n) => n
        | None => 0
        end in
      counter rest (assoc_set String.eqb x (S n) counts)
  end.

(** [Counter(xs).most_common()]: by decreasing count, ties in order of
    first appearance. *)
Definition most_common (counts : list (string * nat)) : list (string * nat) :=
  py_sorted (fun a b => snd b <=? snd a) counts.

Definition _calculate_genre_distribution (books : list Item) : list (string * nat) :=
  most_common (counter (List.map (fun b => genre (item_metadata b)) books) []).

Definition _calculate_store_distribution (books : list Item) : list (string * nat) :=
  counter (List.map (fun b => store_name (item_metadata b)) books) [].

Definition _calculate_format_distribution (books : list Item) : list (string * nat) :=
  counter (List.map (fun b => default "Physical" (format_type (item_metadata b)))
                    books) [].

Definition retrieve_for_analytics (indexer : Indexer)
           (parsed_query : ParsedQuery) : Retrieval AnalyticsResult :=
  let search_text := _build_search_text parsed_query in
  let* books := search_books indexer search_text 100 (filters parsed_query) in
  match books with
  | [] => ret (AnalyticsError "No books found for analytics")
  | _ =>
      let* prices := lift (_calculate_price_stats books) in
      ret (AnalyticsData
             {| an_total_books := length books;
                price_stats := prices;
                rating_stats := _calculate_rating_stats books;
                genre_distribution := _calculate_genre_distribution books;
                store_distribution := _calculate_store_distribution books;
                format_distribution := _calculate_format_distribution books |})
  end.

Definition retrieve_for_filter (indexer : Indexer)
           (parsed_query : ParsedQuery) : Retrieval (list Item) :=
  let search_text :=
    match pq_keywords parsed_query with
    | [] => "books"
    | kws => PyStr.join " " kws
    end in
  let limit := or_default (limit (entities parsed_query)) 20 in
  search_books indexer search_text limit (filters parsed_query).

Definition retrieve_for_information (indexer : Indexer)
           (parsed_query : ParsedQuery) : Retrieval (option Item) :=
  let search_text := _build_search_text parsed_query in
  let* results := search_books indexer search_text 1 (filters parsed_query) in
  ret (head results).

(** Sort keys.  A field read with [.get(key, d)] is [d] when the hit does
    not carry it; the collaborator stores no [None] values. *)
Definition price_key (x : Item) : Q := price (item_metadata x).
Definition rating_key (x : Item) : Q := default 0%Q (rating (item_metadata x)).
Definition year_key (d : Z) (x : Item) : Z :=
  default d (publication_year (item_metadata x)).

(** [sorted(results, key=..)] and [sorted(results, key=.., reverse=True)]:
    both keep hits with equal keys in their original order. *)
Definition _apply_sorting (results : list Item) (sort_by : string) : list Item :=
  if String.eqb sort_by "price_asc"
  then py_sorted (fun a b => Qle_bool (price_key a) (price_key b)) results
  else if String.eqb sort_by "price_desc"
  then py_sorted (fun a b => Qle_bool (price_key b) (price_key a)) results
  else if String.eqb sort_by "rating_desc"
  then py_sorted (fun a b => Qle_bool (rating_key b) (rating_key a)) results
  else if String.eqb sort_by "year_desc"
  then py_sorted (fun a b => (year_key 0 b <=? year_key 0 a)%Z) results
  else if String.eqb sort_by "year_asc"
  then py_sorted (fun a b => (year_key 9999 a <=? year_key 9999 b)%Z) results
  else results.

Definition retrieve_for_search (indexer : Indexer)
           (parsed_query : ParsedQuery) : Retrieval (list Item) :=
  let search_text := _build_search_text parsed_query in
  let limit :=
    or_default (limit (entities parsed_query))
               (or_default (result_limit (metadata parsed_query)) 10) in
  let* results := search_books indexer search_text limit (filters parsed_query) in
  match sort_by (entities parsed_query) with
  | Some key =>
      if String.eqb key "" then ret results
      else ret (_apply_sorting results key)
  | None => ret results
  end.

End QueryRetriever.

(** ** Query router ([src/query/router.py]) *)

(** How an f-string renders a member of a [str]-mixed enumeration: its value
    before Python 3.11, the qualified member name from 3.11 on. *)
Inductive PyVersion : Set := Before_3_11 | From_3_11.

(** [intent.name] *)
Definition intent_name (i : QueryIntent) : string :=
  match i with
  | SEARCH => "SEARCH"
  | RECOMMENDATION => "RECOMMENDATION"
  | COMPARISON => "COMPARISON"
  | ANALYTICS => "ANALYTICS"
  | FILTER => "FILTER"
  | INFORMATION => "INFORMATION"
  | UNKNOWN => "UNKNOWN"
  end.

(** [f'{intent}'] *)
Definition format_intent (py : PyVersion) (i : QueryIntent) : string :=
  match py with
  | Before_3_11 => intent_value i
  | From_3_11 => "QueryIntent." +:+ intent_name i
  end.

(** The interpreter that runs the router: its version and its limit for
    integer string conversion. *)
Record Interpreter : Set := {
  version : PyVersion;
  int_max_str_digits : nat
}.

(** An exception in flight: an instance of [Exception] with its message
    [str(e)], or an exception outside [Exception] ([SystemExit],
    [KeyboardInterrupt], [GeneratorExit]) with its class name. *)
Inductive PyException : Type :=
| ExceptionOf (msg : string)
| BaseExceptionOf (name : string).

(** How a call ends: it returns a value, or an exception propagates. *)
Inductive completion (A : Type) : Type :=
| Normal (v : A)
| Abrupt (e : PyException).
Arguments Normal {A} v.
Arguments Abrupt {A} e.

(** The dictionary [route] returns; a key that is not set is [None]. *)
Record Envelope (T : Type) : Type := {
  success : bool;
  error : option string;
  parsed_query : ParsedQuery;
  result : option T
}.
Arguments success {T} _.
Arguments error {T} _.
Arguments parsed_query {T} _.
Arguments result {T} _.

Module QueryRouter.
Section Router.
Context {T : Type}.
Variable py : Interpreter.

Definition Handler : Type := ParsedQuery -> completion T.

(** [self.handlers[intent] = handler] *)
Definition register_handler (intent : QueryIntent) (handler : Handler)
           (handlers : gmap QueryIntent Handler) : gmap QueryIntent Handler :=
  <[intent := handler]> handlers.

(** [process] runs before the [try]: what it raises propagates.  Inside the
    [try], [except Exception] catches the instances of [Exception] only. *)
Definition route (handlers : gmap QueryIntent Handler) (query : string)
  : completion (Envelope T) :=
  match QueryProcessor.process_call (int_max_str_digits py) query with
  | Raises msg => Abrupt (ExceptionOf msg)
  | Returns parsed_query =>
      match handlers !! intent parsed_query with
      | None =>
          Normal
            {| success := false;
               error := Some ("No handler registered for intent: "
                              +:+ format_intent (version py) (intent parsed_query));
               parsed_query := parsed_query;
               result := None |}
      | Some handler =>
          match handler parsed_query with
          | Normal r =>
              Normal {| success := true; error := None;
                        parsed_query := parsed_query; result := Some r |}
          | Abrupt (ExceptionOf msg) =>
              Normal {| success := false; error := Some msg;
                        parsed_query := parsed_query; result := None |}
          | Abrupt (BaseExceptionOf name) => Abrupt (BaseExceptionOf name)
          end
      end
  end.
End Router.
End QueryRouter.

(** ** Retrieval for generation ([src/rag/retrieval.py]) *)

Record ContextMetadata : Type := {
  total_results : nat;
  cm_intent : string;
  cm_confidence : Q;
  filters_applied : gmap string FilterValue;
  has_comparison : bool;
  has_analytics : bool
}.

(** The [context] dictionary; an empty [analytics] or [comparison]
    dictionary is [None]. *)
Record Context : Type := {
  ctx_query : string;
  ctx_parsed_query : ParsedQuery;
  retrieved_books : list Item;
  ctx_analytics : option AnalyticsResult;
  ctx_comparison : option Comparison;
  ctx_metadata : ContextMetadata
}.

Module RAGRetriever.

(** Up to two sample books of every compared store. *)
Definition _extract_books_from_comparison (comparison : Comparison) : list Item :=
  flat_map (fun '(_, store_data) => firstn 2 (sample_books store_data))
           (cmp_stores comparison).

(** The branch on the intent: the books, the comparison and the analytics
    it puts into the context. *)
Definition retrieve_by_intent (indexer : Indexer) (parsed_query : ParsedQuery)
  : Retrieval (list Item * option Comparison * option AnalyticsResult) :=
  match intent parsed_query with
  | SEARCH =>
      let* books := QueryRetriever.retrieve_for_search indexer parsed_query in
      ret (books, None, None)
  | RECOMMENDATION =>
      let* books := QueryRetriever.retrieve_for_recommendation indexer parsed_query in
      ret (books, None, None)
  | COMPARISON =>
      let* comparison := QueryRetriever.retrieve_for_comparison indexer parsed_query in
      ret (_extract_books_from_comparison comparison, Some comparison, None)
  | ANALYTICS =>
      let* analytics := QueryRetriever.retrieve_for_analytics indexer parsed_query in
      let* books := QueryRetriever.retrieve_for_search indexer parsed_query in
      ret (books, None, Some analytics)
  | FILTER =>
      let* books := QueryRetriever.retrieve_for_filter indexer parsed_query in
      ret (books, None, None)
  | INFORMATION =>
      let* book_info := QueryRetriever.retrieve_for_information indexer parsed_query in
      match book_info with
      | Some book => ret ([book], None, None)
      | None => ret ([], None, None)
      end
  | UNKNOWN => ret ([], None, None)
  end.

Definition retrieve_context (max_str_digits : nat) (indexer : Indexer)
           (query : string) (max_results : Z) : Retrieval Context :=
  let* parsed_query := lift (QueryProcessor.process_call max_str_digits query) in
  let* found := retrieve_by_intent indexer parsed_query in
  let '(books, comparison, analytics) := found in
  let books := py_take max_results books in
  ret {| ctx_query := query;
         ctx_parsed_query := parsed_query;
         retrieved_books := books;
         ctx_analytics := analytics;
         ctx_comparison := comparison;
         ctx_metadata :=
           {| total_results := length books;
              cm_intent := intent_value (intent parsed_query);
              cm_confidence := confidence parsed_query;
              filters_applied := filters parsed_query;
              has_comparison := QueryProcessor.is_some comparison;
              has_analytics := QueryProcessor.is_some analytics |} |}.

End RAGRetriever.

(** ** The assembled system ([demo_complete_pipeline.py]) *)

(** What a registered strategy hands back to the router. *)
Inductive StrategyResult : Type :=
| BookList (books : list Item)
| ComparisonData (c : Comparison)
| AnalyticsOutcome (a : AnalyticsResult)
| BookInfo (book : option Item).

Module BookstoreAISystem.

(** A bound method [self.retriever.retrieve_for_x] used as a handler; what
    a strategy raises is an instance of [Exception]. *)
Definition handler_of {A : Type} (wrap : A -> StrategyResult)
           (strategy : ParsedQuery -> Retrieval A)
  : ParsedQuery -> completion StrategyResult :=
  fun parsed_query =>
    match result_of (strategy parsed_query) with
    | Returns v => Normal (wrap v)
    | Raises msg => Abrupt (ExceptionOf msg)
    end.

(** The registry after [setup()]. *)
Definition setup (indexer : Indexer)
  : gmap QueryIntent (ParsedQuery -> completion StrategyResult) :=
  let handlers : gmap QueryIntent (ParsedQuery -> completion StrategyResult) := ∅ in
  let handlers :=
    QueryRouter.register_handler SEARCH
      (handler_of BookList (QueryRetriever.retrieve_for_search indexer)) handlers in
  let handlers :=
    QueryRouter.register_handler RECOMMENDATION
      (handler_of BookList (QueryRetriever.retrieve_for_recommendation indexer)) handlers in
  let handlers :=
    QueryRouter.register_handler COMPARISON
      (handler_of ComparisonData (QueryRetriever.retrieve_for_comparison indexer)) handlers in
  let handlers :=
    QueryRouter.register_handler ANALYTICS
      (handler_of AnalyticsOutcome (QueryRetriever.retrieve_for_analytics indexer)) handlers in
  let handlers :=
    QueryRouter.register_handler FILTER
      (handler_of BookList (QueryRetriever.retrieve_for_filter indexer)) handlers in
  QueryRouter.register_handler INFORMATION
    (handler_of BookInfo (QueryRetriever.retrieve_for_information indexer)) handlers.

(** [query(user_query)] once [setup()] has run. *)
Definition query (py : Interpreter) (indexer : Indexer) (user_query : string)
  : completion (Envelope StrategyResult) :=
  QueryRouter.route py (setup indexer) user_query.

End BookstoreAISystem.

(** ** Vocabulary of the properties *)

(** [c * n] for a one-character string [c] *)
Fixpoint string_repeat (c : ascii) (n : nat) : string :=
  match n with
  | O => EmptyString
  | S n' => String c (string_repeat c n')
  end.

(** A hit with the given identity, price, rating and store; the other fields
    are fixed. *)
Definition sample_book (id author genre : string) (price : Q)
           (rating : option Q) (store : string) : Item :=
  {| item_id := id;
     score := 1 # 2;
     item_metadata :=
       {| title := "Book " +:+ id; author := author; genre := genre;
          price := price; rating := rating;
          store_id := store; store_name := "Bookstore " +:+ store;
          publisher := None; publication_year := None;
          format_type := None; md_availability := true |};
     document := "" |}.

(** Positions of the two middle elements of a sorted list of [n] elements
    when [n] is even; they coincide when [n] is odd. *)
Definition lower_middle_index (n : nat) : nat := (n - 1) / 2.
Definition upper_middle_index (n : nat) : nat := n / 2.

(** No two candidates of the list are equal as Python values. *)
Fixpoint pairwise_distinct (xs : list Item) : Prop :=
  match xs with
  | [] => True
  | x :: xs' => py_in x xs' = false /\ pairwise_distinct xs'
  end.

(** No two items of the list have both the same author and the same
    genre. *)
Definition diverse (xs : list Item) : Prop :=
  forall i j x y,
    i < j -> nth_error xs i = Some x -> nth_error xs j = Some y ->
    ~ (author (item_metadata x) = author (item_metadata y) /\
       genre (item_metadata x) = genre (item_metadata y)).

(** Every character of the string satisfies [p]. *)
Fixpoint all_chars (p : ascii -> bool) (s : string) : bool :=
  match s with
  | EmptyString => true
  | String c s' => p c && all_chars p s'
  end.

(** The entry stored under a key of an insertion-ordered dictionary. *)
Definition assoc_get {V : Type} (k : string) (d : list (string * V)) : option V :=
  match List.find (fun '(k', _) => String.eqb k' k) d with
  | Some (_, v) => Some v
  | None => None
  end.

(** The hits of one store, in rank order. *)
Definition books_of_store (sid : string) (books : list Item) : list Item :=
  List.filter (fun b => String.eqb (store_id (item_metadata b)) sid) books.

(** The filter a range dictionary becomes: [$gte] for [min], [$lte] for
    [max]. *)
Definition range_bounds (r : Range) : FilterValue :=
  Bounds (range_min r) (range_max r).

(** The sum of the counts of a distribution. *)
Definition total_count (d : list (string * nat)) : nat :=
  fold_right (fun kv acc => snd kv + acc) 0 d.

(** * Properties *)

(** ** The embedding on sample inputs *)

Example re_search_price :
  Re.search (Re.seq (Re.Grp 1 (Re.lits "under" ["below"; "less than"]))
                    [Re.ws1; Re.dollar_opt; Re.Grp 2 Re.amount])
            "books under $19.99 please"
  = Some [(2, "19.99"); (1, "under")].
Proof. reflexivity. Qed.

Example re_plus_backtracks :
  Re.search (Re.seq (Re.Grp 1 Re.digits1) [Re.Lit "0 books"]) "top 100 books"
  = Some [(1, "10")].
Proof. reflexivity. Qed.

Example classify_under_20 :
  fst (IntentClassifier.classify "Find science fiction books under $20") = FILTER.
Proof. vm_compute. reflexivity. Qed.

Example extract_stores_once :
  EntityExtractor._extract_stores "cheap books in store a" = ["store_a"].
Proof. vm_compute. reflexivity. Qed.

Example extract_price_between :
  EntityExtractor._extract_price_range "romance books between $10 and $20.50"
  = Some {| range_min := Some (10 # 1); range_max := Some (41 # 2) |}.
Proof. vm_compute. reflexivity. Qed.

Example process_keywords :
  pq_keywords (QueryProcessor.process "Find science fiction books under $20")
  = ["science"; "fiction"; "books"; "under"].
Proof. vm_compute. reflexivity. Qed.

Example process_filters :
  filters (QueryProcessor.process "Find science fiction books under $20")
  = {[ "genre" := EqStr "science fiction"; "price" := Bounds None (Some (20 # 1)) ]}.
Proof. vm_compute. reflexivity. Qed.


(** ** Classification *)

Section MaxBy.
Context {A : Type} (key : A -> Q).

Lemma py_max_by_In (best : A) (xs : list A) :
  In (py_max_by key best xs) (best :: xs).
Proof.
  revert best. induction xs as [|x xs IH]; intros best; simpl.
  - now left.
  - destruct (IH (if Qle_bool (key x) (key best) then best else x)) as [H|H].
    + destruct (Qle_bool (key x) (key best)); rewrite <- H; auto.
    + auto.
Qed.

Lemma py_max_by_ge_best (best : A) (xs : list A) :
  (key best <= key (py_max_by key best xs))%Q.
Proof.
  revert best. induction xs as [|x xs IH]; intros best; simpl.
  - apply Qle_refl.
  - destruct (Qle_bool (key x) (key best)) eqn:E; [apply IH|].
    eapply Qle_trans; [|apply IH].
    apply Qlt_le_weak, Qnot_le_lt. intros H.
    apply Qle_bool_iff in H. congruence.
Qed.

Lemma py_max_by_upper (best : A) (xs : list A) (y : A) :
  In y (best :: xs) -> (key y <= key (py_max_by key best xs))%Q.
Proof.
  revert best. induction xs as [|x xs IH]; intros best Hin; simpl.
  - destruct Hin as [->|[]]. apply Qle_refl.
  - set (b := if Qle_bool (key x) (key best) then best else x).
    assert (Hb : (key best <= key b)%Q /\ (key x <= key b)%Q).
    { subst b. destruct (Qle_bool (key x) (key best)) eqn:E.
      - split; [apply Qle_refl|now apply Qle_bool_iff].
      - split; [|apply Qle_refl].
        apply Qlt_le_weak, Qnot_le_lt. intros H.
        apply Qle_bool_iff in H. congruence. }
    destruct Hin as [->|[->|Hin]].
    + eapply Qle_trans; [apply Hb|apply py_max_by_ge_best].
    + eapply Qle_trans; [apply Hb|apply py_max_by_ge_best].
    + apply IH. now right.
Qed.

(** The key of the element [max] picks is the running maximum of the
    keys. *)
Lemma py_max_by_key_fold (best : A) (xs : list A) (m : Q) :
  (m == key best)%Q ->
  (fold_left (fun m x => Qmax m (key x)) xs m == key (py_max_by key best xs))%Q.
Proof.
  revert best m. induction xs as [|x xs IH]; intros best m Hm; simpl.
  - exact Hm.
  - apply IH. destruct (Qle_bool (key x) (key best)) eqn:E.
    + apply Qle_bool_iff in E. rewrite Hm. apply Q.max_l. exact E.
    + apply Q.max_r. rewrite Hm.
      apply Qlt_le_weak, Qnot_le_lt. intros H.
      apply Qle_bool_iff in H. congruence.
Qed.
End MaxBy.

Lemma best_intent_max_score (query : string) :
  (snd (IntentClassifier.best_intent (PyStr.strip (PyStr.lower query)))
   == IntentClassifier.max_score query)%Q.
Proof.
  unfold IntentClassifier.best_intent, IntentClassifier.max_score.
  destruct (IntentClassifier.intent_scores _) as [|[i s] rest].
  - reflexivity.
  - symmetry. apply (py_max_by_key_fold snd). reflexivity.
Qed.

(** Every per-intent score is at most [max_score]. *)
Lemma max_score_upper_bound (query : string) (i : QueryIntent) (s : Q) :
  In (i, s) (IntentClassifier.intent_scores (PyStr.strip (PyStr.lower query))) ->
  (s <= IntentClassifier.max_score query)%Q.
Proof.
  intros Hin. rewrite <- best_intent_max_score.
  unfold IntentClassifier.best_intent.
  destruct (IntentClassifier.intent_scores _) as [|x rest]; [destruct Hin|].
  apply (py_max_by_upper snd x rest (i, s) Hin).
Qed.

(** C5: when the largest per-intent score of a query is below 0.3, [classify]
    answers [UNKNOWN] and reports that largest score as the confidence. *)
Theorem classify_unknown_below_threshold (query : string) :
  (IntentClassifier.max_score query < 3 # 10)%Q ->
  fst (IntentClassifier.classify query) = UNKNOWN /\
  (snd (IntentClassifier.classify query) == IntentClassifier.max_score query)%Q.
Proof.
  intros Hlt. pose proof (best_intent_max_score query) as Hbest.
  unfold IntentClassifier.classify.
  destruct (Qlt_le_dec _ _) as [_|Hge]; simpl.
  - split; [reflexivity|exact Hbest].
  - exfalso. rewrite Hbest in Hge. apply (Qlt_not_le _ _ Hlt Hge).
Qed.

Lemma classify_unknown_below_threshold_witness :
  (IntentClassifier.max_score "hello there" < 3 # 10)%Q /\
  fst (IntentClassifier.classify "hello there") = UNKNOWN /\
  (snd (IntentClassifier.classify "hello there")
   == IntentClassifier.max_score "hello there")%Q.
Proof.
  split; [vm_compute; reflexivity|].
  apply (classify_unknown_below_threshold "hello there").
  vm_compute; reflexivity.
Defined.

(** ** Processing *)

(** C1 (as the code has it): "Find science fiction books under $20" is
    classified as a filter query, because the price pattern and the keyword
    "under" outweigh the single search keyword; the genre, the price bound
    and the filters are as expected. *)
Theorem process_science_fiction_under_20 :
  let pq := QueryProcessor.process "Find science fiction books under $20" in
  intent pq = FILTER /\
  genres (entities pq) = ["science fiction"] /\
  price_range (entities pq)
    = Some {| range_min := None; range_max := Some (20 # 1) |} /\
  filters pq
    = {[ "genre" := EqStr "science fiction";
         "price" := Bounds None (Some (20 # 1)) ]}.
Proof. vm_compute. repeat split; reflexivity. Qed.

(** C1 (as stated) fails: the intent of that query is not [SEARCH]. *)
Lemma process_science_fiction_under_20_not_search :
  intent (QueryProcessor.process "Find science fiction books under $20") <> SEARCH.
Proof. vm_compute. discriminate. Qed.

Section FilterKeys.
Implicit Types (f : gmap string FilterValue) (key : string).

Lemma dom_set_gte key v f :
  dom (QueryProcessor.set_gte key v f) = {[key]} ∪ dom f.
Proof.
  unfold QueryProcessor.set_gte.
  destruct (f !! key) as [[]|]; apply dom_insert_L.
Qed.

Lemma dom_set_lte key v f :
  dom (QueryProcessor.set_lte key v f) = {[key]} ∪ dom f.
Proof.
  unfold QueryProcessor.set_lte.
  destruct (f !! key) as [[]|]; apply dom_insert_L.
Qed.

Lemma dom_range_filter key r f :
  dom (QueryProcessor.range_filter key r f) ⊆ {[key]} ∪ dom f.
Proof.
  unfold QueryProcessor.range_filter.
  destruct (range_min r), (range_max r);
    rewrite ?dom_set_lte, ?dom_set_gte;
    intros x; rewrite ?elem_of_union; tauto.
Qed.

Lemma dom_membership_filter key values f :
  dom (QueryProcessor.membership_filter key values f) ⊆ {[key]} ∪ dom f.
Proof.
  unfold QueryProcessor.membership_filter.
  destruct values as [|v [|w values]]; rewrite ?dom_insert_L; set_solver.
Qed.
End FilterKeys.

Lemma build_filters_whitelist (e : Entities) :
  dom (QueryProcessor._build_filters e) ⊆ filter_whitelist.
Proof.
  unfold QueryProcessor._build_filters, filter_whitelist.
  etrans; [apply dom_membership_filter|].
  apply union_least; [set_solver|].
  destruct (availability e); rewrite ?dom_insert_L;
    (apply union_least || idtac); try set_solver.
  all: destruct (format e) as [fm|]; [destruct (String.eqb fm "")|];
    rewrite ?dom_insert_L; (apply union_least || idtac); try set_solver.
  all: (etrans; [apply dom_membership_filter|]); apply union_least; [set_solver|].
  all: destruct (rating_range e) as [rr|]; [destruct (range_truthy rr)|].
  all: try (etrans; [apply dom_range_filter|]; apply union_least; [set_solver|]).
  all: destruct (price_range e) as [pr|]; [destruct (range_truthy pr)|].
  all: try (etrans; [apply dom_range_filter|]; apply union_least; [set_solver|]).
  all: set_solver.
Qed.

(** C6: every key of the filters of a processed query is one of [price],
    [rating], [store_id], [format_type], [availability], [genre]. *)
Theorem process_filter_whitelist (query : string) (key : string) :
  key ∈ dom (filters (QueryProcessor.process query)) ->
  key ∈ filter_whitelist.
Proof.
  unfold QueryProcessor.process.
  destruct (IntentClassifier.classify query) as [i c]; simpl.
  apply build_filters_whitelist.
Qed.

Lemma process_filter_whitelist_witness :
  "price" ∈ dom (filters (QueryProcessor.process "fantasy books under $15")) /\
  "price" ∈ filter_whitelist.
Proof.
  assert (H : "price" ∈ dom (filters (QueryProcessor.process "fantasy books under $15"))).
  { apply elem_of_dom. vm_compute. eexists. reflexivity. }
  split; [exact H|].
  exact (process_filter_whitelist "fantasy books under $15" "price" H).
Defined.

(** ** Extraction *)

Lemma startswith_contains (sub s : string) :
  PyStr.startswith sub s = true -> PyStr.contains sub s = true.
Proof. intros H. destruct s; simpl in *; rewrite H; reflexivity. Qed.

Lemma contains_tail (sub : string) (c : ascii) (s : string) :
  PyStr.contains sub s = true -> PyStr.contains sub (String c s) = true.
Proof.
  intros H. change (PyStr.contains sub (String c s))
    with (PyStr.startswith sub (String c s) || PyStr.contains sub s).
  rewrite H. apply orb_true_r.
Qed.

Lemma startswith_cons (a : ascii) (p s : string) :
  PyStr.startswith (String a p) s = true ->
  exists s', s = String a s' /\ PyStr.startswith p s' = true.
Proof.
  destruct s as [|b s']; simpl; [discriminate|].
  destruct (Ascii.eqb a b) eqn:E; [|discriminate].
  apply Ascii.eqb_eq in E as ->. eauto.
Qed.

(** Every text with "unavailable" in it has "available" in it. *)
Lemma contains_unavailable_available (query : string) :
  PyStr.contains "unavailable" query = true ->
  PyStr.contains "available" query = true.
Proof.
  induction query as [|c query IH]; [discriminate|].
  change (PyStr.contains "unavailable" (String c query))
    with (PyStr.startswith "unavailable" (String c query)
          || PyStr.contains "unavailable" query).
  intros H. apply orb_true_iff in H as [H|H].
  - apply startswith_cons in H as (s1 & [= -> ->] & H).
    apply startswith_cons in H as (s2 & -> & H).
    do 2 apply contains_tail. apply startswith_contains, H.
  - apply contains_tail, IH, H.
Qed.

(** The phrase "unavailable" never makes the extractor answer [False]: the
    affirmative test sees the "available" inside it first. *)
Lemma unavailable_reads_as_available (query : string) :
  PyStr.contains "unavailable" query = true ->
  EntityExtractor._extract_availability query = Some true.
Proof.
  intros H. apply contains_unavailable_available in H.
  unfold EntityExtractor._extract_availability, EntityExtractor.any_in.
  simpl. rewrite H. rewrite orb_true_r. reflexivity.
Qed.

(** The two other cases of the availability rule. *)
Lemma availability_out_of_stock :
  availability (EntityExtractor.extract "Which fantasy books are out of stock?")
  = Some false.
Proof. vm_compute. reflexivity. Qed.

Lemma availability_no_opinion :
  availability (EntityExtractor.extract "fantasy books") = None.
Proof. vm_compute. reflexivity. Qed.

(** C7 (where the code departs from it): a query whose only availability
    phrase is "unavailable" is extracted as available. *)
Theorem availability_of_unavailable_is_true :
  PyStr.contains "in stock" "show me unavailable fantasy books" = false /\
  PyStr.contains "unavailable" "show me unavailable fantasy books" = true /\
  availability (EntityExtractor.extract "Show me unavailable fantasy books")
  = Some true.
Proof. vm_compute. repeat split; reflexivity. Qed.

Lemma lookup_membership_filter (key : string) (values : list string)
      (f : gmap string FilterValue) :
  QueryProcessor.membership_filter key values f !! key =
  match values with
  | [] => f !! key
  | [v] => Some (EqStr v)
  | _ => Some (InList values)
  end.
Proof.
  unfold QueryProcessor.membership_filter.
  destruct values as [|v [|w values]]; [reflexivity| |]; apply lookup_insert_eq.
Qed.

Lemma lookup_membership_filter_ne (key other : string) (values : list string)
      (f : gmap string FilterValue) :
  key <> other ->
  QueryProcessor.membership_filter key values f !! other = f !! other.
Proof.
  intros Hne. unfold QueryProcessor.membership_filter.
  destruct values as [|v [|w values]]; [reflexivity| |];
    apply lookup_insert_ne, Hne.
Qed.

Lemma lookup_range_filter_ne (key other : string) (r : Range)
      (f : gmap string FilterValue) :
  key <> other ->
  QueryProcessor.range_filter key r f !! other = f !! other.
Proof.
  intros Hne.
  assert (Hg : forall v (g : gmap string FilterValue),
             QueryProcessor.set_gte key v g !! other = g !! other).
  { intros v g. unfold QueryProcessor.set_gte.
    destruct (g !! key) as [[]|]; apply lookup_insert_ne, Hne. }
  assert (Hl : forall v (g : gmap string FilterValue),
             QueryProcessor.set_lte key v g !! other = g !! other).
  { intros v g. unfold QueryProcessor.set_lte.
    destruct (g !! key) as [[]|]; apply lookup_insert_ne, Hne. }
  unfold QueryProcessor.range_filter.
  destruct (range_min r), (range_max r); rewrite ?Hl, ?Hg; reflexivity.
Qed.

(** The part of [_build_filters] that precedes the store filter sets
    neither [store_id] nor [genre]. *)
Lemma range_filters_other (e : Entities) (other : string) :
  "price" <> other -> "rating" <> other ->
  (let filters : gmap string FilterValue := ∅ in
   let filters :=
     match price_range e with
     | Some r =>
         if range_truthy r then QueryProcessor.range_filter "price" r filters
         else filters
     | None => filters
     end in
   match rating_range e with
   | Some r =>
       if range_truthy r then QueryProcessor.range_filter "rating" r filters
       else filters
   | None => filters
   end) !! other = None.
Proof.
  intros Hp Hr. cbv zeta.
  destruct (rating_range e) as [rr|]; [destruct (range_truthy rr)|];
    rewrite ?(lookup_range_filter_ne "rating") by exact Hr;
    (destruct (price_range e) as [pr|]; [destruct (range_truthy pr)|]);
    rewrite ?(lookup_range_filter_ne "price") by exact Hp;
    apply lookup_empty.
Qed.

(** A list of one store gives an equality filter, a longer list [$in]. *)
Lemma build_filters_store (e : Entities) :
  QueryProcessor._build_filters e !! "store_id" =
  match stores e with
  | [] => None
  | [s] => Some (EqStr s)
  | ss => Some (InList ss)
  end.
Proof.
  unfold QueryProcessor._build_filters. cbv zeta.
  rewrite lookup_membership_filter_ne by discriminate.
  destruct (availability e); rewrite ?lookup_insert_ne by discriminate;
    (destruct (format e) as [fm|]; [destruct (String.eqb fm "")|]);
    rewrite ?lookup_insert_ne by discriminate;
    rewrite lookup_membership_filter;
    (destruct (stores e) as [|s [|t ss]]; [|reflexivity|reflexivity]);
    apply (range_filters_other e "store_id"); discriminate.
Qed.

(** One extracted genre gives an equality filter, several give [$in]. *)
Lemma build_filters_genre (e : Entities) :
  QueryProcessor._build_filters e !! "genre" =
  match genres e with
  | [] => None
  | [g] => Some (EqStr g)
  | gs => Some (InList gs)
  end.
Proof.
  unfold QueryProcessor._build_filters. cbv zeta.
  rewrite lookup_membership_filter.
  destruct (genres e) as [|g [|h gs]]; [|reflexivity|reflexivity].
  destruct (availability e); rewrite ?lookup_insert_ne by discriminate;
    (destruct (format e) as [fm|]; [destruct (String.eqb fm "")|]);
    rewrite ?lookup_insert_ne by discriminate;
    rewrite lookup_membership_filter_ne by discriminate;
    apply (range_filters_other e "genre"); discriminate.
Qed.

(** The genres extracted from a query are pairwise distinct, so [$in] is
    used for genres only when several distinct genres were found. *)
Lemma extract_genres_distinct (query : string) :
  NoDup (genres (EntityExtractor.extract query)).
Proof.
  change (genres (EntityExtractor.extract query))
    with (EntityExtractor._extract_genres (PyStr.strip (PyStr.lower query))).
  unfold EntityExtractor._extract_genres, EntityExtractor.list_of_set.
  apply NoDup_remove_dups.
Qed.

(** A query that names "store a" once yields one store and an equality
    filter. *)
Lemma store_a_single :
  stores (EntityExtractor.extract "fantasy books at store a") = ["store_a"] /\
  filters (QueryProcessor.process "fantasy books at store a") !! "store_id"
  = Some (EqStr "store_a").
Proof. vm_compute. split; reflexivity. Qed.

(** C8 (where the code departs from it): "bookstore a" is matched by both
    store patterns, so the single store is listed twice and the filter is a
    set-membership filter over a list that repeats it. *)
Theorem bookstore_a_store_filter :
  stores (EntityExtractor.extract "fantasy books at bookstore a")
  = ["store_a"; "store_a"] /\
  filters (QueryProcessor.process "fantasy books at bookstore a") !! "store_id"
  = Some (InList ["store_a"; "store_a"]).
Proof. vm_compute. split; reflexivity. Qed.

(** ** Routing *)

Lemma format_intent_names_intent (py : PyVersion) (i : QueryIntent) :
  PyStr.contains (intent_value i) (PyStr.lower (format_intent py i)) = true.
Proof. destruct py, i; vm_compute; reflexivity. Qed.

Lemma extract_limit_call_value (max_str_digits : nat) (query : string)
      (v : option Z) :
  EntityExtractor._extract_limit_call max_str_digits query = Returns v ->
  v = EntityExtractor._extract_limit query.
Proof.
  unfold EntityExtractor._extract_limit_call, EntityExtractor.limit_text,
    EntityExtractor._extract_limit, EntityExtractor.int_group, int_conversion.
  repeat match goal with
         | |- context [match Re.search ?r ?q with _ => _ end] =>
             destruct (Re.search r q)
         end;
    try (intros [= <-]; reflexivity);
    destruct (_ && _); try discriminate; intros [= <-];
    destruct (Re.group 1 _); reflexivity.
Qed.

(** When [process] returns, it returns [process query]. *)
Lemma process_call_value (max_str_digits : nat) (query : string) (pq : ParsedQuery) :
  QueryProcessor.process_call max_str_digits query = Returns pq ->
  pq = QueryProcessor.process query.
Proof.
  unfold QueryProcessor.process_call.
  destruct (EntityExtractor._extract_limit_call _ _); [|discriminate].
  now intros [= <-].
Qed.

(** [process] raises only where [int] rejects the digits of the limit. *)
Lemma process_call_raises (max_str_digits : nat) (query : string) (msg : string) :
  QueryProcessor.process_call max_str_digits query = Raises msg ->
  exists digits,
    EntityExtractor.limit_text (PyStr.strip (PyStr.lower query)) = Some digits /\
    0 < max_str_digits < String.length digits /\ 640 < String.length digits.
Proof.
  unfold QueryProcessor.process_call, EntityExtractor._extract_limit_call,
    int_conversion.
  destruct (EntityExtractor.limit_text _) as [digits|]; [|discriminate].
  destruct (_ && _) eqn:E; [|discriminate]. intros _.
  apply andb_true_iff in E as [E E3]. apply andb_true_iff in E as [E1 E2].
  apply Nat.ltb_lt in E1, E2, E3. exists digits. repeat split; assumption.
Qed.

(** Without a digit limit, and for every query whose limit has at most 640
    digits, [process] returns. *)
Lemma process_call_returns (max_str_digits : nat) (query : string) :
  (max_str_digits = 0 \/
   forall digits,
     EntityExtractor.limit_text (PyStr.strip (PyStr.lower query)) = Some digits ->
     String.length digits <= 640) ->
  QueryProcessor.process_call max_str_digits query
  = Returns (QueryProcessor.process query).
Proof.
  intros H.
  destruct (QueryProcessor.process_call max_str_digits query) as [pq|msg] eqn:E.
  - now rewrite (process_call_value _ _ _ E).
  - apply process_call_raises in E as (digits & Hd & Hmax & Hlen).
    destruct H as [->|H]; [lia|]. specialize (H digits Hd). lia.
Qed.

(** C4 (as the code has it): for a query on which [process] returns, [route]
    answers with an envelope that carries the parsed query whenever the
    handler is missing, returns, or raises an instance of [Exception].
    Without a handler for the parsed intent the envelope is a failure whose
    error names the intent; when the handler raises an [Exception] the
    envelope is a failure whose error is the message of the exception; when
    the handler returns the envelope is a success with its result.  An
    exception outside [Exception] raised by the handler is not caught: it
    propagates past [route]. *)
Theorem route_envelope {T : Type} (py : Interpreter)
        (handlers : gmap QueryIntent (ParsedQuery -> completion T))
        (query : string) (pq : ParsedQuery) :
  QueryProcessor.process_call (int_max_str_digits py) query = Returns pq ->
  pq = QueryProcessor.process query /\
  (handlers !! intent pq = None ->
   exists env,
     QueryRouter.route py handlers query = Normal env /\
     parsed_query env = pq /\
     success env = false /\
     error env = Some ("No handler registered for intent: "
                       +:+ format_intent (version py) (intent pq)) /\
     PyStr.contains (intent_value (intent pq))
                    (PyStr.lower (format_intent (version py) (intent pq))) = true) /\
  (forall handler msg,
     handlers !! intent pq = Some handler ->
     handler pq = Abrupt (ExceptionOf msg) ->
     exists env,
       QueryRouter.route py handlers query = Normal env /\
       parsed_query env = pq /\
       success env = false /\ error env = Some msg /\ result env = None) /\
  (forall handler r,
     handlers !! intent pq = Some handler -> handler pq = Normal r ->
     exists env,
       QueryRouter.route py handlers query = Normal env /\
       parsed_query env = pq /\
       success env = true /\ result env = Some r) /\
  (forall handler name,
     handlers !! intent pq = Some handler ->
     handler pq = Abrupt (BaseExceptionOf name) ->
     QueryRouter.route py handlers query = Abrupt (BaseExceptionOf name)).
Proof.
  intros Hcall. split; [exact (process_call_value _ _ _ Hcall)|].
  unfold QueryRouter.route, QueryRouter.Handler. rewrite Hcall. clear Hcall.
  split; [|split; [|split]].
  - intros ->. eexists. split; [reflexivity|]. cbn.
    repeat split. apply format_intent_names_intent.
  - intros h msg -> ->. eexists. split; [reflexivity|]. cbn. repeat split.
  - intros h r -> ->. eexists. split; [reflexivity|]. cbn. repeat split.
  - intros h name -> ->. reflexivity.
Qed.

(** The scenario of a router without handlers, and of a handler that
    raises. *)
Lemma route_envelope_witness :
  (exists env,
     QueryRouter.route (T := nat)
       {| version := From_3_11; int_max_str_digits := 4300 |} ∅
       "Tell me about Dune" = Normal env /\
     success env = false /\
     error env = Some "No handler registered for intent: QueryIntent.INFORMATION") /\
  (exists env,
     QueryRouter.route (T := nat)
       {| version := From_3_11; int_max_str_digits := 4300 |}
       (QueryRouter.register_handler INFORMATION
          (fun _ => Abrupt (ExceptionOf "index offline")) ∅)
       "Tell me about Dune" = Normal env /\
     success env = false /\ error env = Some "index offline").
Proof.
  split.
  - destruct (route_envelope (T := nat)
                {| version := From_3_11; int_max_str_digits := 4300 |} ∅
                "Tell me about Dune"
                (QueryProcessor.process "Tell me about Dune")
                ltac:(vm_compute; reflexivity)) as (_ & Hnone & _).
    destruct (Hnone ltac:(vm_compute; reflexivity)) as (env & Hr & _ & Hs & He & _).
    exists env. split; [exact Hr|]. split; [exact Hs|].
    etrans; [exact He|]. vm_compute. reflexivity.
  - destruct (route_envelope (T := nat)
                {| version := From_3_11; int_max_str_digits := 4300 |}
                (QueryRouter.register_handler INFORMATION
                   (fun _ => Abrupt (ExceptionOf "index offline")) ∅)
                "Tell me about Dune"
                (QueryProcessor.process "Tell me about Dune")
                ltac:(vm_compute; reflexivity)) as (_ & _ & Hraise & _).
    destruct (Hraise (fun _ => Abrupt (ExceptionOf "index offline")) "index offline"
                ltac:(vm_compute; reflexivity) eq_refl)
      as (env & Hr & _ & Hs & He & _).
    exists env. repeat split; assumption.
Defined.

(** C4 (as stated) fails: a handler that raises [KeyboardInterrupt] is not
    caught by [except Exception]; the exception propagates and [route]
    returns no envelope. *)
Lemma route_lets_base_exception_through :
  QueryRouter.route (T := nat)
    {| version := From_3_11; int_max_str_digits := 4300 |}
    (QueryRouter.register_handler INFORMATION
       (fun _ => Abrupt (BaseExceptionOf "KeyboardInterrupt")) ∅)
    "Tell me about Dune"
  = Abrupt (BaseExceptionOf "KeyboardInterrupt") /\
  ~ exists env,
      QueryRouter.route (T := nat)
        {| version := From_3_11; int_max_str_digits := 4300 |}
        (QueryRouter.register_handler INFORMATION
           (fun _ => Abrupt (BaseExceptionOf "KeyboardInterrupt")) ∅)
        "Tell me about Dune"
      = Normal env.
Proof.
  assert (H : QueryRouter.route (T := nat)
                {| version := From_3_11; int_max_str_digits := 4300 |}
                (QueryRouter.register_handler INFORMATION
                   (fun _ => Abrupt (BaseExceptionOf "KeyboardInterrupt")) ∅)
                "Tell me about Dune"
              = Abrupt (BaseExceptionOf "KeyboardInterrupt"))
    by (vm_compute; reflexivity).
  split; [exact H|]. rewrite H. intros [env [=]].
Qed.

(** A result limit of 4301 digits under the default digit limit: [int]
    raises [ValueError] before the [try], and [route] returns no envelope. *)
Lemma route_long_limit_raises :
  exists msg,
    QueryRouter.route (T := nat)
      {| version := From_3_11; int_max_str_digits := 4300 |} ∅
      ("top " +:+ string_repeat "9" 4301 +:+ " books")
    = Abrupt (ExceptionOf msg).
Proof. eexists. vm_compute. reflexivity. Qed.

(** ** Comparison strategy *)

(** C3: for a parsed query that carries a store filter, the comparison
    strategy calls the search collaborator exactly once, asks for 50 results
    and passes an empty filter, hence no store filter. *)
Theorem comparison_ignores_store_filter (indexer : Indexer) (pq : ParsedQuery) :
  is_Some (filters pq !! "store_id") ->
  exists call,
    calls_of (QueryRetriever.retrieve_for_comparison indexer pq) = [call] /\
    call_query call = QueryRetriever._build_search_text pq /\
    call_n_results call = 50%Z /\
    call_filters call = ∅ /\
    call_filters call !! "store_id" = None.
Proof.
  intros _.
  exists {| call_query := QueryRetriever._build_search_text pq;
            call_n_results := 50; call_filters := ∅ |}.
  split; [|repeat split; apply lookup_empty].
  unfold calls_of, QueryRetriever.retrieve_for_comparison, bind, search_books.
  destruct (indexer _ _ _) as [books|msg]; [|reflexivity].
  unfold lift. destruct (QueryRetriever.compare_stores _); reflexivity.
Qed.

Lemma comparison_ignores_store_filter_witness :
  let pq := QueryProcessor.process "Compare fantasy prices at store a" in
  let indexer : Indexer := fun _ _ _ => Returns [] in
  intent pq = COMPARISON /\
  filters pq !! "store_id" = Some (EqStr "store_a") /\
  exists call,
    calls_of (QueryRetriever.retrieve_for_comparison indexer pq) = [call] /\
    call_query call = QueryRetriever._build_search_text pq /\
    call_n_results call = 50%Z /\
    call_filters call = ∅ /\
    call_filters call !! "store_id" = None.
Proof.
  intros pq indexer.
  split; [vm_compute; reflexivity|].
  split; [vm_compute; reflexivity|].
  apply (comparison_ignores_store_filter indexer pq).
  exists (EqStr "store_a"). vm_compute. reflexivity.
Defined.

(** ** Statistics *)

Section Sorting.
Context {A : Type} (le : A -> A -> bool).

Lemma sorted_insert_perm (x : A) (xs : list A) :
  Permutation (sorted_insert le x xs) (x :: xs).
Proof.
  induction xs as [|y ys IH]; simpl; [reflexivity|].
  destruct (le x y); [reflexivity|].
  rewrite IH. apply perm_swap.
Qed.

Lemma py_sorted_perm (xs : list A) : Permutation (py_sorted le xs) xs.
Proof.
  induction xs as [|x xs IH]; simpl; [reflexivity|].
  rewrite sorted_insert_perm. now constructor.
Qed.

Lemma py_sorted_length (xs : list A) : length (py_sorted le xs) = length xs.
Proof. apply Permutation_length, py_sorted_perm. Qed.
End Sorting.

Lemma sorted_insert_sorted (x : Q) (xs : list Q) :
  StronglySorted Qle xs -> StronglySorted Qle (sorted_insert Qle_bool x xs).
Proof.
  induction 1 as [|y ys Hs IH Hall]; simpl.
  - repeat constructor.
  - destruct (Qle_bool x y) eqn:E.
    + apply Qle_bool_iff in E. constructor.
      * now constructor.
      * constructor; [exact E|].
        eapply Forall_impl; [exact Hall|].
        intros z Hz. eapply Qle_trans; eassumption.
    + constructor; [exact IH|].
      eapply Permutation_Forall; [symmetry; apply sorted_insert_perm|].
      constructor; [|exact Hall].
      apply Qlt_le_weak, Qnot_le_lt. intros H.
      apply Qle_bool_iff in H. congruence.
Qed.

Lemma py_sorted_sorted (xs : list Q) : StronglySorted Qle (py_sorted Qle_bool xs).
Proof.
  induction xs as [|x xs IH]; simpl; [constructor|].
  now apply sorted_insert_sorted.
Qed.

Lemma half_of_even (n : nat) :
  Nat.Even n -> 0 < n -> n / 2 = S (lower_middle_index n).
Proof.
  intros [k ->] Hpos. unfold lower_middle_index.
  destruct k as [|k]; [lia|].
  replace (2 * S k) with (S k * 2) by lia. rewrite Nat.div_mul by lia.
  replace (S k * 2 - 1) with (1 + k * 2) by lia.
  rewrite Nat.div_add by lia. reflexivity.
Qed.

Lemma half_of_odd (n : nat) : Nat.Odd n -> n / 2 = lower_middle_index n.
Proof.
  intros [k ->]. unfold lower_middle_index.
  replace (2 * k + 1 - 1) with (k * 2) by lia.
  replace (2 * k + 1) with (1 + k * 2) by lia.
  rewrite Nat.div_add, Nat.div_mul by lia. reflexivity.
Qed.

(** C9 (as the code has it): on a non-empty book list the price statistics
    are computed, and the median they report is the element at index
    [len // 2] of the ascending-sorted prices: the middle element for an odd
    count, and the upper of the two middle elements for an even count. *)
Theorem median_is_element_at_half (books : list Item) :
  books <> [] ->
  exists st,
    QueryRetriever._calculate_price_stats books = Returns st /\
    Permutation (py_sorted Qle_bool (QueryRetriever.prices_of books))
                (QueryRetriever.prices_of books) /\
    StronglySorted Qle (py_sorted Qle_bool (QueryRetriever.prices_of books)) /\
    nth_error (py_sorted Qle_bool (QueryRetriever.prices_of books))
              (upper_middle_index (length books)) = Some (ps_median st) /\
    (Nat.Odd (length books) ->
     upper_middle_index (length books) = lower_middle_index (length books)) /\
    (Nat.Even (length books) ->
     upper_middle_index (length books) = S (lower_middle_index (length books))).
Proof.
  intros Hne.
  assert (Hlen : length (QueryRetriever.prices_of books) = length books)
    by apply length_map.
  assert (Hpos : 0 < length books) by (destruct books; simpl; [congruence|lia]).
  destruct (nth_error (py_sorted Qle_bool (QueryRetriever.prices_of books))
                      (length books / 2)) as [m|] eqn:Hm.
  2:{ apply nth_error_None in Hm. rewrite py_sorted_length, Hlen in Hm.
      pose proof (Nat.div_lt (length books) 2 Hpos). lia. }
  unfold QueryRetriever._calculate_price_stats, QueryRetriever.median_of.
  rewrite Hlen, Hm.
  destruct (QueryRetriever.prices_of books) as [|p ps] eqn:Hp;
    [simpl in Hlen; lia|].
  eexists. split; [reflexivity|]. cbn [ps_median].
  split; [apply py_sorted_perm|].
  split; [apply py_sorted_sorted|].
  split; [exact Hm|].
  split; [apply half_of_odd|].
  intros He. now apply half_of_even.
Qed.

Lemma median_is_element_at_half_witness :
  exists st,
    QueryRetriever._calculate_price_stats
      [sample_book "1" "Herbert" "science fiction" (12 # 1) None "a";
       sample_book "2" "Tolkien" "fantasy" (8 # 1) None "b";
       sample_book "3" "Christie" "mystery" (10 # 1) None "a"] = Returns st /\
    ps_median st = 10 # 1.
Proof.
  destruct (median_is_element_at_half
              [sample_book "1" "Herbert" "science fiction" (12 # 1) None "a";
               sample_book "2" "Tolkien" "fantasy" (8 # 1) None "b";
               sample_book "3" "Christie" "mystery" (10 # 1) None "a"]
              ltac:(discriminate)) as (st & Hst & _ & _ & Hm & _).
  exists st. split; [exact Hst|].
  vm_compute in Hm. injection Hm as Hm. symmetry. exact Hm.
Defined.

(** C9 (as stated) fails: for the two prices 10 and 20 the lower of the two
    middle elements is 10, and the reported median is 20. *)
Lemma median_is_not_lower_middle :
  exists st,
    QueryRetriever._calculate_price_stats
      [sample_book "1" "Herbert" "science fiction" (10 # 1) None "a";
       sample_book "2" "Tolkien" "fantasy" (20 # 1) None "b"] = Returns st /\
    nth_error (py_sorted Qle_bool [10 # 1; 20 # 1]) (lower_middle_index 2)
    = Some (10 # 1) /\
    ps_median st = 20 # 1 /\
    ~ (ps_median st == 10 # 1)%Q.
Proof.
  eexists. split; [vm_compute; reflexivity|].
  split; [reflexivity|]. split; [reflexivity|].
  simpl. intros H. vm_compute in H. discriminate.
Qed.

(** The ratings that enter the statistics are those of the books whose
    rating is present and not zero. *)
Lemma truthy_ratings_spec (books : list Item) (r : Q) :
  In r (QueryRetriever.truthy_ratings books) <->
  exists b, In b books /\ rating (item_metadata b) = Some r /\ ~ (r == 0)%Q.
Proof.
  unfold QueryRetriever.truthy_ratings.
  rewrite <- list_elem_of_In, list_elem_of_omap. split.
  - intros (b & Hb & Hr). exists b. rewrite <- list_elem_of_In. split; [exact Hb|].
    destruct (rating (item_metadata b)) as [v|]; simpl in Hr; [|discriminate].
    destruct (Qeq_bool v 0) eqn:E; simpl in Hr; [discriminate|].
    injection Hr as ->. split; [reflexivity|].
    intros H. apply Qeq_bool_iff in H. congruence.
  - intros (b & Hb & Hr & Hnz). exists b. rewrite list_elem_of_In.
    split; [exact Hb|]. rewrite Hr. simpl.
    destruct (Qeq_bool r 0) eqn:E; [|reflexivity].
    apply Qeq_bool_iff in E. contradiction.
Qed.

(** C10 (where the code departs from it): a book rated 0 has a non-null
    rating, yet it is left out of the rating statistics of both strategies;
    a list whose only rated book is rated 0 gets the null statistics. *)
Theorem rating_zero_is_left_out :
  let b0 := sample_book "1" "Herbert" "science fiction" (10 # 1) (Some 0%Q) "a" in
  let b4 := sample_book "2" "Tolkien" "fantasy" (20 # 1) (Some (4 # 1)) "a" in
  QueryRetriever._calculate_rating_stats [b0; b4]
  = RatingStatsOf (4 # 1) (4 # 1) (4 # 1) 1 /\
  QueryRetriever._calculate_rating_stats [b0] = NullRatingStats /\
  (exists c, QueryRetriever.store_comparison [b0; b4] = Returns c /\
             avg_rating c = Some (4 # 1)) /\
  (exists c, QueryRetriever.store_comparison [b0] = Returns c /\
             avg_rating c = None).
Proof.
  vm_compute. repeat split; try reflexivity; eexists; split; reflexivity.
Qed.

(** ** Diversification *)

(** Equality of hits is an equivalence. *)
Section ItemEquality.

Lemma option_eqb_refl {A : Type} (eqb : A -> A -> bool) (o : option A) :
  (forall x, eqb x x = true) -> option_eqb eqb o o = true.
Proof. intros H. destruct o; simpl; auto. Qed.

Lemma option_eqb_comm {A : Type} (eqb : A -> A -> bool) (a b : option A) :
  (forall x y, eqb x y = eqb y x) -> option_eqb eqb a b = option_eqb eqb b a.
Proof. intros H. destruct a, b; simpl; auto. Qed.

Lemma option_eqb_trans {A : Type} (eqb : A -> A -> bool) (a b c : option A) :
  (forall x y z, eqb x y = true -> eqb y z = true -> eqb x z = true) ->
  option_eqb eqb a b = true -> option_eqb eqb b c = true ->
  option_eqb eqb a c = true.
Proof. intros H. destruct a, b, c; simpl; eauto; discriminate. Qed.

Lemma string_eqb_trans (x y z : string) :
  String.eqb x y = true -> String.eqb y z = true -> String.eqb x z = true.
Proof. rewrite !String.eqb_eq. congruence. Qed.

Lemma Z_eqb_trans (x y z : Z) :
  Z.eqb x y = true -> Z.eqb y z = true -> Z.eqb x z = true.
Proof. rewrite !Z.eqb_eq. congruence. Qed.

Lemma bool_eqb_trans (x y z : bool) :
  Bool.eqb x y = true -> Bool.eqb y z = true -> Bool.eqb x z = true.
Proof. destruct x, y, z; auto. Qed.

Lemma option_string_eqb_trans (a b c : option string) :
  option_eqb String.eqb a b = true -> option_eqb String.eqb b c = true ->
  option_eqb String.eqb a c = true.
Proof. apply option_eqb_trans, string_eqb_trans. Qed.

Lemma option_Qeq_bool_trans (a b c : option Q) :
  option_eqb Qeq_bool a b = true -> option_eqb Qeq_bool b c = true ->
  option_eqb Qeq_bool a c = true.
Proof. apply option_eqb_trans, Qeq_bool_trans. Qed.

Lemma option_Z_eqb_trans (a b c : option Z) :
  option_eqb Z.eqb a b = true -> option_eqb Z.eqb b c = true ->
  option_eqb Z.eqb a c = true.
Proof. apply option_eqb_trans, Z_eqb_trans. Qed.

Lemma metadata_eqb_refl (a : BookMetadata) : metadata_eqb a a = true.
Proof.
  unfold metadata_eqb.
  rewrite !String.eqb_refl, Qeq_bool_refl, Bool.eqb_reflx.
  rewrite (option_eqb_refl Qeq_bool) by apply Qeq_bool_refl.
  rewrite !(option_eqb_refl String.eqb) by apply String.eqb_refl.
  rewrite (option_eqb_refl Z.eqb) by apply Z.eqb_refl.
  reflexivity.
Qed.

Lemma metadata_eqb_comm (a b : BookMetadata) : metadata_eqb a b = metadata_eqb b a.
Proof.
  unfold metadata_eqb.
  repeat apply (f_equal2 andb);
    first [ apply String.eqb_sym | apply Qeq_bool_comm
          | apply option_eqb_comm; first [ apply String.eqb_sym
                                         | apply Qeq_bool_comm | apply Z.eqb_sym ]
          | destruct (md_availability a), (md_availability b); reflexivity ].
Qed.

Lemma metadata_eqb_trans (a b c : BookMetadata) :
  metadata_eqb a b = true -> metadata_eqb b c = true -> metadata_eqb a c = true.
Proof.
  unfold metadata_eqb. rewrite !andb_true_iff.
  intros H1 H2.
  repeat match goal with H : _ /\ _ |- _ => destruct H end.
  repeat split;
    eauto using string_eqb_trans, Qeq_bool_trans, bool_eqb_trans,
      option_string_eqb_trans, option_Qeq_bool_trans, option_Z_eqb_trans.
Qed.

Lemma item_eqb_refl (a : Item) : item_eqb a a = true.
Proof.
  unfold item_eqb.
  now rewrite !String.eqb_refl, Qeq_bool_refl, metadata_eqb_refl.
Qed.

Lemma item_eqb_comm (a b : Item) : item_eqb a b = item_eqb b a.
Proof.
  unfold item_eqb.
  now rewrite (String.eqb_sym (item_id a)), (String.eqb_sym (document a)),
    (Qeq_bool_comm (score a)), (metadata_eqb_comm (item_metadata a)).
Qed.

Lemma item_eqb_trans (a b c : Item) :
  item_eqb a b = true -> item_eqb b c = true -> item_eqb a c = true.
Proof.
  unfold item_eqb. rewrite !andb_true_iff.
  intros H1 H2.
  repeat match goal with H : _ /\ _ |- _ => destruct H end.
  repeat split;
    eauto using string_eqb_trans, Qeq_bool_trans, metadata_eqb_trans.
Qed.

End ItemEquality.

Lemma py_in_app (x : Item) (xs ys : list Item) :
  py_in x (xs ++ ys) = py_in x xs || py_in x ys.
Proof. apply existsb_app. Qed.

Lemma In_py_in (x : Item) (xs : list Item) : In x xs -> py_in x xs = true.
Proof.
  intros H. apply existsb_exists. exists x. split; [exact H|apply item_eqb_refl].
Qed.

(** Pairwise distinct candidates that all occur in a list are at most as
    many as the list is long. *)
Lemma distinct_covered_length (l F : list Item) :
  pairwise_distinct l -> (forall x, In x l -> py_in x F = true) ->
  length l <= length F.
Proof.
  revert F. induction l as [|x l IH]; intros F Hd Hcov; simpl; [lia|].
  destruct Hd as [Hx Hd].
  destruct (proj1 (existsb_exists _ _) (Hcov x (or_introl eq_refl)))
    as (f & Hf & Hxf).
  destruct (in_split _ _ Hf) as (F1 & F2 & ->).
  rewrite length_app. simpl.
  assert (Hle : length l <= length (F1 ++ F2)).
  { apply IH; [exact Hd|]. intros y Hy.
    destruct (proj1 (existsb_exists _ _) (Hcov y (or_intror Hy)))
      as (g & Hg & Hyg).
    apply in_app_or in Hg as [Hg|[<-|Hg]].
    - apply existsb_exists. exists g. split; [apply in_or_app; now left|exact Hyg].
    - exfalso. assert (Hxy : item_eqb x y = true).
      { apply (item_eqb_trans x f y Hxf). now rewrite item_eqb_comm. }
      assert (Hin : py_in x l = true)
        by (apply existsb_exists; exists y; split; assumption).
      congruence.
    - apply existsb_exists. exists g. split; [apply in_or_app; now right|exact Hyg]. }
  rewrite length_app in Hle. lia.
Qed.

Section Passes.
Variable limit : Z.

Local Abbreviation author_of x := (author (item_metadata x)).
Local Abbreviation genre_of x := (genre (item_metadata x)).

Lemma first_pass_prefix (rs div : list Item) (sa sg : gset string) :
  exists ext, QueryRetriever.first_pass limit rs div sa sg = div ++ ext.
Proof.
  revert div sa sg. induction rs as [|r rs IH]; intros div sa sg; simpl.
  - exists []. now rewrite app_nil_r.
  - destruct (_ || _).
    + destruct (_ <=? _)%Z; [now exists [r]|].
      destruct (IH (div ++ [r]) ({[author_of r]} ∪ sa) ({[genre_of r]} ∪ sg))
        as [ext ->].
      exists (r :: ext). now rewrite <- app_assoc.
    + apply IH.
Qed.

Lemma second_pass_prefix (rs div : list Item) :
  exists ext, QueryRetriever.second_pass limit rs div = div ++ ext.
Proof.
  revert div. induction rs as [|r rs IH]; intros div; simpl.
  - exists []. now rewrite app_nil_r.
  - destruct (negb _).
    + destruct (_ <=? _)%Z; [now exists [r]|].
      destruct (IH (div ++ [r])) as [ext ->].
      exists (r :: ext). now rewrite <- app_assoc.
    + apply IH.
Qed.

Lemma diverse_snoc (div : list Item) (r : Item) :
  diverse div ->
  (forall x, In x div -> ~ (author_of x = author_of r /\ genre_of x = genre_of r)) ->
  diverse (div ++ [r]).
Proof.
  intros Hd Hnew i j x y Hij Hi Hj.
  assert (Hjlen : j < length (div ++ [r]))
    by (apply nth_error_Some; congruence).
  rewrite length_app in Hjlen. simpl in Hjlen.
  rewrite nth_error_app1 in Hi by lia.
  destruct (Nat.lt_ge_cases j (length div)) as [Hlt|Hge].
  - rewrite nth_error_app1 in Hj by lia. exact (Hd i j x y Hij Hi Hj).
  - rewrite nth_error_app2 in Hj by lia.
    replace (j - length div) with 0 in Hj by lia. injection Hj as <-.
    apply Hnew. eapply nth_error_In, Hi.
Qed.

Lemma diverse_firstn (n : nat) (xs : list Item) :
  diverse xs -> diverse (firstn n xs).
Proof.
  intros Hd i j x y Hij Hi Hj.
  rewrite nth_error_firstn in Hi, Hj.
  destruct (i <? n); [|discriminate]. destruct (j <? n); [|discriminate].
  exact (Hd i j x y Hij Hi Hj).
Qed.

(** The results the first loop keeps never repeat an (author, genre) pair. *)
Lemma first_pass_diverse (rs div : list Item) (sa sg : gset string) :
  diverse div ->
  (forall x, In x div -> author_of x ∈ sa /\ genre_of x ∈ sg) ->
  diverse (QueryRetriever.first_pass limit rs div sa sg).
Proof.
  revert div sa sg. induction rs as [|r rs IH]; intros div sa sg Hd Hseen; simpl.
  - exact Hd.
  - destruct (_ || _) eqn:Hnew; [|now apply IH].
    assert (Hd' : diverse (div ++ [r])).
    { apply diverse_snoc; [exact Hd|]. intros x Hx [Ha Hg].
      destruct (Hseen x Hx) as [Hxa Hxg].
      apply orb_true_iff in Hnew as [Hn|Hn]; apply bool_decide_eq_true in Hn;
        apply Hn; congruence. }
    destruct (_ <=? _)%Z; [exact Hd'|].
    apply IH; [exact Hd'|].
    intros x Hx. apply in_app_or in Hx as [Hx|[<-|[]]].
    + destruct (Hseen x Hx). split; apply elem_of_union; now right.
    + split; apply elem_of_union; left; now apply elem_of_singleton.
Qed.

(** When the first loop ends below [limit] it has scanned every candidate,
    and each candidate's author and genre are among those it kept. *)
Lemma first_pass_complete (rs div : list Item) (sa sg : gset string) :
  (forall a, a ∈ sa -> exists x, In x div /\ author_of x = a) ->
  (forall g, g ∈ sg -> exists x, In x div /\ genre_of x = g) ->
  (Z.of_nat (length (QueryRetriever.first_pass limit rs div sa sg)) < limit)%Z ->
  forall c, In c rs ->
    (exists x, In x (QueryRetriever.first_pass limit rs div sa sg)
               /\ author_of x = author_of c) /\
    (exists y, In y (QueryRetriever.first_pass limit rs div sa sg)
               /\ genre_of y = genre_of c).
Proof.
  revert div sa sg.
  induction rs as [|r rs IH]; intros div sa sg Hsa Hsg Hlen c Hc;
    [destruct Hc|].
  simpl in Hlen |- *.
  destruct (_ || _) eqn:Hnew.
  - destruct (_ <=? _)%Z eqn:Hfull; [apply Z.leb_le in Hfull; lia|].
    assert (Hsa' : forall a, a ∈ {[author_of r]} ∪ sa ->
                     exists x, In x (div ++ [r]) /\ author_of x = a).
    { intros a Ha. apply elem_of_union in Ha as [Ha|Ha].
      - apply elem_of_singleton in Ha as ->. exists r.
        split; [apply in_or_app; right; now left|reflexivity].
      - destruct (Hsa a Ha) as (x & Hx & Hxa). exists x.
        split; [apply in_or_app; now left|exact Hxa]. }
    assert (Hsg' : forall g, g ∈ {[genre_of r]} ∪ sg ->
                     exists x, In x (div ++ [r]) /\ genre_of x = g).
    { intros g Hg. apply elem_of_union in Hg as [Hg|Hg].
      - apply elem_of_singleton in Hg as ->. exists r.
        split; [apply in_or_app; right; now left|reflexivity].
      - destruct (Hsg g Hg) as (x & Hx & Hxg). exists x.
        split; [apply in_or_app; now left|exact Hxg]. }
    destruct Hc as [<-|Hc]; [|exact (IH _ _ _ Hsa' Hsg' Hlen c Hc)].
    destruct (first_pass_prefix rs (div ++ [r])
                ({[author_of r]} ∪ sa) ({[genre_of r]} ∪ sg)) as [ext ->].
    assert (Hr : In r ((div ++ [r]) ++ ext))
      by (apply in_or_app; left; apply in_or_app; right; now left).
    split; exists r; split; auto.
  - destruct Hc as [<-|Hc]; [|exact (IH _ _ _ Hsa Hsg Hlen c Hc)].
    apply orb_false_iff in Hnew as [Ha Hg].
    apply bool_decide_eq_false in Ha, Hg.
    apply dec_stable in Ha, Hg.
    destruct (Hsa _ Ha) as (x & Hx & Hxa), (Hsg _ Hg) as (y & Hy & Hyg).
    destruct (first_pass_prefix rs div sa sg) as [ext ->].
    split; [exists x|exists y]; (split; [apply in_or_app; now left|assumption]).
Qed.

(** When the second loop ends below [limit] it has scanned every candidate,
    and each candidate is in the list it built. *)
Lemma second_pass_complete (rs div : list Item) :
  (Z.of_nat (length (QueryRetriever.second_pass limit rs div)) < limit)%Z ->
  forall c, In c rs -> py_in c (QueryRetriever.second_pass limit rs div) = true.
Proof.
  revert div. induction rs as [|r rs IH]; intros div Hlen c Hc; [destruct Hc|].
  simpl in Hlen |- *.
  destruct (negb _) eqn:Hnew.
  - destruct (_ <=? _)%Z eqn:Hfull; [apply Z.leb_le in Hfull; lia|].
    destruct Hc as [<-|Hc]; [|exact (IH _ Hlen c Hc)].
    destruct (second_pass_prefix rs (div ++ [r])) as [ext ->].
    apply In_py_in, in_or_app. left. apply in_or_app. right. now left.
  - destruct Hc as [<-|Hc]; [|exact (IH _ Hlen c Hc)].
    apply negb_false_iff in Hnew.
    destruct (second_pass_prefix rs div) as [ext ->].
    rewrite py_in_app, Hnew. reflexivity.
Qed.

End Passes.

Lemma diverse_nil : diverse [].
Proof. intros i j x y _ Hi. destruct i; discriminate. Qed.

Lemma first_pass_start_diverse (limit : Z) (results : list Item) :
  diverse (QueryRetriever.first_pass limit results [] ∅ ∅).
Proof. apply first_pass_diverse; [apply diverse_nil|intros x []]. Qed.

(** C2 (as the code has it): for pairwise distinct candidates and
    [0 <= limit <= N], the diversification returns exactly [limit] items;
    and whenever some candidate that was not returned has an author, or a
    genre, that no returned item has, no two returned items share both
    author and genre (results that repeat a pair are appended only after
    every candidate has been scanned). *)
Theorem diversify_quota (results : list Item) (limit : Z) :
  pairwise_distinct results ->
  (0 <= limit <= Z.of_nat (length results))%Z ->
  length (QueryRetriever._diversify_results results limit) = Z.to_nat limit /\
  ((exists c,
      In c results /\
      ~ In c (QueryRetriever._diversify_results results limit) /\
      ((forall x, In x (QueryRetriever._diversify_results results limit) ->
                  author (item_metadata x) <> author (item_metadata c)) \/
       (forall x, In x (QueryRetriever._diversify_results results limit) ->
                  genre (item_metadata x) <> genre (item_metadata c)))) ->
   diverse (QueryRetriever._diversify_results results limit)).
Proof.
  intros Hdist [Hlo Hhi].
  unfold QueryRetriever._diversify_results, py_take.
  replace (0 <=? limit)%Z with true by (symmetry; now apply Z.leb_le).
  set (D := QueryRetriever.first_pass limit results [] ∅ ∅).
  destruct (Z.of_nat (length D) <? limit)%Z eqn:Hshort.
  - apply Z.ltb_lt in Hshort.
    set (F := QueryRetriever.second_pass limit results D).
    destruct (second_pass_prefix limit results D) as [ext HF]. fold F in HF.
    split.
    + apply firstn_length_le.
      destruct (Z_lt_le_dec (Z.of_nat (length F)) limit) as [Hlt|Hge]; [|lia].
      pose proof (distinct_covered_length results F Hdist
                    (second_pass_complete limit results D Hlt)). lia.
    + intros (c & Hc & _ & Hfresh). exfalso.
      assert (HD : forall x, In x D -> In x (firstn (Z.to_nat limit) F)).
      { intros x Hx. rewrite HF, firstn_app.
        rewrite firstn_all2 by lia. apply in_or_app. now left. }
      destruct (first_pass_complete limit results [] ∅ ∅) with (c := c)
        as [(x & Hx & Hxa) (y & Hy & Hyg)];
        [intros a Ha; now apply not_elem_of_empty in Ha
        |intros g Hg; now apply not_elem_of_empty in Hg
        |exact Hshort|exact Hc|].
      destruct Hfresh as [Hf|Hf].
      * exact (Hf x (HD x Hx) Hxa).
      * exact (Hf y (HD y Hy) Hyg).
  - apply Z.ltb_ge in Hshort. split.
    + apply firstn_length_le. lia.
    + intros _. apply diverse_firstn, first_pass_start_diverse.
Qed.

Lemma diversify_quota_witness :
  let a1 := sample_book "1" "Herbert" "science fiction" (12 # 1) None "a" in
  let a2 := sample_book "2" "Herbert" "science fiction" (9 # 1) None "b" in
  let a3 := sample_book "3" "Tolkien" "fantasy" (8 # 1) None "a" in
  let a4 := sample_book "4" "Christie" "mystery" (7 # 1) None "b" in
  QueryRetriever._diversify_results [a1; a2; a3; a4] 2 = [a1; a3] /\
  length (QueryRetriever._diversify_results [a1; a2; a3; a4] 2) = 2 /\
  diverse (QueryRetriever._diversify_results [a1; a2; a3; a4] 2).
Proof.
  intros a1 a2 a3 a4.
  assert (Hout : QueryRetriever._diversify_results [a1; a2; a3; a4] 2 = [a1; a3])
    by (vm_compute; reflexivity).
  destruct (diversify_quota [a1; a2; a3; a4] 2) as [Hlen Hdiv].
  - vm_compute. repeat split; reflexivity.
  - simpl. lia.
  - split; [exact Hout|]. split; [exact Hlen|].
    apply Hdiv. exists a4. rewrite Hout.
    split; [simpl; tauto|].
    split; [intros [H|[H|[]]]; discriminate H|].
    left. intros x [<-|[<-|[]]]; discriminate.
Defined.

(** C2 (as stated) fails: a candidate list of size 2 that holds the same hit
    twice yields one item for [limit = 2]. *)
Lemma diversify_repeated_candidate :
  let x := sample_book "1" "Herbert" "science fiction" (12 # 1) None "a" in
  (2 <= Z.of_nat (length [x; x]))%Z /\
  QueryRetriever._diversify_results [x; x] 2 = [x] /\
  length (QueryRetriever._diversify_results [x; x] 2) <> 2.
Proof.
  intros x. split; [simpl; lia|].
  assert (H : QueryRetriever._diversify_results [x; x] 2 = [x])
    by (vm_compute; reflexivity).
  split; [exact H|]. rewrite H. simpl. lia.
Qed.

(** * Further properties of the pipeline *)

(** ** Classifier *)

Lemma intent_score_bounds (pats : IntentPatterns) (query_lower : string) :
  (0 <= IntentClassifier.intent_score pats query_lower <= 1)%Q.
Proof.
  unfold IntentClassifier.intent_score, IntentClassifier.count_if, py_min2.
  set (k := Z.of_nat (length (List.filter _ (keywords pats)))).
  set (p := Z.of_nat (length (List.filter _ (patterns pats)))).
  assert (Hk : (0 <= k)%Z) by apply Nat2Z.is_nonneg.
  assert (Hp : (0 <= p)%Z) by apply Nat2Z.is_nonneg.
  assert (Hs : (0 <= 0 + inject_Z k * (3 # 10) + inject_Z p * (5 # 10))%Q).
  { unfold Qle, Qplus, Qmult, inject_Z. simpl. nia. }
  destruct (Qle_bool _ 1) eqn:E.
  - split; [exact Hs|now apply Qle_bool_iff].
  - split; [discriminate|apply Qle_refl].
Qed.

(** The score table after the loop: one entry per member, in definition
    order, every score between 0 and 1 and the one of [UNKNOWN] zero. *)
Lemma intent_scores_shape (query_lower : string) :
  exists s1 s2 s3 s4 s5 s6,
    IntentClassifier.intent_scores query_lower
    = [(SEARCH, s1); (RECOMMENDATION, s2); (COMPARISON, s3); (ANALYTICS, s4);
       (FILTER, s5); (INFORMATION, s6); (UNKNOWN, 0%Q)] /\
    Forall (fun s => 0 <= s <= 1)%Q [s1; s2; s3; s4; s5; s6].
Proof.
  unfold IntentClassifier.intent_scores, IntentClassifier.intent_patterns.
  set (p1 := {| keywords := _; patterns := IntentClassifier.search_patterns |}).
  set (p2 := {| keywords := _; patterns := IntentClassifier.recommendation_patterns |}).
  set (p3 := {| keywords := _; patterns := IntentClassifier.comparison_patterns |}).
  set (p4 := {| keywords := _; patterns := IntentClassifier.analytics_patterns |}).
  set (p5 := {| keywords := _; patterns := IntentClassifier.filter_patterns |}).
  set (p6 := {| keywords := _; patterns := IntentClassifier.information_patterns |}).
  clearbody p1 p2 p3 p4 p5 p6.
  exists (IntentClassifier.intent_score p1 query_lower),
         (IntentClassifier.intent_score p2 query_lower),
         (IntentClassifier.intent_score p3 query_lower),
         (IntentClassifier.intent_score p4 query_lower),
         (IntentClassifier.intent_score p5 query_lower),
         (IntentClassifier.intent_score p6 query_lower).
  split; [reflexivity|].
  repeat constructor; apply intent_score_bounds.
Qed.

Lemma best_intent_In (query_lower : string) :
  In (IntentClassifier.best_intent query_lower)
     (IntentClassifier.intent_scores query_lower).
Proof.
  unfold IntentClassifier.best_intent.
  destruct (intent_scores_shape query_lower) as (s1 & s2 & s3 & s4 & s5 & s6 & -> & _).
  apply py_max_by_In.
Qed.

Lemma classify_components (query : string) :
  snd (IntentClassifier.classify query)
  = snd (IntentClassifier.best_intent (PyStr.strip (PyStr.lower query))) /\
  (fst (IntentClassifier.classify query) = UNKNOWN \/
   fst (IntentClassifier.classify query)
   = fst (IntentClassifier.best_intent (PyStr.strip (PyStr.lower query)))).
Proof.
  unfold IntentClassifier.classify.
  destruct (Qlt_le_dec _ _); simpl; auto.
Qed.

Lemma process_classify (query : string) :
  intent (QueryProcessor.process query) = fst (IntentClassifier.classify query) /\
  confidence (QueryProcessor.process query) = snd (IntentClassifier.classify query).
Proof.
  unfold QueryProcessor.process.
  destruct (IntentClassifier.classify query); split; reflexivity.
Qed.

(** X1: the confidence of every processed query lies between 0 and 1. *)
Theorem process_confidence_bounds (query : string) :
  (0 <= confidence (QueryProcessor.process query) <= 1)%Q.
Proof.
  destruct (process_classify query) as [_ ->].
  destruct (classify_components query) as [-> _].
  pose proof (best_intent_In (PyStr.strip (PyStr.lower query))) as Hin.
  destruct (intent_scores_shape (PyStr.strip (PyStr.lower query)))
    as (s1 & s2 & s3 & s4 & s5 & s6 & Heq & Hall).
  rewrite Heq in Hin.
  repeat match goal with
         | H : Forall _ (_ :: _) |- _ => inversion H; subst; clear H
         end.
  simpl in Hin.
  repeat destruct Hin as [<-|Hin]; simpl; try assumption; try contradiction.
  split; [apply Qle_refl|discriminate].
Qed.

Lemma unknown_iff_low_confidence (query : string) :
  intent (QueryProcessor.process query) = UNKNOWN <->
  (confidence (QueryProcessor.process query) < 3 # 10)%Q.
Proof.
  destruct (process_classify query) as [-> ->].
  unfold IntentClassifier.classify.
  pose proof (best_intent_In (PyStr.strip (PyStr.lower query))) as Hin.
  destruct (Qlt_le_dec _ _) as [Hlt|Hge]; simpl.
  - split; auto.
  - split.
    + intros Hu. exfalso.
      destruct (intent_scores_shape (PyStr.strip (PyStr.lower query)))
        as (s1 & s2 & s3 & s4 & s5 & s6 & Heq & _).
      rewrite Heq in Hin. simpl in Hin.
      destruct (IntentClassifier.best_intent _) as [i c]. simpl in *. subst i.
      repeat destruct Hin as [Hin|Hin]; try discriminate Hin; try contradiction.
      injection Hin as <-. revert Hge. apply Qlt_not_le. reflexivity.
    + intros Hlt. exfalso. exact (Qlt_not_le _ _ Hlt Hge).
Qed.

(** X2: a processed query has intent [UNKNOWN] exactly when its confidence
    is below 0.3; any other intent comes with a confidence of at least
    0.3. *)
Theorem process_unknown_iff_low_confidence (query : string) :
  intent (QueryProcessor.process query) = UNKNOWN <->
  (confidence (QueryProcessor.process query) < 3 # 10)%Q.
Proof. apply unknown_iff_low_confidence. Qed.

Section FirstMaximum.
Context {A : Type} (key : A -> Q).

(** [max] returns the first of the elements whose key is largest: every
    element before it has a strictly smaller key. *)
Lemma py_max_by_first (best : A) (xs : list A) :
  exists l1 l2,
    best :: xs = l1 ++ py_max_by key best xs :: l2 /\
    forall y, In y l1 -> (key y < key (py_max_by key best xs))%Q.
Proof.
  revert best. induction xs as [|x xs IH]; intros best; simpl.
  - exists [], []. split; [reflexivity|intros y []].
  - destruct (Qle_bool (key x) (key best)) eqn:E.
    + destruct (IH best) as (l1 & l2 & Heq & Hlt).
      destruct l1 as [|b l1]; simpl in Heq; injection Heq as Hb Hxs.
      * exists [], (x :: l2). split; [simpl; congruence|intros y []].
      * subst b. exists (best :: x :: l1), l2.
        split; [simpl; do 2 f_equal; exact Hxs|].
        intros y [<-|[<-|Hy]].
        -- apply Hlt. now left.
        -- apply Qle_bool_iff in E. eapply Qle_lt_trans; [exact E|].
           apply Hlt. now left.
        -- apply Hlt. now right.
    + destruct (IH x) as (l1 & l2 & Heq & Hlt).
      exists (best :: l1), l2. split; [simpl; now rewrite Heq|].
      intros y [<-|Hy]; [|now apply Hlt].
      eapply Qlt_le_trans; [|apply py_max_by_ge_best].
      apply Qnot_le_lt. intros H. apply Qle_bool_iff in H. congruence.
Qed.
End FirstMaximum.

(** X3: ties between intents are broken by definition order: the intent
    returned for a query is the first member of the enumeration whose score
    is the largest one. *)
Theorem classify_first_maximal (query : string) (i : QueryIntent) (c : Q) :
  IntentClassifier.classify query = (i, c) -> i <> UNKNOWN ->
  In (i, c) (IntentClassifier.intent_scores (PyStr.strip (PyStr.lower query))) /\
  forall j s,
    In (j, s) (IntentClassifier.intent_scores (PyStr.strip (PyStr.lower query))) ->
    (s <= c)%Q /\ (intent_index j < intent_index i -> (s < c)%Q).
Proof.
  unfold IntentClassifier.classify, IntentClassifier.best_intent.
  set (ql := PyStr.strip (PyStr.lower query)).
  destruct (intent_scores_shape ql) as (s1 & s2 & s3 & s4 & s5 & s6 & Heq & _).
  rewrite Heq. clear Heq.
  set (x := (SEARCH, s1)). set (xs := [_; _; _; _; _; _]).
  pose proof (py_max_by_In snd x xs) as Hin.
  pose proof (py_max_by_upper snd x xs) as Hup.
  destruct (py_max_by_first snd x xs) as (l1 & l2 & Hsplit & Hbefore).
  destruct (py_max_by snd x xs) as [bi bc]. cbn [fst snd] in *.
  destruct (Qlt_le_dec bc (3 # 10)) as [Hlt|Hge]; intros [= <- <-] Hi;
    [congruence|].
  split; [exact Hin|].
  intros j s Hjs. split; [exact (Hup (j, s) Hjs)|].
  intros Hidx. apply (Hbefore (j, s)).
  subst x xs.
  repeat (destruct l1 as [|? l1]; cbn [app] in Hsplit;
          [injection Hsplit as <- <- _|injection Hsplit as <- Hsplit]);
    try (destruct l1; discriminate Hsplit);
    repeat destruct Hjs as [[= <- <-]|Hjs];
    cbn [intent_index] in Hidx; try lia; try contradiction;
    simpl; auto 10.
Qed.

Lemma classify_first_maximal_witness :
  IntentClassifier.classify "find something similar" = (SEARCH, 30 # 100) /\
  In (RECOMMENDATION, 30 # 100)
     (IntentClassifier.intent_scores "find something similar") /\
  forall j s,
    In (j, s) (IntentClassifier.intent_scores "find something similar") ->
    (s <= 30 # 100)%Q /\ (intent_index j < intent_index SEARCH -> (s < 30 # 100)%Q).
Proof.
  assert (H : IntentClassifier.classify "find something similar" = (SEARCH, 30 # 100))
    by (vm_compute; reflexivity).
  split; [exact H|]. split; [vm_compute; tauto|].
  apply (classify_first_maximal "find something similar" SEARCH (30 # 100) H).
  discriminate.
Defined.

(** ** Regular-expression matcher *)

Section MatcherFacts.
Context {R : Type}.

Lemma plus_then_from_k (p : ascii -> bool) (s : string)
      (k : string -> option R) (res : R) :
  Re.plus_then p s k = Some res -> exists s', k s' = Some res.
Proof.
  induction s as [|a s IH]; simpl; [discriminate|].
  destruct (p a); [|discriminate].
  unfold Re.or_else. destruct (Re.plus_then p s k) eqn:E.
  - intros [= <-]. now apply IH.
  - intros H. eauto.
Qed.

(** Whatever a match returns was returned by its continuation. *)
Lemma run_from_k (r : Re.regex) (s : string) (c : Re.captures)
      (k : string -> Re.captures -> option R) (res : R) :
  Re.run r s c k = Some res -> exists s' c', k s' c' = Some res.
Proof.
  revert s c k. induction r as [l|p|p|r1 IH1 r2 IH2|r1 IH1 r2 IH2|r1 IH1|n r1 IH1];
    intros s c k; simpl.
  - destruct (PyStr.startswith l s); [eauto|discriminate].
  - destruct s as [|a s]; [discriminate|].
    destruct (p a); [eauto|discriminate].
  - intros H. apply plus_then_from_k in H as [s' H]. eauto.
  - intros H. apply IH1 in H as (s1 & c1 & H). now apply IH2 in H.
  - unfold Re.or_else. destruct (Re.run r1 s c k) eqn:E.
    + intros [= <-]. now apply IH1 in E.
    + apply IH2.
  - unfold Re.or_else. destruct (Re.run r1 s c k) eqn:E.
    + intros [= <-]. now apply IH1 in E.
    + eauto.
  - intros H. apply IH1 in H as (s1 & c1 & H). eauto.
Qed.
End MatcherFacts.

Lemma run_seq {R : Type} (r1 r2 : Re.regex) (s : string) (c : Re.captures)
      (k : string -> Re.captures -> option R) :
  Re.run (Re.Seq r1 r2) s c k
  = Re.run r1 s c (fun s1 c1 => Re.run r2 s1 c1 k).
Proof. reflexivity. Qed.

Lemma search_match_here (r : Re.regex) (s : string) (m : Re.captures) :
  Re.search r s = Some m -> exists s', Re.match_here r s' = Some m.
Proof.
  induction s as [|a s IH]; simpl.
  - destruct (Re.match_here r "") eqn:E; [intros [= <-]; eauto|discriminate].
  - destruct (Re.match_here r (String a s)) eqn:E; [intros [= <-]; eauto|exact IH].
Qed.

(** ** Extractor *)

(** The letter a store pattern captures is one of A, B, a, b. *)
Lemma store_letter_group (c : Re.captures) (s : string) (m : Re.captures) :
  Re.run (Re.Grp 2 EntityExtractor.store_letter) s c (fun _ c' => Some c') = Some m ->
  exists ch, (ch = "A" \/ ch = "B" \/ ch = "a" \/ ch = "b")%char /\
             m = (2, String ch "") :: c.
Proof.
  unfold EntityExtractor.store_letter.
  cbn [Re.run Re.lits]. unfold Re.or_else.
  destruct s as [|a s]; [discriminate|].
  cbn [PyStr.startswith PyStr.drop String.length].
  replace (S (String.length s) - String.length s) with 1 by lia.
  cbn [PyStr.take].
  destruct (Ascii.eqb a "A") eqn:EA;
    [apply Ascii.eqb_eq in EA as ->; intros [= <-]; eauto 10|].
  destruct (Ascii.eqb a "B") eqn:EB;
    [apply Ascii.eqb_eq in EB as ->; intros [= <-]; eauto 10|].
  destruct (Ascii.eqb "a" a) eqn:Ea;
    [apply Ascii.eqb_eq in Ea as <-; intros [= <-]; eauto 10|].
  destruct (Ascii.eqb "b" a) eqn:Eb;
    [apply Ascii.eqb_eq in Eb as <-; intros [= <-]; eauto 10|].
  discriminate.
Qed.

Lemma store_pattern_group (pattern : Re.regex) (query : string) (m : Re.captures) :
  In pattern EntityExtractor.store_patterns ->
  Re.search pattern query = Some m ->
  exists ch, (ch = "A" \/ ch = "B" \/ ch = "a" \/ ch = "b")%char /\
             Re.group 2 m = Some (String ch "").
Proof.
  intros Hp Hs. apply search_match_here in Hs as [s Hm].
  unfold Re.match_here in Hm.
  assert (Hg : exists s2 c2,
             Re.run (Re.Grp 2 EntityExtractor.store_letter) s2 c2
                    (fun _ c' => Some c') = Some m).
  { destruct Hp as [<-|[<-|[]]]; cbn [Re.seq] in Hm;
      rewrite run_seq in Hm; apply run_from_k in Hm as (s1 & c1 & Hm);
      cbv beta in Hm;
      rewrite run_seq in Hm; apply run_from_k in Hm as (s2 & c2 & Hm);
      eauto. }
  destruct Hg as (s2 & c2 & Hg).
  apply store_letter_group in Hg as (ch & Hch & ->).
  exists ch. split; [exact Hch|reflexivity].
Qed.

Lemma extract_stores_step (query : string) (pattern : Re.regex) :
  In pattern EntityExtractor.store_patterns ->
  match Re.search pattern query with
  | Some m =>
      "store_" +:+ PyStr.lower (PyStr.upper (default "" (Re.group 2 m))) = "store_a" \/
      "store_" +:+ PyStr.lower (PyStr.upper (default "" (Re.group 2 m))) = "store_b"
  | None => True
  end.
Proof.
  intros Hp. destruct (Re.search pattern query) as [m|] eqn:Hs; [|exact I].
  destruct (store_pattern_group pattern query m Hp Hs) as (ch & Hch & ->).
  destruct Hch as [-> | [-> | [-> | ->]]]; vm_compute; auto.
Qed.

(** X4: the stores extracted from a query are at most two, and each is
    [store_a] or [store_b]; a store filter of a processed query therefore
    names no other store. *)
Theorem extract_stores_vocabulary (query : string) :
  length (stores (EntityExtractor.extract query)) <= 2 /\
  (forall s, In s (stores (EntityExtractor.extract query)) ->
             s = "store_a" \/ s = "store_b") /\
  (forall v, filters (QueryProcessor.process query) !! "store_id" = Some v ->
             v = EqStr "store_a" \/ v = EqStr "store_b" \/
             exists l, v = InList l /\ length l = 2 /\
                       forall s, In s l -> s = "store_a" \/ s = "store_b").
Proof.
  assert (Hfilters : filters (QueryProcessor.process query)
                     = QueryProcessor._build_filters (EntityExtractor.extract query)).
  { unfold QueryProcessor.process.
    destruct (IntentClassifier.classify query); reflexivity. }
  rewrite Hfilters, build_filters_store.
  change (stores (EntityExtractor.extract query))
    with (EntityExtractor._extract_stores (PyStr.strip (PyStr.lower query))).
  set (ql := PyStr.strip (PyStr.lower query)).
  assert (H : length (EntityExtractor._extract_stores ql) <= 2 /\
              forall s, In s (EntityExtractor._extract_stores ql) ->
                        s = "store_a" \/ s = "store_b").
  { unfold EntityExtractor._extract_stores.
    destruct (_ || _); [split; [simpl; lia|intros s [<-|[<-|[]]]; auto]|].
    unfold EntityExtractor.store_patterns. cbn [fold_left].
    pose proof (extract_stores_step ql _ (or_introl eq_refl)) as H1.
    pose proof (extract_stores_step ql _ (or_intror (or_introl eq_refl))) as H2.
    destruct (Re.search _ ql) as [m1|]; destruct (Re.search _ ql) as [m2|];
      cbn [app length]; (split; [lia|]); intros s Hs; simpl in Hs;
      repeat destruct Hs as [<-|Hs]; auto; contradiction. }
  destruct H as [Hlen Hin]. split; [exact Hlen|]. split; [exact Hin|].
  intros v Hv.
  destruct (EntityExtractor._extract_stores ql) as [|a [|b [|c rest]]] eqn:E;
    try discriminate Hv; injection Hv as <-.
  - destruct (Hin a (or_introl eq_refl)) as [-> | ->]; auto.
  - right. right. exists [a; b]. auto.
  - simpl in Hlen. lia.
Qed.

Lemma digits_acc_nonneg (s : string) (acc : Z) :
  (0 <= acc)%Z -> (0 <= PyStr.digits_acc acc s)%Z.
Proof.
  revert acc. induction s as [|c s IH]; intros acc Hacc; simpl; [exact Hacc|].
  apply IH. unfold PyStr.digit_val. lia.
Qed.

Lemma int_group_nonneg (n : nat) (m : Re.captures) :
  (0 <= EntityExtractor.int_group n m)%Z.
Proof.
  unfold EntityExtractor.int_group, PyStr.int_of.
  destruct (Re.group n m); [apply digits_acc_nonneg|]; lia.
Qed.

Lemma extract_limit_nonneg (query : string) (n : Z) :
  EntityExtractor._extract_limit query = Some n -> (0 <= n)%Z.
Proof.
  unfold EntityExtractor._extract_limit.
  repeat match goal with
         | |- context [match Re.search ?r ?q with _ => _ end] =>
             destruct (Re.search r q)
         end;
    intros [= <-]; apply int_group_nonneg.
Qed.

(** X5: the values the extractor produces come from its fixed tables: a
    format is one of the four capitalised names, a sort key is one of the
    five keys the retriever's sorting handles, every genre is a row of the
    genre table, and a result limit is never negative. *)
Theorem extract_vocabulary (query : string) :
  (forall f, format (EntityExtractor.extract query) = Some f ->
             In f ["Ebook"; "Audiobook"; "Hardcover"; "Paperback"]) /\
  (forall k, sort_by (EntityExtractor.extract query) = Some k ->
             In k ["price_asc"; "price_desc"; "rating_desc"; "year_desc"; "year_asc"]) /\
  (forall g, In g (genres (EntityExtractor.extract query)) ->
             In g (List.map fst EntityExtractor.genre_keywords)) /\
  (forall n, limit (EntityExtractor.extract query) = Some n -> (0 <= n)%Z).
Proof.
  set (ql := PyStr.strip (PyStr.lower query)).
  change (format (EntityExtractor.extract query))
    with (EntityExtractor._extract_format ql).
  change (sort_by (EntityExtractor.extract query))
    with (EntityExtractor._extract_sort_preference ql).
  change (genres (EntityExtractor.extract query))
    with (EntityExtractor._extract_genres ql).
  change (limit (EntityExtractor.extract query))
    with (EntityExtractor._extract_limit ql).
  repeat split.
  - unfold EntityExtractor._extract_format, EntityExtractor.format_keywords.
    cbn [List.filter].
    repeat match goal with
           | |- context [EntityExtractor.any_in ?kws ql] =>
               destruct (EntityExtractor.any_in kws ql)
           end;
      intros f [= <-]; vm_compute; auto 10.
  - unfold EntityExtractor._extract_sort_preference.
    repeat match goal with
           | |- context [if ?b then _ else _] => destruct b
           end;
      intros k [= <-]; simpl; auto 10.
  - unfold EntityExtractor._extract_genres, EntityExtractor.list_of_set.
    intros g Hg. rewrite <- list_elem_of_In, elem_of_remove_dups, list_elem_of_In in Hg.
    apply in_map_iff in Hg as (row & <- & Hrow).
    apply filter_In in Hrow as [Hrow _]. now apply in_map.
  - apply extract_limit_nonneg.
Qed.

Lemma extract_vocabulary_witness :
  format (EntityExtractor.extract "Top 5 cheapest sci-fi ebooks") = Some "Ebook" /\
  In "Ebook" ["Ebook"; "Audiobook"; "Hardcover"; "Paperback"] /\
  limit (EntityExtractor.extract "Top 5 cheapest sci-fi ebooks") = Some 5%Z.
Proof.
  assert (Hf : format (EntityExtractor.extract "Top 5 cheapest sci-fi ebooks")
               = Some "Ebook") by (vm_compute; reflexivity).
  split; [exact Hf|]. split; [|vm_compute; reflexivity].
  exact (proj1 (extract_vocabulary "Top 5 cheapest sci-fi ebooks") "Ebook" Hf).
Defined.

(** ** Processor *)

Lemma lower_char_not_upper (c : ascii) :
  PyStr.is_upper (PyStr.lower_char c) = false.
Proof. destruct c as [[] [] [] [] [] [] [] []]; reflexivity. Qed.

Lemma lower_no_upper (s : string) :
  all_chars (fun c => negb (PyStr.is_upper c)) (PyStr.lower s) = true.
Proof.
  unfold PyStr.lower.
  induction s as [|c s IH]; cbn [PyStr.map_chars all_chars]; [reflexivity|].
  now rewrite lower_char_not_upper, IH.
Qed.

Lemma all_chars_app (p : ascii -> bool) (s t : string) :
  all_chars p (s +:+ t) = all_chars p s && all_chars p t.
Proof.
  induction s as [|c s IH]; simpl; [reflexivity|].
  now rewrite IH, andb_assoc.
Qed.

(** Every run consists of characters of the text that satisfy the class. *)
Lemma runs_chars (p q : ascii -> bool) (s cur w : string) :
  all_chars q s = true ->
  all_chars p cur = true -> all_chars q cur = true ->
  In w (PyStr.runs p cur s) ->
  all_chars p w = true /\ all_chars q w = true.
Proof.
  revert cur. induction s as [|c s IH]; intros cur Hs Hp Hq Hw; simpl in Hw.
  - destruct cur; [destruct Hw|destruct Hw as [<-|[]]; auto].
  - simpl in Hs. apply andb_true_iff in Hs as [Hc Hs].
    destruct (p c) eqn:Hpc.
    + apply (IH (cur +:+ String c "")); auto;
        rewrite all_chars_app; simpl; rewrite ?Hp, ?Hq, ?Hpc, ?Hc; reflexivity.
    + destruct cur.
      * apply (IH ""); auto.
      * destruct Hw as [<-|Hw]; [auto|]. apply (IH ""); auto.
Qed.

(** X6: every keyword of a processed query is a run of at least three word
    characters without capital letters, and is not a stop word. *)
Theorem process_keywords_wellformed (query w : string) :
  In w (pq_keywords (QueryProcessor.process query)) ->
  (3 <= String.length w) /\
  (w ∉ QueryProcessor.stop_words) /\
  (all_chars PyStr.is_word w = true) /\
  all_chars (fun c => negb (PyStr.is_upper c)) w = true.
Proof.
  assert (Hk : pq_keywords (QueryProcessor.process query)
               = QueryProcessor._extract_keywords query).
  { unfold QueryProcessor.process.
    destruct (IntentClassifier.classify query); reflexivity. }
  rewrite Hk. unfold QueryProcessor._extract_keywords, PyStr.findall_words.
  intros Hw. apply filter_In in Hw as [Hrun Hkeep].
  apply andb_true_iff in Hkeep as [Hstop Hlen].
  apply bool_decide_eq_true in Hstop. apply Nat.ltb_lt in Hlen.
  destruct (runs_chars PyStr.is_word (fun c => negb (PyStr.is_upper c))
              (PyStr.lower query) "" w (lower_no_upper query) eq_refl eq_refl Hrun)
    as [Hword Hlow].
  repeat split; auto.
Qed.

Lemma process_keywords_wellformed_witness :
  In "dragons" (pq_keywords (QueryProcessor.process "Show me books about DRAGONS")) /\
  3 <= String.length "dragons" /\
  all_chars PyStr.is_word "dragons" = true.
Proof.
  assert (H : In "dragons"
                 (pq_keywords (QueryProcessor.process "Show me books about DRAGONS")))
    by (vm_compute; auto).
  split; [exact H|].
  destruct (process_keywords_wellformed _ _ H) as (Hlen & _ & Hword & _).
  split; assumption.
Defined.

Lemma process_fields (query : string) :
  entities (QueryProcessor.process query) = EntityExtractor.extract query /\
  filters (QueryProcessor.process query)
  = QueryProcessor._build_filters (EntityExtractor.extract query) /\
  metadata (QueryProcessor.process query)
  = QueryProcessor._extract_metadata query
      (intent (QueryProcessor.process query)) (EntityExtractor.extract query).
Proof.
  unfold QueryProcessor.process.
  destruct (IntentClassifier.classify query); repeat split; reflexivity.
Qed.

Lemma lookup_range_filter_eq (key : string) (r : Range)
      (f : gmap string FilterValue) :
  f !! key = None -> range_truthy r = true ->
  QueryProcessor.range_filter key r f !! key
  = Some (Bounds (range_min r) (range_max r)).
Proof.
  intros Hnone Ht.
  unfold QueryProcessor.range_filter, QueryProcessor.set_gte, QueryProcessor.set_lte.
  unfold range_truthy in Ht.
  destruct (range_min r) as [lo|], (range_max r) as [hi|];
    try discriminate Ht; rewrite ?Hnone, ?lookup_insert_eq;
    first [reflexivity | apply lookup_insert_eq].
Qed.

Lemma build_filters_price (e : Entities) :
  QueryProcessor._build_filters e !! "price" =
  match price_range e with
  | Some r => if range_truthy r then Some (range_bounds r) else None
  | None => None
  end.
Proof.
  unfold QueryProcessor._build_filters. cbv zeta.
  rewrite lookup_membership_filter_ne by discriminate.
  destruct (availability e); rewrite ?lookup_insert_ne by discriminate;
    (destruct (format e) as [fm|]; [destruct (String.eqb fm "")|]);
    rewrite ?lookup_insert_ne by discriminate;
    rewrite lookup_membership_filter_ne by discriminate;
    (destruct (rating_range e) as [rr|]; [destruct (range_truthy rr)|]);
    rewrite ?(lookup_range_filter_ne "rating") by discriminate;
    (destruct (price_range e) as [pr|]; [destruct (range_truthy pr) eqn:Ht|]);
    first [ apply lookup_empty
          | apply lookup_range_filter_eq; [apply lookup_empty|exact Ht] ].
Qed.

Lemma build_filters_rating (e : Entities) :
  QueryProcessor._build_filters e !! "rating" =
  match rating_range e with
  | Some r => if range_truthy r then Some (range_bounds r) else None
  | None => None
  end.
Proof.
  unfold QueryProcessor._build_filters. cbv zeta.
  rewrite lookup_membership_filter_ne by discriminate.
  destruct (availability e); rewrite ?lookup_insert_ne by discriminate;
    (destruct (format e) as [fm|]; [destruct (String.eqb fm "")|]);
    rewrite ?lookup_insert_ne by discriminate;
    rewrite lookup_membership_filter_ne by discriminate;
    (destruct (rating_range e) as [rr|]; [destruct (range_truthy rr) eqn:Ht|]);
    try (apply lookup_range_filter_eq; [|exact Ht]);
    (destruct (price_range e) as [pr|]; [destruct (range_truthy pr)|]);
    rewrite ?(lookup_range_filter_ne "price") by discriminate;
    apply lookup_empty.
Qed.

Lemma range_or_none_truthy (r r' : Range) :
  range_or_none r = Some r' -> range_truthy r' = true.
Proof.
  unfold range_or_none. destruct (range_truthy r) eqn:E; [|discriminate].
  now intros [= <-].
Qed.

Lemma extract_ranges_truthy (query : string) :
  (forall r, price_range (EntityExtractor.extract query) = Some r ->
             range_truthy r = true) /\
  (forall r, rating_range (EntityExtractor.extract query) = Some r ->
             range_truthy r = true).
Proof.
  split; intros r; apply range_or_none_truthy.
Qed.

(** X7: in a processed query the price (resp. rating) filter exists exactly
    when a price (resp. rating) range was extracted, and it bounds the
    attribute on exactly the sides the range has: [$gte] for [min], [$lte]
    for [max]. *)
Theorem process_range_filters (query : string) :
  filters (QueryProcessor.process query) !! "price"
  = range_bounds <$> price_range (entities (QueryProcessor.process query)) /\
  filters (QueryProcessor.process query) !! "rating"
  = range_bounds <$> rating_range (entities (QueryProcessor.process query)).
Proof.
  destruct (process_fields query) as (-> & -> & _).
  destruct (extract_ranges_truthy query) as [Hp Hr].
  rewrite build_filters_price, build_filters_rating.
  split.
  - destruct (price_range _) as [r|]; [|reflexivity].
    now rewrite (Hp r eq_refl).
  - destruct (rating_range _) as [r|]; [|reflexivity].
    now rewrite (Hr r eq_refl).
Qed.

(** X8: the diagnostic flags of a processed query agree with its filters:
    a price, rating, store or genre constraint is reported exactly when the
    corresponding filter key is present. *)
Theorem process_metadata_agrees_with_filters (query : string) :
  let pq := QueryProcessor.process query in
  (has_price_constraint (metadata pq) = true <-> "price" ∈ dom (filters pq)) /\
  (has_rating_constraint (metadata pq) = true <-> "rating" ∈ dom (filters pq)) /\
  (has_store_preference (metadata pq) = true <-> "store_id" ∈ dom (filters pq)) /\
  (0 < genre_count (metadata pq) <-> "genre" ∈ dom (filters pq)).
Proof.
  intros pq. subst pq.
  destruct (process_fields query) as (_ & Hf & Hm).
  destruct (extract_ranges_truthy query) as [Tp Tr].
  rewrite !elem_of_dom, Hf, Hm. clear Hf Hm.
  rewrite build_filters_price, build_filters_rating, build_filters_store,
    build_filters_genre.
  revert Tp Tr. generalize (EntityExtractor.extract query). intros e Tp Tr.
  unfold QueryProcessor._extract_metadata; cbn [has_price_constraint
    has_rating_constraint has_store_preference genre_count].
  repeat split.
  - destruct (price_range e) as [r|]; simpl; [|discriminate].
    rewrite (Tp r eq_refl). eauto.
  - destruct (price_range e) as [r|]; simpl; [reflexivity|].
    intros [? H]; discriminate H.
  - destruct (rating_range e) as [r|]; simpl; [|discriminate].
    rewrite (Tr r eq_refl). eauto.
  - destruct (rating_range e) as [r|]; simpl; [reflexivity|].
    intros [? H]; discriminate H.
  - destruct (stores e) as [|? [|? ?]]; simpl; [discriminate|eauto|eauto].
  - destruct (stores e) as [|? [|? ?]]; simpl; [|reflexivity|reflexivity].
    intros [? H]; discriminate H.
  - destruct (genres e) as [|? [|? ?]]; simpl; [lia|eauto|eauto].
  - destruct (genres e) as [|? [|? ?]]; simpl; [|lia|lia].
    intros [? H]; discriminate H.
Qed.

(** ** Router *)

(** X9: registration is keyed by intent.  Registering a handler replaces an
    earlier handler of the same intent and leaves the routing of queries of
    every other intent unchanged; a query of that intent is then answered
    with a success envelope exactly when the new handler returns. *)
Theorem route_after_register {T : Type} (py : Interpreter)
        (handlers : gmap QueryIntent (ParsedQuery -> completion T))
        (i : QueryIntent) (h h0 : ParsedQuery -> completion T) (query : string) :
  QueryRouter.route py
    (QueryRouter.register_handler i h (QueryRouter.register_handler i h0 handlers))
    query
  = QueryRouter.route py (QueryRouter.register_handler i h handlers) query /\
  (forall pq,
     QueryProcessor.process_call (int_max_str_digits py) query = Returns pq ->
     intent pq <> i ->
     QueryRouter.route py (QueryRouter.register_handler i h handlers) query
     = QueryRouter.route py handlers query) /\
  (forall pq,
     QueryProcessor.process_call (int_max_str_digits py) query = Returns pq ->
     intent pq = i ->
     ((exists env,
         QueryRouter.route py (QueryRouter.register_handler i h handlers) query
         = Normal env /\ success env = true)
      <-> exists r, h pq = Normal r)).
Proof.
  unfold QueryRouter.register_handler, QueryRouter.route, QueryRouter.Handler.
  split; [now rewrite insert_insert_eq|]. split.
  - intros pq -> Hne. now rewrite lookup_insert_ne by congruence.
  - intros pq -> <-. rewrite lookup_insert_eq.
    destruct (h pq) as [r|[msg|name]]; split.
    + eauto.
    + intros _. eexists. split; [reflexivity|reflexivity].
    + intros (env & [= <-] & Hs). discriminate Hs.
    + intros [r [=]].
    + intros (env & [=] & _).
    + intros [r [=]].
Qed.

Lemma route_after_register_witness :
  exists env,
    QueryRouter.route (T := nat)
      {| version := From_3_11; int_max_str_digits := 4300 |}
      (QueryRouter.register_handler INFORMATION (fun _ => Normal 7)
         (QueryRouter.register_handler INFORMATION
            (fun _ => Abrupt (ExceptionOf "old")) ∅))
      "Tell me about Dune" = Normal env /\
    success env = true.
Proof.
  destruct (route_after_register (T := nat)
              {| version := From_3_11; int_max_str_digits := 4300 |}
              (QueryRouter.register_handler INFORMATION
                 (fun _ => Abrupt (ExceptionOf "old")) ∅)
              INFORMATION (fun _ => Normal 7)
              (fun _ => Abrupt (ExceptionOf "older"))
              "Tell me about Dune") as (_ & _ & H).
  apply (H (QueryProcessor.process "Tell me about Dune"));
    [vm_compute; reflexivity|vm_compute; reflexivity|now exists 7].
Defined.

(** X10: an envelope carries a result exactly when it reports success and an
    error exactly when it reports failure, never both and never neither;
    its parsed query is the one [process] returns for the query. *)
Theorem route_envelope_shape {T : Type} (py : Interpreter)
        (handlers : gmap QueryIntent (ParsedQuery -> completion T))
        (query : string) (env : Envelope T) :
  QueryRouter.route py handlers query = Normal env ->
  parsed_query env = QueryProcessor.process query /\
  (success env = true <-> is_Some (result env)) /\
  (success env = false <-> is_Some (error env)) /\
  (is_Some (result env) <-> error env = None).
Proof.
  unfold QueryRouter.route, QueryRouter.Handler.
  destruct (QueryProcessor.process_call _ query) as [pq|msg] eqn:Hcall;
    [|discriminate].
  apply process_call_value in Hcall as ->.
  set (pq := QueryProcessor.process query). clearbody pq.
  destruct (handlers !! intent pq) as [h|]; [destruct (h pq) as [r|[msg|name]]|];
    try discriminate; intros [= <-]; simpl;
    repeat split; eauto; try discriminate;
    try (intros [? H]; discriminate H).
Qed.

Lemma route_envelope_shape_witness :
  exists env,
    QueryRouter.route (T := nat)
      {| version := Before_3_11; int_max_str_digits := 0 |} ∅
      "Tell me about Dune" = Normal env /\
    success env = false /\ is_Some (error env).
Proof.
  eexists. split; [vm_compute; reflexivity|].
  split; [reflexivity|].
  eapply (route_envelope_shape (T := nat)
            {| version := Before_3_11; int_max_str_digits := 0 |} ∅
            "Tell me about Dune"); [vm_compute; reflexivity|reflexivity].
Defined.

(** ** Retrieval strategies and the collaborator *)

Section RetrievalFacts.
Context {A B : Type}.

Lemma ret_silent (v : A) (log : list SearchCall) : snd (ret v log) = log.
Proof. reflexivity. Qed.

Lemma lift_silent (o : outcome A) (log : list SearchCall) : snd (lift o log) = log.
Proof. reflexivity. Qed.

(** A search followed by steps that do not search is one call. *)
Lemma calls_search_then (indexer : Indexer) (text : string) (n : Z)
      (f : gmap string FilterValue) (g : list Item -> Retrieval B) :
  (forall v log, snd (g v log) = log) ->
  calls_of (bind (search_books indexer text n f) g)
  = [{| call_query := text; call_n_results := n; call_filters := f |}].
Proof.
  intros Hg. unfold calls_of, bind, search_books.
  destruct (indexer text n f); simpl; [apply Hg|reflexivity].
Qed.

Lemma result_search_raises (indexer : Indexer) (text : string) (n : Z)
      (f : gmap string FilterValue) (g : list Item -> Retrieval B) (msg : string) :
  indexer text n f = Raises msg ->
  result_of (bind (search_books indexer text n f) g) = Raises msg.
Proof.
  intros H. unfold result_of, bind, search_books. now rewrite H.
Qed.

Lemma result_search_returns (indexer : Indexer) (text : string) (n : Z)
      (f : gmap string FilterValue) (g : list Item -> Retrieval B)
      (hits : list Item) :
  indexer text n f = Returns hits ->
  result_of (bind (search_books indexer text n f) g)
  = fst (g hits [{| call_query := text; call_n_results := n; call_filters := f |}]).
Proof.
  intros H. unfold result_of, bind, search_books. now rewrite H.
Qed.
End RetrievalFacts.

Lemma bind_lift_silent {A B : Type} (o : outcome A) (g : A -> Retrieval B)
      (log : list SearchCall) :
  (forall v log, snd (g v log) = log) -> snd (bind (lift o) g log) = log.
Proof. intros Hg. unfold bind, lift. destruct o; simpl; auto. Qed.

(** *** Insertion-ordered dictionaries *)

Section Assoc.
Context {V : Type}.
Implicit Types (d : list (string * V)) (k : string) (v : V).

Lemma assoc_get_set_eq k v d :
  assoc_get k (assoc_set String.eqb k v d) = Some v.
Proof.
  unfold assoc_get. induction d as [|[k' v'] d IH]; simpl.
  - now rewrite String.eqb_refl.
  - destruct (String.eqb k k') eqn:E; simpl.
    + now rewrite String.eqb_refl.
    + rewrite String.eqb_sym, E. exact IH.
Qed.

Lemma assoc_get_set_ne k k' v d :
  k <> k' -> assoc_get k' (assoc_set String.eqb k v d) = assoc_get k' d.
Proof.
  intros Hne. unfold assoc_get. induction d as [|[k0 v0] d IH]; simpl.
  - apply String.eqb_neq in Hne. now rewrite Hne.
  - destruct (String.eqb k k0) eqn:E; simpl.
    + apply String.eqb_eq in E as <-.
      apply String.eqb_neq in Hne. now rewrite Hne.
    + destruct (String.eqb k0 k'); [reflexivity|exact IH].
Qed.

Lemma assoc_set_keys k v d (k' : string) :
  In k' (List.map fst (assoc_set String.eqb k v d)) <->
  k' = k \/ In k' (List.map fst d).
Proof.
  induction d as [|[k0 v0] d IH]; simpl.
  - intuition auto.
  - destruct (String.eqb k k0) eqn:E; simpl.
    + apply String.eqb_eq in E as <-. intuition auto.
    + rewrite IH. intuition auto.
Qed.

Lemma assoc_set_NoDup k v d :
  NoDup (List.map fst d) -> NoDup (List.map fst (assoc_set String.eqb k v d)).
Proof.
  induction d as [|[k0 v0] d IH]; simpl; intros Hnd.
  - constructor; [apply not_elem_of_nil|constructor].
  - inversion Hnd as [|? ? Hnotin Hnd']; subst.
    destruct (String.eqb k k0) eqn:E; simpl.
    + apply String.eqb_eq in E as <-. now constructor.
    + constructor; [|now apply IH].
      rewrite list_elem_of_In, assoc_set_keys.
      intros [->|Hin]; [now rewrite String.eqb_refl in E|].
      apply Hnotin. now apply list_elem_of_In.
Qed.

Lemma assoc_get_In k v d : assoc_get k d = Some v -> In (k, v) d.
Proof.
  unfold assoc_get. induction d as [|[k0 v0] d IH]; simpl; [discriminate|].
  destruct (String.eqb k0 k) eqn:E.
  - apply String.eqb_eq in E as ->. intros [= ->]. now left.
  - intros H. right. now apply IH.
Qed.

Lemma In_assoc_get k v d :
  NoDup (List.map fst d) -> In (k, v) d -> assoc_get k d = Some v.
Proof.
  unfold assoc_get. induction d as [|[k0 v0] d IH]; simpl; intros Hnd Hin;
    [destruct Hin|].
  inversion Hnd as [|? ? Hnotin Hnd']; subst.
  destruct Hin as [[= -> ->]|Hin].
  - now rewrite String.eqb_refl.
  - destruct (String.eqb k0 k) eqn:E; [|now apply IH].
    apply String.eqb_eq in E as ->. exfalso. apply Hnotin.
    apply list_elem_of_In. apply (in_map fst) in Hin. exact Hin.
Qed.

Lemma assoc_get_keys k d :
  In k (List.map fst d) <-> is_Some (assoc_get k d).
Proof.
  unfold assoc_get. induction d as [|[k0 v0] d IH]; simpl.
  - split; [intros []|intros [? [=]]].
  - destruct (String.eqb k0 k) eqn:E.
    + apply String.eqb_eq in E as ->. split; eauto.
    + rewrite <- IH. split; [intros [->|H]; [|exact H]|auto].
      now rewrite String.eqb_refl in E.
Qed.
End Assoc.

(** *** Minimum, maximum and mean *)

Lemma py_min2_le (a b : Q) : (py_min2 a b <= a)%Q /\ (py_min2 a b <= b)%Q.
Proof.
  unfold py_min2. destruct (Qle_bool a b) eqn:E.
  - split; [apply Qle_refl|now apply Qle_bool_iff].
  - split; [|apply Qle_refl].
    apply Qlt_le_weak, Qnot_le_lt. intros H. apply Qle_bool_iff in H. congruence.
Qed.

Lemma py_max2_ge (a b : Q) : (a <= py_max2 a b)%Q /\ (b <= py_max2 a b)%Q.
Proof.
  unfold py_max2. destruct (Qle_bool b a) eqn:E.
  - split; [apply Qle_refl|now apply Qle_bool_iff].
  - split; [|apply Qle_refl].
    apply Qlt_le_weak, Qnot_le_lt. intros H. apply Qle_bool_iff in H. congruence.
Qed.

Lemma fold_min_spec (xs : list Q) (x : Q) :
  In (fold_left py_min2 xs x) (x :: xs) /\
  forall y, In y (x :: xs) -> (fold_left py_min2 xs x <= y)%Q.
Proof.
  revert x. induction xs as [|a xs IH]; intros x; simpl.
  - split; [now left|]. intros y [<-|[]]. apply Qle_refl.
  - destruct (IH (py_min2 x a)) as [Hin Hle]. split.
    + destruct Hin as [Hin|Hin]; [|auto].
      rewrite <- Hin. unfold py_min2. destruct (Qle_bool x a); auto.
    + intros y Hy.
      assert (Hm := Hle _ (or_introl eq_refl)).
      destruct (py_min2_le x a) as [Hx Ha].
      destruct Hy as [<-|[<-|Hy]].
      * eapply Qle_trans; eassumption.
      * eapply Qle_trans; eassumption.
      * apply Hle. now right.
Qed.

Lemma fold_max_spec (xs : list Q) (x : Q) :
  In (fold_left py_max2 xs x) (x :: xs) /\
  forall y, In y (x :: xs) -> (y <= fold_left py_max2 xs x)%Q.
Proof.
  revert x. induction xs as [|a xs IH]; intros x; simpl.
  - split; [now left|]. intros y [<-|[]]. apply Qle_refl.
  - destruct (IH (py_max2 x a)) as [Hin Hle]. split.
    + destruct Hin as [Hin|Hin]; [|auto].
      rewrite <- Hin. unfold py_max2. destruct (Qle_bool a x); auto.
    + intros y Hy.
      assert (Hm := Hle _ (or_introl eq_refl)).
      destruct (py_max2_ge x a) as [Hx Ha].
      destruct Hy as [<-|[<-|Hy]].
      * eapply Qle_trans; eassumption.
      * eapply Qle_trans; eassumption.
      * apply Hle. now right.
Qed.

Lemma py_mean_returns (xs : list Q) :
  xs <> [] -> exists m, py_mean xs = Returns m.
Proof. destruct xs; [congruence|]. intros _. eexists. reflexivity. Qed.

(** Minimum and maximum of a non-empty list are elements that bound it. *)
Lemma py_min_max_spec (xs : list Q) :
  xs <> [] ->
  exists lo hi,
    py_min xs = Returns lo /\ py_max xs = Returns hi /\
    In lo xs /\ In hi xs /\ forall y, In y xs -> (lo <= y <= hi)%Q.
Proof.
  intros Hne. destruct xs as [|x xs]; [congruence|].
  destruct (fold_min_spec xs x) as [Hmin Hle], (fold_max_spec xs x) as [Hmax Hge].
  exists (fold_left py_min2 xs x), (fold_left py_max2 xs x).
  split; [reflexivity|]. split; [reflexivity|].
  split; [exact Hmin|]. split; [exact Hmax|].
  intros y Hy. split; auto.
Qed.

(** X11: on a non-empty book list the price statistics are computed; the
    minimum, the maximum and the median are prices of retrieved books, the
    minimum and the maximum bound every price, and the median lies between
    them. *)
Theorem price_stats_bounds (books : list Item) :
  books <> [] ->
  exists st,
    QueryRetriever._calculate_price_stats books = Returns st /\
    In (ps_min st) (QueryRetriever.prices_of books) /\
    In (ps_max st) (QueryRetriever.prices_of books) /\
    In (ps_median st) (QueryRetriever.prices_of books) /\
    (forall b, In b books ->
               ps_min st <= price (item_metadata b) <= ps_max st)%Q /\
    (ps_min st <= ps_median st <= ps_max st)%Q.
Proof.
  intros Hne.
  assert (Hp : QueryRetriever.prices_of books <> [])
    by (destruct books; [congruence|discriminate]).
  destruct (py_min_max_spec _ Hp) as (lo & hi & Hlo & Hhi & Hinlo & Hinhi & Hb).
  destruct (py_mean_returns _ Hp) as (avg & Havg).
  assert (Hlen : length books / 2 < length (py_sorted Qle_bool (QueryRetriever.prices_of books))).
  { rewrite py_sorted_length. unfold QueryRetriever.prices_of. rewrite length_map.
    apply Nat.div_lt; [destruct books; simpl; [congruence|lia]|lia]. }
  destruct (nth_error (py_sorted Qle_bool (QueryRetriever.prices_of books))
                      (length books / 2)) as [med|] eqn:Hmed;
    [|apply nth_error_None in Hmed; lia].
  assert (Hinmed : In med (QueryRetriever.prices_of books)).
  { eapply Permutation_in; [apply py_sorted_perm|]. eapply nth_error_In, Hmed. }
  exists {| ps_average := avg; ps_min := lo; ps_max := hi; ps_median := med |}.
  split.
  - unfold QueryRetriever._calculate_price_stats, QueryRetriever.median_of.
    rewrite Havg, Hlo, Hhi.
    replace (length (QueryRetriever.prices_of books)) with (length books)
      by (unfold QueryRetriever.prices_of; now rewrite length_map).
    now rewrite Hmed.
  - cbn [ps_min ps_max ps_median ps_average].
    split; [exact Hinlo|]. split; [exact Hinhi|]. split; [exact Hinmed|].
    split; [|apply Hb, Hinmed].
    intros b Hin. apply Hb.
    apply (in_map (fun b => price (item_metadata b))). exact Hin.
Qed.

Lemma price_stats_bounds_witness :
  exists st,
    QueryRetriever._calculate_price_stats
      [sample_book "1" "Herbert" "science fiction" (12 # 1) None "a";
       sample_book "2" "Tolkien" "fantasy" (8 # 1) None "b"] = Returns st /\
    (ps_min st <= ps_median st <= ps_max st)%Q.
Proof.
  destruct (price_stats_bounds
              [sample_book "1" "Herbert" "science fiction" (12 # 1) None "a";
               sample_book "2" "Tolkien" "fantasy" (8 # 1) None "b"]
              ltac:(discriminate)) as (st & Hst & _ & _ & _ & _ & Hmed).
  exists st. split; assumption.
Defined.

Lemma truthy_ratings_length (books : list Item) :
  length (QueryRetriever.truthy_ratings books) <= length books.
Proof.
  unfold QueryRetriever.truthy_ratings.
  set (f := fun b : Item => _).
  induction books as [|b books IH]; [simpl; lia|].
  change (omap f (b :: books))
    with (match f b with Some r => r :: omap f books | None => omap f books end).
  destruct (f b); simpl; lia.
Qed.

(** X12: the rating statistics are the null shape exactly when no book has
    a rating other than zero; otherwise the count is the number of such
    ratings, at least one and at most the number of books, and the minimum
    and the maximum are such ratings that bound all of them. *)
Theorem rating_stats_shape (books : list Item) :
  match QueryRetriever._calculate_rating_stats books with
  | NullRatingStats => QueryRetriever.truthy_ratings books = []
  | RatingStatsOf avg lo hi n =>
      n = length (QueryRetriever.truthy_ratings books) /\
      1 <= n <= length books /\
      In lo (QueryRetriever.truthy_ratings books) /\
      In hi (QueryRetriever.truthy_ratings books) /\
      forall r, In r (QueryRetriever.truthy_ratings books) -> (lo <= r <= hi)%Q
  end.
Proof.
  unfold QueryRetriever._calculate_rating_stats.
  pose proof (truthy_ratings_length books) as Hlen.
  destruct (QueryRetriever.truthy_ratings books) as [|r rs] eqn:E; [reflexivity|].
  assert (Hne : r :: rs <> []) by discriminate.
  destruct (py_min_max_spec _ Hne) as (lo & hi & Hlo & Hhi & Hinlo & Hinhi & Hb).
  destruct (py_mean_returns _ Hne) as (avg & Havg).
  rewrite Havg, Hlo, Hhi.
  split; [reflexivity|]. split; [simpl in *; lia|].
  split; [exact Hinlo|]. split; [exact Hinhi|exact Hb].
Qed.

(** *** Grouping by store *)

Lemma group_by_store_spec (books : list Item) (acc : list (string * list Item)) :
  NoDup (List.map fst acc) ->
  NoDup (List.map fst (QueryRetriever.group_by_store books acc)) /\
  (forall sid,
     default [] (assoc_get sid (QueryRetriever.group_by_store books acc))
     = default [] (assoc_get sid acc) ++ books_of_store sid books) /\
  (forall sid,
     In sid (List.map fst (QueryRetriever.group_by_store books acc)) <->
     In sid (List.map fst acc) \/
     exists b, In b books /\ store_id (item_metadata b) = sid).
Proof.
  revert acc. induction books as [|b books IH]; intros acc Hnd.
  - simpl. split; [exact Hnd|]. split.
    + intros sid. now rewrite app_nil_r.
    + intros sid. split; [auto|]. intros [H|(b & [] & _)]. exact H.
  - cbn [QueryRetriever.group_by_store].
    set (sid0 := store_id (item_metadata b)).
    set (cur := match List.find _ acc with Some (_, bs) => bs | None => [] end).
    assert (Hcur : cur = default [] (assoc_get sid0 acc)).
    { subst cur. unfold assoc_get.
      destruct (List.find _ acc) as [[? ?]|]; reflexivity. }
    destruct (IH (assoc_set String.eqb sid0 (cur ++ [b]) acc)
                 (assoc_set_NoDup _ _ _ Hnd)) as (Hnd' & Hget & Hkeys).
    split; [exact Hnd'|]. split.
    + intros sid. rewrite Hget. unfold books_of_store. cbn [List.filter].
      fold sid0. destruct (String.eqb sid0 sid) eqn:E.
      * apply String.eqb_eq in E as <-.
        rewrite assoc_get_set_eq. simpl. rewrite Hcur, <- app_assoc. reflexivity.
      * apply String.eqb_neq in E. now rewrite assoc_get_set_ne.
    + intros sid. rewrite Hkeys, assoc_set_keys. split.
      * intros [[->|H]|(x & Hx & Hs)]; eauto 6 using in_eq, in_cons.
      * intros [H|(x & [<-|Hx] & Hs)]; eauto 6.
Qed.

(** The groups built from the collaborator's answer: one per store that has
    a hit, holding that store's hits in rank order. *)
Lemma group_by_store_groups (books : list Item) (sid : string) (g : list Item) :
  In (sid, g) (QueryRetriever.group_by_store books []) ->
  g = books_of_store sid books /\ g <> [].
Proof.
  intros Hin.
  destruct (group_by_store_spec books [] (NoDup_nil_2 (A:=string))) as (Hnd & Hget & Hkeys).
  pose proof (In_assoc_get _ _ _ Hnd Hin) as Hg.
  specialize (Hget sid). rewrite Hg in Hget. simpl in Hget. subst g.
  split; [reflexivity|].
  assert (Hk : In sid (List.map fst (QueryRetriever.group_by_store books [])))
    by (apply (in_map fst) in Hin; exact Hin).
  apply Hkeys in Hk as [[]|(b & Hb & Hs)].
  intros Hempty.
  assert (Hbin : In b (books_of_store sid books)).
  { apply filter_In. split; [exact Hb|]. now apply String.eqb_eq. }
  rewrite Hempty in Hbin. destruct Hbin.
Qed.

Lemma store_comparison_spec (g : list Item) :
  g <> [] ->
  exists c,
    QueryRetriever.store_comparison g = Returns c /\
    book_count c = length g /\
    sample_books c = firstn 3 g /\
    (exists first, head g = Some first /\
                   sc_store_name c = store_name (item_metadata first)) /\
    (forall b, In b g -> min_price c <= price (item_metadata b) <= max_price c)%Q /\
    (avg_rating c = None <-> QueryRetriever.truthy_ratings g = []).
Proof.
  intros Hne. destruct g as [|first rest] eqn:Eg; [congruence|]. rewrite <- Eg in *.
  set (prices := List.map (fun b => price (item_metadata b)) g).
  assert (Hp : prices <> []) by (subst prices g; discriminate).
  destruct (py_min_max_spec _ Hp) as (lo & hi & Hlo & Hhi & _ & _ & Hb).
  destruct (py_mean_returns _ Hp) as (avg & Havg).
  eexists. split.
  - rewrite Eg at 1. cbn [QueryRetriever.store_comparison]. rewrite <- Eg.
    fold prices. rewrite Havg, Hlo, Hhi. reflexivity.
  - cbn [book_count sample_books sc_store_name min_price avg_price max_price
           avg_rating].
    split; [reflexivity|]. split; [reflexivity|].
    split; [exists first; rewrite Eg; split; reflexivity|].
    split; [intros b Hin; apply Hb; subst prices;
            apply (in_map (fun b => price (item_metadata b))); exact Hin|].
    destruct (QueryRetriever.truthy_ratings g) as [|r rs]; simpl.
    + split; reflexivity.
    + split; discriminate.
Qed.

Lemma compare_stores_spec (d : list (string * list Item)) :
  (forall sid g, In (sid, g) d -> g <> []) ->
  exists cs,
    QueryRetriever.compare_stores d = Returns cs /\
    List.map fst cs = List.map fst d /\
    forall sid c, In (sid, c) cs ->
      exists g, In (sid, g) d /\ QueryRetriever.store_comparison g = Returns c.
Proof.
  induction d as [|[sid g] d IH]; intros Hne.
  - exists []. repeat split. intros ? ? [].
  - destruct IH as (cs & Hcs & Hkeys & Hent);
      [intros s g' H; apply (Hne s g'); now right|].
    destruct (store_comparison_spec g (Hne sid g (or_introl eq_refl)))
      as (c & Hc & _).
    exists ((sid, c) :: cs). split.
    + cbn [QueryRetriever.compare_stores].
      destruct g as [|b g']; [now specialize (Hne sid [] (or_introl eq_refl))|].
      now rewrite Hc, Hcs.
    + split; [simpl; now rewrite Hkeys|].
      intros s c' [[= <- <-]|Hin].
      * exists g. split; [now left|exact Hc].
      * destruct (Hent s c' Hin) as (g' & Hg' & Hc').
        exists g'. split; [now right|exact Hc'].
Qed.

Lemma group_size_assoc_set (b : Item) (sid : string) (d : list (string * list Item)) :
  list_sum (List.map (fun kv => length (snd kv))
              (assoc_set String.eqb sid
                 (match List.find (fun '(k, _) => String.eqb k sid) d with
                  | Some (_, bs) => bs
                  | None => []
                  end ++ [b]) d))
  = S (list_sum (List.map (fun kv => length (snd kv)) d)).
Proof.
  unfold list_sum.
  induction d as [|[k0 g0] d IH]; [reflexivity|].
  cbn [List.find assoc_set]. rewrite (String.eqb_sym sid k0).
  destruct (String.eqb k0 sid); cbn [List.map fold_right snd].
  - rewrite length_app. simpl. lia.
  - rewrite IH. lia.
Qed.

Lemma group_by_store_size (books : list Item) (acc : list (string * list Item)) :
  list_sum (List.map (fun kv => length (snd kv))
              (QueryRetriever.group_by_store books acc))
  = list_sum (List.map (fun kv => length (snd kv)) acc) + length books.
Proof.
  revert acc. induction books as [|b books IH]; intros acc; simpl; [lia|].
  rewrite IH, group_size_assoc_set. lia.
Qed.

Lemma compare_stores_counts (d : list (string * list Item))
      (cs : list (string * StoreComparison)) :
  QueryRetriever.compare_stores d = Returns cs ->
  list_sum (List.map (fun kv => book_count (snd kv)) cs)
  = list_sum (List.map (fun kv => length (snd kv)) d).
Proof.
  revert cs. induction d as [|[sid g] d IH]; intros cs; simpl.
  - now intros [= <-].
  - destruct g as [|b g]; [apply IH|].
    destruct (store_comparison_spec (b :: g) ltac:(discriminate))
      as (c & Hc & Hcount & _).
    rewrite Hc.
    destruct (QueryRetriever.compare_stores d) as [cs'|]; [|discriminate].
    intros [= <-]. unfold list_sum in *. cbn [List.map fold_right snd].
    rewrite Hcount, (IH cs' eq_refl). reflexivity.
Qed.

(** X13: when the collaborator answers, the comparison strategy returns
    (it does not raise) exactly one entry per store that has a hit.  An
    entry counts that store's hits and samples the first three of them, its
    minimum and maximum price bound the prices of those hits, and the book
    counts of all stores add up to the total. *)
Theorem comparison_by_store (indexer : Indexer) (pq : ParsedQuery)
        (all_books : list Item) :
  indexer (QueryRetriever._build_search_text pq) 50%Z ∅ = Returns all_books ->
  exists cmp,
    result_of (QueryRetriever.retrieve_for_comparison indexer pq) = Returns cmp /\
    total_books cmp = length all_books /\
    stores_compared cmp = length (cmp_stores cmp) /\
    list_sum (List.map (fun kv => book_count (snd kv)) (cmp_stores cmp))
    = total_books cmp /\
    NoDup (List.map fst (cmp_stores cmp)) /\
    (forall sid, In sid (List.map fst (cmp_stores cmp)) <->
                 exists b, In b all_books /\ store_id (item_metadata b) = sid) /\
    (forall sid c, In (sid, c) (cmp_stores cmp) ->
       book_count c = length (books_of_store sid all_books) /\
       1 <= book_count c /\
       sample_books c = firstn 3 (books_of_store sid all_books) /\
       (forall b, In b (books_of_store sid all_books) ->
                  min_price c <= price (item_metadata b) <= max_price c)%Q).
Proof.
  intros Hidx.
  set (groups := QueryRetriever.group_by_store all_books []).
  destruct (group_by_store_spec all_books [] (NoDup_nil_2 (A:=string)))
    as (Hnd & _ & Hkeys). fold groups in Hnd, Hkeys.
  destruct (compare_stores_spec groups) as (cs & Hcs & Hfst & Hent).
  { intros sid g Hin. now destruct (group_by_store_groups all_books sid g Hin). }
  exists {| cmp_stores := cs; total_books := length all_books;
            stores_compared := length groups |}.
  split.
  { unfold QueryRetriever.retrieve_for_comparison.
    rewrite (result_search_returns _ _ _ _ _ all_books Hidx).
    fold groups. unfold bind, lift, ret. now rewrite Hcs. }
  cbn [cmp_stores total_books stores_compared].
  split; [reflexivity|].
  split; [now rewrite <- (length_map fst groups), <- Hfst, length_map|].
  split.
  { rewrite (compare_stores_counts groups cs Hcs). subst groups.
    rewrite group_by_store_size. reflexivity. }
  split; [now rewrite Hfst|].
  split.
  { intros sid. rewrite Hfst, Hkeys. split; [intros [[]|H]; exact H|auto]. }
  intros sid c Hin.
  destruct (Hent sid c Hin) as (g & Hg & Hc).
  destruct (group_by_store_groups all_books sid g Hg) as [-> Hne].
  destruct (store_comparison_spec _ Hne) as (c' & Hc' & Hcount & Hsample & _ & Hord & _).
  rewrite Hc in Hc'. injection Hc' as <-.
  split; [exact Hcount|]. split; [|split; [exact Hsample|exact Hord]].
  rewrite Hcount. destruct (books_of_store sid all_books); [congruence|simpl; lia].
Qed.

Lemma comparison_by_store_witness :
  exists cmp,
    result_of (QueryRetriever.retrieve_for_comparison
                 (fun _ _ _ =>
                    Returns [sample_book "1" "Herbert" "science fiction" (12 # 1) None "a";
                             sample_book "2" "Tolkien" "fantasy" (8 # 1) None "b";
                             sample_book "3" "Christie" "mystery" (10 # 1) None "a"])
                 (QueryProcessor.process "Which store has cheaper books?"))
    = Returns cmp /\
    total_books cmp = 3 /\ stores_compared cmp = 2 /\
    List.map fst (cmp_stores cmp) = ["a"; "b"].
Proof.
  destruct (comparison_by_store
              (fun _ _ _ =>
                 Returns [sample_book "1" "Herbert" "science fiction" (12 # 1) None "a";
                          sample_book "2" "Tolkien" "fantasy" (8 # 1) None "b";
                          sample_book "3" "Christie" "mystery" (10 # 1) None "a"])
              (QueryProcessor.process "Which store has cheaper books?")
              _ eq_refl) as (cmp & Hres & Htotal & _).
  exists cmp. split; [exact Hres|]. split; [exact Htotal|].
  vm_compute in Hres. injection Hres as <-. split; reflexivity.
Defined.

(** *** Counters *)

Lemma counter_spec (xs : list string) (acc : list (string * nat)) :
  NoDup (List.map fst acc) ->
  NoDup (List.map fst (QueryRetriever.counter xs acc)) /\
  (forall k,
     default 0 (assoc_get k (QueryRetriever.counter xs acc))
     = default 0 (assoc_get k acc)
       + length (List.filter (fun x => String.eqb x k) xs)) /\
  (forall k, In k (List.map fst (QueryRetriever.counter xs acc)) <->
             In k (List.map fst acc) \/ In k xs).
Proof.
  revert acc. induction xs as [|x xs IH]; intros acc Hnd.
  - simpl. split; [exact Hnd|]. split; [intros k; lia|].
    intros k. split; [auto|]. now intros [H|[]].
  - cbn [QueryRetriever.counter].
    set (n := match List.find _ acc with Some (_, n) => n | None => 0 end).
    assert (Hn : n = default 0 (assoc_get x acc)).
    { subst n. unfold assoc_get.
      destruct (List.find _ acc) as [[? ?]|]; reflexivity. }
    destruct (IH (assoc_set String.eqb x (S n) acc) (assoc_set_NoDup _ _ _ Hnd))
      as (Hnd' & Hget & Hkeys).
    split; [exact Hnd'|]. split.
    + intros k. rewrite Hget. cbn [List.filter].
      destruct (String.eqb x k) eqn:E.
      * apply String.eqb_eq in E as <-. rewrite assoc_get_set_eq. simpl. lia.
      * apply String.eqb_neq in E. now rewrite assoc_get_set_ne.
    + intros k. rewrite Hkeys, assoc_set_keys. simpl. intuition auto.
Qed.

(** An entry of a counter is a value that occurs, with the number of its
    occurrences. *)
Lemma counter_entries (xs : list string) (k : string) (n : nat) :
  In (k, n) (QueryRetriever.counter xs []) <->
  0 < n /\ n = length (List.filter (fun x => String.eqb x k) xs).
Proof.
  destruct (counter_spec xs [] (NoDup_nil_2 (A:=string))) as (Hnd & Hget & Hkeys).
  specialize (Hget k). simpl in Hget. split.
  - intros Hin. rewrite (In_assoc_get _ _ _ Hnd Hin) in Hget. simpl in Hget.
    split; [|exact Hget].
    apply (in_map fst) in Hin. apply Hkeys in Hin as [[]|Hin].
    assert (Hf : In k (List.filter (fun x => String.eqb x k) xs))
      by (apply filter_In; split; [exact Hin|apply String.eqb_refl]).
    rewrite Hget. destruct (List.filter _ xs); [destruct Hf|simpl; lia].
  - intros [Hpos ->].
    destruct (assoc_get k (QueryRetriever.counter xs [])) as [m|] eqn:E.
    + simpl in Hget. subst m. now apply assoc_get_In.
    + simpl in Hget. lia.
Qed.

Lemma total_count_assoc_set (x : string) (d : list (string * nat)) :
  total_count
    (assoc_set String.eqb x
       (S match List.find (fun '(k, _) => String.eqb k x) d with
          | Some (_, n) => n
          | None => 0
          end) d)
  = S (total_count d).
Proof.
  unfold total_count.
  induction d as [|[k0 n0] d IHd]; [reflexivity|].
  cbn [List.find assoc_set]. rewrite (String.eqb_sym x k0).
  destruct (String.eqb k0 x); cbn [fold_right snd]; [lia|].
  rewrite IHd. lia.
Qed.

Lemma counter_total (xs : list string) (acc : list (string * nat)) :
  total_count (QueryRetriever.counter xs acc) = total_count acc + length xs.
Proof.
  revert acc. induction xs as [|x xs IH]; intros acc; simpl; [lia|].
  rewrite IH, total_count_assoc_set. lia.
Qed.

Lemma StronglySorted_weaken {A : Type} (R S : A -> A -> Prop) (l : list A) :
  (forall a b, R a b -> S a b) -> StronglySorted R l -> StronglySorted S l.
Proof.
  intros HRS. induction 1 as [|x l Hs IH Hall]; constructor; [exact IH|].
  eapply Forall_impl; [exact Hall|]. auto.
Qed.

Lemma total_count_perm (d d' : list (string * nat)) :
  Permutation d d' -> total_count d = total_count d'.
Proof.
  induction 1; simpl; try lia.
Qed.

Section SortedByKey.
Context {A : Type} (le : A -> A -> bool).
Hypothesis le_total : forall a b, le a b = false -> le b a = true.
Hypothesis le_trans : forall a b c, le a b = true -> le b c = true -> le a c = true.

Lemma sorted_insert_by (x : A) (xs : list A) :
  StronglySorted (fun a b => le a b = true) xs ->
  StronglySorted (fun a b => le a b = true) (sorted_insert le x xs).
Proof.
  induction 1 as [|y ys Hs IH Hall]; simpl.
  - repeat constructor.
  - destruct (le x y) eqn:E.
    + constructor; [now constructor|].
      constructor; [exact E|].
      eapply Forall_impl; [exact Hall|]. intros z Hz. now apply (le_trans x y z).
    + constructor; [exact IH|].
      eapply Permutation_Forall; [symmetry; apply sorted_insert_perm|].
      constructor; [now apply le_total|exact Hall].
Qed.

Lemma py_sorted_by (xs : list A) :
  StronglySorted (fun a b => le a b = true) (py_sorted le xs).
Proof.
  induction xs as [|x xs IH]; simpl; [constructor|].
  now apply sorted_insert_by.
Qed.
End SortedByKey.

(** X14: each distribution of the analytics counts every book once: its
    entries are the values that occur, each with its number of books, the
    counts add up to the number of books, and the genre distribution lists
    the genres by non-increasing count. *)
Theorem distributions_count_books (books : list Item) :
  (forall g n,
     In (g, n) (QueryRetriever._calculate_genre_distribution books) <->
     0 < n /\
     n = length (List.filter (fun x => String.eqb x g)
                   (List.map (fun b => genre (item_metadata b)) books))) /\
  (forall s n,
     In (s, n) (QueryRetriever._calculate_store_distribution books) <->
     0 < n /\
     n = length (List.filter (fun x => String.eqb x s)
                   (List.map (fun b => store_name (item_metadata b)) books))) /\
  total_count (QueryRetriever._calculate_genre_distribution books) = length books /\
  total_count (QueryRetriever._calculate_store_distribution books) = length books /\
  total_count (QueryRetriever._calculate_format_distribution books) = length books /\
  StronglySorted (fun a b => snd b <= snd a)
                 (QueryRetriever._calculate_genre_distribution books).
Proof.
  unfold QueryRetriever._calculate_genre_distribution,
    QueryRetriever._calculate_store_distribution,
    QueryRetriever._calculate_format_distribution, QueryRetriever.most_common.
  split; [|split; [|split; [|split; [|split]]]].
  - intros g n. rewrite <- counter_entries. split; apply Permutation_in;
      [|symmetry]; apply py_sorted_perm.
  - intros s n. apply counter_entries.
  - rewrite (total_count_perm _ _ (py_sorted_perm _ _)), counter_total.
    simpl. now rewrite length_map.
  - rewrite counter_total. simpl. now rewrite length_map.
  - rewrite counter_total. simpl. now rewrite length_map.
  - eapply StronglySorted_weaken;
      [|apply (py_sorted_by (fun a b : string * nat => snd b <=? snd a))].
    + intros a b H. now apply Nat.leb_le.
    + intros a b H. apply Nat.leb_gt in H. apply Nat.leb_le. lia.
    + intros a b c H1 H2. apply Nat.leb_le in H1, H2. apply Nat.leb_le. lia.
Qed.

(** ** Diversification, for any candidate list *)

Lemma item_eqb_same_pair (a b : Item) :
  item_eqb a b = true ->
  author (item_metadata a) = author (item_metadata b) /\
  genre (item_metadata a) = genre (item_metadata b).
Proof.
  unfold item_eqb, metadata_eqb. rewrite !andb_true_iff.
  intros H. repeat match goal with H : _ /\ _ |- _ => destruct H end.
  split; now apply String.eqb_eq.
Qed.

Lemma pairwise_distinct_snoc (xs : list Item) (r : Item) :
  pairwise_distinct xs -> py_in r xs = false -> pairwise_distinct (xs ++ [r]).
Proof.
  induction xs as [|x xs IH]; simpl; intros Hd Hr; [auto|].
  destruct Hd as [Hx Hd]. apply orb_false_iff in Hr as [Hrx Hr].
  split; [|now apply IH].
  rewrite py_in_app, Hx. simpl. now rewrite item_eqb_comm, Hrx.
Qed.

Lemma In_firstn_In {A : Type} (n : nat) (xs : list A) (x : A) :
  In x (firstn n xs) -> In x xs.
Proof.
  revert n. induction xs as [|y xs IH]; intros [|n]; simpl; try tauto.
  intros [H|H]; [now left|right; eauto].
Qed.

Lemma pairwise_distinct_firstn (n : nat) (xs : list Item) :
  pairwise_distinct xs -> pairwise_distinct (firstn n xs).
Proof.
  revert n. induction xs as [|x xs IH]; intros [|n]; simpl; auto.
  intros [Hx Hd]. split; [|now apply IH].
  destruct (py_in x (firstn n xs)) eqn:E; [|reflexivity].
  apply existsb_exists in E as (y & Hy & Hxy).
  assert (Hin : py_in x xs = true).
  { apply existsb_exists. exists y. split; [|exact Hxy].
    eapply In_firstn_In. exact Hy. }
  congruence.
Qed.

Section PassesAnyList.
Variable limit : Z.

Lemma first_pass_distinct (rs div : list Item) (sa sg : gset string) :
  pairwise_distinct div ->
  (forall x, In x div ->
             author (item_metadata x) ∈ sa /\ genre (item_metadata x) ∈ sg) ->
  pairwise_distinct (QueryRetriever.first_pass limit rs div sa sg).
Proof.
  revert div sa sg. induction rs as [|r rs IH]; intros div sa sg Hd Hseen; simpl.
  - exact Hd.
  - destruct (_ || _) eqn:Hnew; [|now apply IH].
    assert (Hd' : pairwise_distinct (div ++ [r])).
    { apply pairwise_distinct_snoc; [exact Hd|].
      destruct (py_in r div) eqn:E; [|reflexivity]. exfalso.
      apply existsb_exists in E as (x & Hx & Hrx).
      apply item_eqb_same_pair in Hrx as [Ha Hg].
      destruct (Hseen x Hx) as [Hxa Hxg].
      apply orb_true_iff in Hnew as [Hn|Hn]; apply bool_decide_eq_true in Hn;
        apply Hn; congruence. }
    destruct (_ <=? _)%Z; [exact Hd'|].
    apply IH; [exact Hd'|].
    intros x Hx. apply in_app_or in Hx as [Hx|[<-|[]]].
    + destruct (Hseen x Hx). split; apply elem_of_union; now right.
    + split; apply elem_of_union; left; now apply elem_of_singleton.
Qed.

Lemma second_pass_distinct (rs div : list Item) :
  pairwise_distinct div ->
  pairwise_distinct (QueryRetriever.second_pass limit rs div).
Proof.
  revert div. induction rs as [|r rs IH]; intros div Hd; simpl; [exact Hd|].
  destruct (negb _) eqn:Hnew; [|now apply IH].
  apply negb_true_iff in Hnew.
  assert (Hd' : pairwise_distinct (div ++ [r]))
    by now apply pairwise_distinct_snoc.
  destruct (_ <=? _)%Z; [exact Hd'|now apply IH].
Qed.

Lemma first_pass_incl (rs div : list Item) (sa sg : gset string) (x : Item) :
  In x (QueryRetriever.first_pass limit rs div sa sg) -> In x div \/ In x rs.
Proof.
  revert div sa sg. induction rs as [|r rs IH]; intros div sa sg; simpl; [auto|].
  destruct (_ || _).
  - destruct (_ <=? _)%Z.
    + intros H. apply in_app_or in H as [H|[<-|[]]]; auto.
    + intros H. apply IH in H as [H|H]; [|auto].
      apply in_app_or in H as [H|[<-|[]]]; auto.
  - intros H. apply IH in H as [H|H]; auto.
Qed.

Lemma second_pass_incl (rs div : list Item) (x : Item) :
  In x (QueryRetriever.second_pass limit rs div) -> In x div \/ In x rs.
Proof.
  revert div. induction rs as [|r rs IH]; intros div; simpl; [auto|].
  destruct (negb _).
  - destruct (_ <=? _)%Z.
    + intros H. apply in_app_or in H as [H|[<-|[]]]; auto.
    + intros H. apply IH in H as [H|H]; [|auto].
      apply in_app_or in H as [H|[<-|[]]]; auto.
  - intros H. apply IH in H as [H|H]; auto.
Qed.
End PassesAnyList.

Lemma py_take_firstn {A : Type} (n : Z) (xs : list A) :
  exists k, py_take n xs = firstn k xs /\ ((0 <= n)%Z -> k = Z.to_nat n).
Proof.
  unfold py_take. destruct (0 <=? n)%Z eqn:E.
  - eexists. split; [reflexivity|auto].
  - eexists. split; [reflexivity|]. apply Z.leb_gt in E. lia.
Qed.

Lemma diversify_results_sound (results : list Item) (limit : Z) :
  (forall x, In x (QueryRetriever._diversify_results results limit) ->
             In x results) /\
  pairwise_distinct (QueryRetriever._diversify_results results limit) /\
  ((0 <= limit)%Z ->
   length (QueryRetriever._diversify_results results limit) <= Z.to_nat limit).
Proof.
  unfold QueryRetriever._diversify_results.
  set (D := QueryRetriever.first_pass limit results [] ∅ ∅).
  set (F := if (Z.of_nat (length D) <? limit)%Z
            then QueryRetriever.second_pass limit results D else D).
  assert (HD : pairwise_distinct D)
    by (apply first_pass_distinct; [exact I|intros x []]).
  assert (HDin : forall x, In x D -> In x results).
  { intros x Hx. apply first_pass_incl in Hx as [[]|Hx]. exact Hx. }
  assert (HF : pairwise_distinct F /\ forall x, In x F -> In x results).
  { subst F. destruct (_ <? _)%Z; [|auto]. split.
    - now apply second_pass_distinct.
    - intros x Hx. apply second_pass_incl in Hx as [Hx|Hx]; auto. }
  destruct HF as [HFd HFin].
  destruct (py_take_firstn limit F) as (k & -> & Hk).
  split; [|split].
  - intros x Hx. apply HFin. eapply In_firstn_In. exact Hx.
  - now apply pairwise_distinct_firstn.
  - intros Hlimit. rewrite <- (Hk Hlimit). apply firstn_le_length.
Qed.

(** X15: whatever the candidates and the limit, the diversification returns
    only candidates, returns no hit twice, and for a limit that is not
    negative returns at most [limit] items. *)
Theorem diversify_sound (results : list Item) (limit : Z) :
  (forall x, In x (QueryRetriever._diversify_results results limit) ->
             In x results) /\
  pairwise_distinct (QueryRetriever._diversify_results results limit) /\
  ((0 <= limit)%Z ->
   length (QueryRetriever._diversify_results results limit) <= Z.to_nat limit).
Proof. apply diversify_results_sound. Qed.

Lemma diversify_sound_witness :
  length (QueryRetriever._diversify_results
            [sample_book "1" "Herbert" "science fiction" (12 # 1) None "a";
             sample_book "1" "Herbert" "science fiction" (12 # 1) None "a";
             sample_book "2" "Tolkien" "fantasy" (8 # 1) None "b"] 3)
  <= 3.
Proof.
  apply (proj2 (proj2 (diversify_sound
           [sample_book "1" "Herbert" "science fiction" (12 # 1) None "a";
            sample_book "1" "Herbert" "science fiction" (12 # 1) None "a";
            sample_book "2" "Tolkien" "fantasy" (8 # 1) None "b"] 3))).
  lia.
Defined.

(** ** Sorting of search results *)

Section SortedByNumber.
Context {A : Type}.






End SortedByNumber.



(** ** The strategies against the collaborator *)

Ltac run_strategy :=
  unfold calls_of, result_of,
    QueryRetriever.retrieve_for_search, QueryRetriever.retrieve_for_recommendation,
    QueryRetriever.retrieve_for_comparison, QueryRetriever.retrieve_for_analytics,
    QueryRetriever.retrieve_for_filter, QueryRetriever.retrieve_for_information,
    bind, search_books, lift, ret;
  cbv beta iota zeta; cbn [fst snd call_query call_n_results call_filters];
  repeat match goal with
         | |- context [match ?x with _ => _ end] => destruct x
         end;
  cbv beta iota zeta; cbn [fst snd call_query call_n_results call_filters].

Lemma price_stats_returns (books : list Item) :
  books <> [] -> exists st, QueryRetriever._calculate_price_stats books = Returns st.
Proof.
  intros Hne.
  assert (Hp : QueryRetriever.prices_of books <> [])
    by (destruct books; [congruence|discriminate]).
  destruct (py_min_max_spec _ Hp) as (lo & hi & Hlo & Hhi & _).
  destruct (py_mean_returns _ Hp) as (avg & Havg).
  unfold QueryRetriever._calculate_price_stats, QueryRetriever.median_of.
  rewrite Havg, Hlo, Hhi.
  destruct (nth_error _ _) as [med|] eqn:Hmed; [eexists; reflexivity|].
  apply nth_error_None in Hmed. rewrite py_sorted_length in Hmed.
  assert (length (QueryRetriever.prices_of books) / 2
          < length (QueryRetriever.prices_of books));
    [|lia].
  apply Nat.div_lt; [|lia].
  destruct (QueryRetriever.prices_of books); [congruence|simpl; lia].
Qed.


Section Strategies.
Variable indexer : Indexer.
Variable pq : ParsedQuery.

(** The call each strategy makes. *)
Local Abbreviation search_call :=
  {| call_query := QueryRetriever._build_search_text pq;
     call_n_results :=
       QueryRetriever.or_default (limit (entities pq))
         (QueryRetriever.or_default (result_limit (metadata pq)) 10);
     call_filters := filters pq |}.
Local Abbreviation recommendation_call :=
  {| call_query := QueryRetriever._build_recommendation_text pq;
     call_n_results :=
       (QueryRetriever.or_default (limit (entities pq)) 10 * 2)%Z;
     call_filters := filters pq |}.
Local Abbreviation comparison_call :=
  {| call_query := QueryRetriever._build_search_text pq;
     call_n_results := 50%Z;
     call_filters := ∅ |}.
Local Abbreviation analytics_call :=
  {| call_query := QueryRetriever._build_search_text pq;
     call_n_results := 100%Z;
     call_filters := filters pq |}.
Local Abbreviation filter_call :=
  {| call_query := match pq_keywords pq with
                   | [] => "books"
                   | kws => PyStr.join " " kws
                   end;
     call_n_results := QueryRetriever.or_default (limit (entities pq)) 20;
     call_filters := filters pq |}.
Local Abbreviation information_call :=
  {| call_query := QueryRetriever._build_search_text pq;
     call_n_results := 1%Z;
     call_filters := filters pq |}.

Lemma search_log (log : list SearchCall) :
  snd (QueryRetriever.retrieve_for_search indexer pq log) = log ++ [search_call].
Proof. run_strategy; reflexivity. Qed.

Lemma recommendation_log (log : list SearchCall) :
  snd (QueryRetriever.retrieve_for_recommendation indexer pq log)
  = log ++ [recommendation_call].
Proof. run_strategy; reflexivity. Qed.

Lemma comparison_log (log : list SearchCall) :
  snd (QueryRetriever.retrieve_for_comparison indexer pq log)
  = log ++ [comparison_call].
Proof. run_strategy; reflexivity. Qed.

Lemma analytics_log (log : list SearchCall) :
  snd (QueryRetriever.retrieve_for_analytics indexer pq log)
  = log ++ [analytics_call].
Proof. run_strategy; reflexivity. Qed.

Lemma filter_log (log : list SearchCall) :
  snd (QueryRetriever.retrieve_for_filter indexer pq log) = log ++ [filter_call].
Proof. reflexivity. Qed.

Lemma information_log (log : list SearchCall) :
  snd (QueryRetriever.retrieve_for_information indexer pq log)
  = log ++ [information_call].
Proof. run_strategy; reflexivity. Qed.


Lemma recommendation_result_any_log (log : list SearchCall) :
  fst (QueryRetriever.retrieve_for_recommendation indexer pq log)
  = result_of (QueryRetriever.retrieve_for_recommendation indexer pq).
Proof. run_strategy; reflexivity. Qed.

Lemma comparison_result_any_log (log : list SearchCall) :
  fst (QueryRetriever.retrieve_for_comparison indexer pq log)
  = result_of (QueryRetriever.retrieve_for_comparison indexer pq).
Proof. run_strategy; reflexivity. Qed.

Lemma analytics_result_any_log (log : list SearchCall) :
  fst (QueryRetriever.retrieve_for_analytics indexer pq log)
  = result_of (QueryRetriever.retrieve_for_analytics indexer pq).
Proof. run_strategy; reflexivity. Qed.

Lemma filter_result_any_log (log : list SearchCall) :
  fst (QueryRetriever.retrieve_for_filter indexer pq log)
  = result_of (QueryRetriever.retrieve_for_filter indexer pq).
Proof. reflexivity. Qed.

Lemma information_result_any_log (log : list SearchCall) :
  fst (QueryRetriever.retrieve_for_information indexer pq log)
  = result_of (QueryRetriever.retrieve_for_information indexer pq).
Proof. run_strategy; reflexivity. Qed.

(** What each strategy does with the collaborator's answer. *)
Lemma search_result :
  result_of (QueryRetriever.retrieve_for_search indexer pq)
  = match indexer (call_query search_call) (call_n_results search_call)
                  (filters pq) with
    | Returns hits =>
        Returns match sort_by (entities pq) with
                | Some key =>
                    if String.eqb key "" then hits
                    else QueryRetriever._apply_sorting hits key
                | None => hits
                end
    | Raises msg => Raises msg
    end.
Proof. run_strategy; reflexivity. Qed.

Lemma recommendation_result :
  result_of (QueryRetriever.retrieve_for_recommendation indexer pq)
  = match indexer (call_query recommendation_call)
                  (call_n_results recommendation_call) (filters pq) with
    | Returns hits =>
        Returns (QueryRetriever._diversify_results hits
                   (QueryRetriever.or_default (limit (entities pq)) 10))
    | Raises msg => Raises msg
    end.
Proof. run_strategy; reflexivity. Qed.

Lemma comparison_result :
  result_of (QueryRetriever.retrieve_for_comparison indexer pq)
  = match indexer (call_query comparison_call) 50%Z ∅ with
    | Returns all_books =>
        match QueryRetriever.compare_stores
                (QueryRetriever.group_by_store all_books []) with
        | Returns stores =>
            Returns {| cmp_stores := stores;
                       total_books := length all_books;
                       stores_compared :=
                         length (QueryRetriever.group_by_store all_books []) |}
        | Raises msg => Raises msg
        end
    | Raises msg => Raises msg
    end.
Proof. run_strategy; reflexivity. Qed.

Lemma analytics_result :
  result_of (QueryRetriever.retrieve_for_analytics indexer pq)
  = match indexer (call_query analytics_call) 100%Z (filters pq) with
    | Returns [] => Returns (AnalyticsError "No books found for analytics")
    | Returns books =>
        match QueryRetriever._calculate_price_stats books with
        | Returns prices =>
            Returns (AnalyticsData
              {| an_total_books := length books;
                 price_stats := prices;
                 rating_stats := QueryRetriever._calculate_rating_stats books;
                 genre_distribution :=
                   QueryRetriever._calculate_genre_distribution books;
                 store_distribution :=
                   QueryRetriever._calculate_store_distribution books;
                 format_distribution :=
                   QueryRetriever._calculate_format_distribution books |})
        | Raises msg => Raises msg
        end
    | Raises msg => Raises msg
    end.
Proof. run_strategy; reflexivity. Qed.

Lemma information_result :
  result_of (QueryRetriever.retrieve_for_information indexer pq)
  = match indexer (call_query information_call) 1%Z (filters pq) with
    | Returns hits => Returns (head hits)
    | Raises msg => Raises msg
    end.
Proof. run_strategy; reflexivity. Qed.

Lemma filter_result :
  result_of (QueryRetriever.retrieve_for_filter indexer pq)
  = indexer (call_query filter_call) (call_n_results filter_call) (filters pq).
Proof. reflexivity. Qed.

End Strategies.

(** X17: every strategy asks the collaborator exactly once, whatever the
    collaborator answers: the search with the requested limit (by default
    10) and the query's filters, the recommendation with twice its limit,
    the comparison with 50 results and no filter, the analytics with 100
    results, the filter strategy with a default limit of 20, and the
    information strategy with a single result. *)
Theorem strategies_call_once (indexer : Indexer) (pq : ParsedQuery) :
  calls_of (QueryRetriever.retrieve_for_search indexer pq)
  = [{| call_query := QueryRetriever._build_search_text pq;
        call_n_results :=
          QueryRetriever.or_default (limit (entities pq))
            (QueryRetriever.or_default (result_limit (metadata pq)) 10);
        call_filters := filters pq |}] /\
  calls_of (QueryRetriever.retrieve_for_recommendation indexer pq)
  = [{| call_query := QueryRetriever._build_recommendation_text pq;
        call_n_results :=
          (QueryRetriever.or_default (limit (entities pq)) 10 * 2)%Z;
        call_filters := filters pq |}] /\
  calls_of (QueryRetriever.retrieve_for_comparison indexer pq)
  = [{| call_query := QueryRetriever._build_search_text pq;
        call_n_results := 50%Z;
        call_filters := ∅ |}] /\
  calls_of (QueryRetriever.retrieve_for_analytics indexer pq)
  = [{| call_query := QueryRetriever._build_search_text pq;
        call_n_results := 100%Z;
        call_filters := filters pq |}] /\
  calls_of (QueryRetriever.retrieve_for_filter indexer pq)
  = [{| call_query := match pq_keywords pq with
                      | [] => "books"
                      | kws => PyStr.join " " kws
                      end;
        call_n_results := QueryRetriever.or_default (limit (entities pq)) 20;
        call_filters := filters pq |}] /\
  calls_of (QueryRetriever.retrieve_for_information indexer pq)
  = [{| call_query := QueryRetriever._build_search_text pq;
        call_n_results := 1%Z;
        call_filters := filters pq |}].
Proof.
  unfold calls_of.
  rewrite search_log, recommendation_log, comparison_log, analytics_log,
    filter_log, information_log.
  repeat split.
Qed.

Section CollaboratorFails.
Variable indexer : Indexer.
Variable msg : string.
Hypothesis indexer_raises : forall text n f, indexer text n f = Raises msg.

Lemma search_fails (pq : ParsedQuery) :
  result_of (QueryRetriever.retrieve_for_search indexer pq) = Raises msg.
Proof. now rewrite search_result, indexer_raises. Qed.

Lemma recommendation_fails (pq : ParsedQuery) :
  result_of (QueryRetriever.retrieve_for_recommendation indexer pq) = Raises msg.
Proof. now rewrite recommendation_result, indexer_raises. Qed.

Lemma comparison_fails (pq : ParsedQuery) :
  result_of (QueryRetriever.retrieve_for_comparison indexer pq) = Raises msg.
Proof. now rewrite comparison_result, indexer_raises. Qed.

Lemma analytics_fails (pq : ParsedQuery) :
  result_of (QueryRetriever.retrieve_for_analytics indexer pq) = Raises msg.
Proof. now rewrite analytics_result, indexer_raises. Qed.

Lemma filter_fails (pq : ParsedQuery) :
  result_of (QueryRetriever.retrieve_for_filter indexer pq) = Raises msg.
Proof. now rewrite filter_result, indexer_raises. Qed.

Lemma information_fails (pq : ParsedQuery) :
  result_of (QueryRetriever.retrieve_for_information indexer pq) = Raises msg.
Proof. now rewrite information_result, indexer_raises. Qed.
End CollaboratorFails.

Section CollaboratorAnswers.
Variable indexer : Indexer.
Hypothesis indexer_returns : forall text n f, exists hits, indexer text n f = Returns hits.






End CollaboratorAnswers.

(** X18: no strategy handles an error of the collaborator: when the search
    call raises, each of the six strategies raises the same error. *)
Theorem strategies_propagate_failure (indexer : Indexer) (msg : string)
        (pq : ParsedQuery) :
  (forall text n f, indexer text n f = Raises msg) ->
  result_of (QueryRetriever.retrieve_for_search indexer pq) = Raises msg /\
  result_of (QueryRetriever.retrieve_for_recommendation indexer pq) = Raises msg /\
  result_of (QueryRetriever.retrieve_for_comparison indexer pq) = Raises msg /\
  result_of (QueryRetriever.retrieve_for_analytics indexer pq) = Raises msg /\
  result_of (QueryRetriever.retrieve_for_filter indexer pq) = Raises msg /\
  result_of (QueryRetriever.retrieve_for_information indexer pq) = Raises msg.
Proof.
  intros H. repeat split.
  - now apply search_fails.
  - now apply recommendation_fails.
  - now apply comparison_fails.
  - now apply analytics_fails.
  - now apply filter_fails.
  - now apply information_fails.
Qed.

Lemma strategies_propagate_failure_witness :
  result_of (QueryRetriever.retrieve_for_analytics
               (fun _ _ _ => Raises "collection not found")
               (QueryProcessor.process "average price of fantasy books"))
  = Raises "collection not found".
Proof.
  apply (strategies_propagate_failure
           (fun _ _ _ => Raises "collection not found") "collection not found"
           (QueryProcessor.process "average price of fantasy books")).
  reflexivity.
Defined.



(** X20: the analytics strategy answers with the error entry exactly when
    the collaborator finds no book.  Otherwise it returns statistics whose
    total is the number of hits, whose price and rating statistics are those
    of the hits, and whose three distributions each add up to the total. *)
Theorem analytics_error_iff_empty (indexer : Indexer) (pq : ParsedQuery)
        (books : list Item) :
  indexer (QueryRetriever._build_search_text pq) 100%Z (filters pq)
  = Returns books ->
  (books = [] /\
   result_of (QueryRetriever.retrieve_for_analytics indexer pq)
   = Returns (AnalyticsError "No books found for analytics")) \/
  (books <> [] /\
   exists a,
     result_of (QueryRetriever.retrieve_for_analytics indexer pq)
     = Returns (AnalyticsData a) /\
     an_total_books a = length books /\
     QueryRetriever._calculate_price_stats books = Returns (price_stats a) /\
     rating_stats a = QueryRetriever._calculate_rating_stats books /\
     total_count (genre_distribution a) = an_total_books a /\
     total_count (store_distribution a) = an_total_books a /\
     total_count (format_distribution a) = an_total_books a).
Proof.
  intros Hidx. rewrite analytics_result. cbn [call_query]. rewrite Hidx.
  destruct books as [|b books]; [left; split; reflexivity|].
  right. split; [discriminate|].
  destruct (price_stats_returns (b :: books)) as [st Hst]; [discriminate|].
  rewrite Hst. eexists. split; [reflexivity|].
  cbn [an_total_books price_stats rating_stats genre_distribution
       store_distribution format_distribution].
  repeat split.
  - unfold QueryRetriever._calculate_genre_distribution,
      QueryRetriever.most_common.
    rewrite (total_count_perm _ _ (py_sorted_perm _ _)), counter_total, length_map.
    reflexivity.
  - unfold QueryRetriever._calculate_store_distribution.
    rewrite counter_total, length_map. reflexivity.
  - unfold QueryRetriever._calculate_format_distribution.
    rewrite counter_total, length_map. reflexivity.
Qed.

Lemma analytics_error_iff_empty_witness :
  result_of (QueryRetriever.retrieve_for_analytics
               (fun _ _ _ => Returns [])
               (QueryProcessor.process "average price of fantasy books"))
  = Returns (AnalyticsError "No books found for analytics").
Proof.
  destruct (analytics_error_iff_empty
              (fun _ _ _ => Returns [])
              (QueryProcessor.process "average price of fantasy books")
              [] eq_refl) as [[_ H]|[H _]]; [exact H|congruence].
Defined.

(** ** Retrieval for generation *)

Section BindFacts.
Context {A B : Type}.

Lemma bind_returns (m : Retrieval A) (f : A -> Retrieval B)
      (log : list SearchCall) (v : A) :
  fst (m log) = Returns v -> bind m f log = f v (snd (m log)).
Proof.
  unfold bind. destruct (m log) as [[v'|msg] log']; simpl; [|discriminate].
  now intros [= ->].
Qed.

Lemma bind_raises (m : Retrieval A) (f : A -> Retrieval B)
      (log : list SearchCall) (msg : string) :
  fst (m log) = Raises msg -> bind m f log = (Raises msg, snd (m log)).
Proof.
  unfold bind. destruct (m log) as [[v'|msg'] log']; simpl; [discriminate|].
  now intros [= ->].
Qed.
End BindFacts.


(** When every call fails, the first call is the only one. *)
Lemma retrieve_by_intent_fails (indexer : Indexer) (msg : string)
      (pq : ParsedQuery) :
  (forall text n f, indexer text n f = Raises msg) ->
  intent pq <> UNKNOWN ->
  result_of (RAGRetriever.retrieve_by_intent indexer pq) = Raises msg /\
  length (calls_of (RAGRetriever.retrieve_by_intent indexer pq)) = 1.
Proof.
  intros Hidx Hknown. unfold RAGRetriever.retrieve_by_intent, result_of, calls_of.
  destruct (intent pq); [| | | | | |congruence].
  - rewrite (bind_raises _ _ [] msg (search_fails indexer msg Hidx pq)), search_log.
    split; reflexivity.
  - rewrite (bind_raises _ _ [] msg (recommendation_fails indexer msg Hidx pq)),
      recommendation_log.
    split; reflexivity.
  - rewrite (bind_raises _ _ [] msg (comparison_fails indexer msg Hidx pq)),
      comparison_log.
    split; reflexivity.
  - rewrite (bind_raises _ _ [] msg (analytics_fails indexer msg Hidx pq)),
      analytics_log.
    split; reflexivity.
  - rewrite (bind_raises _ _ [] msg (filter_fails indexer msg Hidx pq)), filter_log.
    split; reflexivity.
  - rewrite (bind_raises _ _ [] msg (information_fails indexer msg Hidx pq)),
      information_log.
    split; reflexivity.
Qed.




(** X22: a failure on the way to the context is not handled.  When
    processing the query raises, the context retrieval raises the same
    error without calling the collaborator; when the collaborator's call
    raises, the retrieval raises that error after this one call, also for an
    analytics query, whose second search is then not made. *)
Theorem retrieve_context_failure (max_str_digits : nat) (indexer : Indexer)
        (query : string) (max_results : Z) (msg : string) :
  (QueryProcessor.process_call max_str_digits query = Raises msg ->
   result_of (RAGRetriever.retrieve_context max_str_digits indexer query max_results)
   = Raises msg /\
   calls_of (RAGRetriever.retrieve_context max_str_digits indexer query max_results)
   = []) /\
  (forall pq,
     QueryProcessor.process_call max_str_digits query = Returns pq ->
     intent pq <> UNKNOWN ->
     (forall text n f, indexer text n f = Raises msg) ->
     result_of (RAGRetriever.retrieve_context max_str_digits indexer query max_results)
     = Raises msg /\
     length (calls_of (RAGRetriever.retrieve_context max_str_digits indexer query
                         max_results)) = 1).
Proof.
  unfold RAGRetriever.retrieve_context, result_of, calls_of. split.
  - intros ->. split; reflexivity.
  - intros pq -> Hknown Hidx.
    destruct (retrieve_by_intent_fails indexer msg pq Hidx Hknown) as [Hres Hcalls].
    unfold result_of, calls_of in Hres, Hcalls.
    rewrite (bind_returns (lift (Returns pq)) _ [] pq eq_refl).
    cbn [lift snd].
    rewrite (bind_raises _ _ [] msg Hres). split; [reflexivity|exact Hcalls].
Qed.

Lemma retrieve_context_failure_witness :
  calls_of (RAGRetriever.retrieve_context 4300 (fun _ _ _ => Returns [])
              ("top " +:+ string_repeat "9" 4301 +:+ " books") 10) = [] /\
  result_of (RAGRetriever.retrieve_context 4300
               (fun _ _ _ => Raises "collection not found")
               "find fantasy books" 10)
  = Raises "collection not found".
Proof.
  split.
  - eapply (proj1 (retrieve_context_failure 4300 (fun _ _ _ => Returns [])
                     ("top " +:+ string_repeat "9" 4301 +:+ " books") 10 _)).
    vm_compute. reflexivity.
  - apply (proj2 (retrieve_context_failure 4300
                    (fun _ _ _ => Raises "collection not found")
                    "find fantasy books" 10 "collection not found")
                 (QueryProcessor.process "find fantasy books")).
    + vm_compute. reflexivity.
    + vm_compute. discriminate.
    + reflexivity.
Defined.

(** ** The assembled system *)

Lemma setup_lookup (indexer : Indexer) (i : QueryIntent) :
  BookstoreAISystem.setup indexer !! i
  = match i with
    | SEARCH =>
        Some (BookstoreAISystem.handler_of BookList
                (QueryRetriever.retrieve_for_search indexer))
    | RECOMMENDATION =>
        Some (BookstoreAISystem.handler_of BookList
                (QueryRetriever.retrieve_for_recommendation indexer))
    | COMPARISON =>
        Some (BookstoreAISystem.handler_of ComparisonData
                (QueryRetriever.retrieve_for_comparison indexer))
    | ANALYTICS =>
        Some (BookstoreAISystem.handler_of AnalyticsOutcome
                (QueryRetriever.retrieve_for_analytics indexer))
    | FILTER =>
        Some (BookstoreAISystem.handler_of BookList
                (QueryRetriever.retrieve_for_filter indexer))
    | INFORMATION =>
        Some (BookstoreAISystem.handler_of BookInfo
                (QueryRetriever.retrieve_for_information indexer))
    | UNKNOWN => None
    end.
Proof.
  unfold BookstoreAISystem.setup, QueryRouter.register_handler.
  destruct i; reflexivity.
Qed.

(** X23: the system registers no handler for the unknown intent: a query
    that is processed with a confidence below 0.3 is answered with a failure
    envelope that names the missing handler, and no strategy runs. *)
Theorem system_rejects_low_confidence (py : Interpreter) (indexer : Indexer)
        (user_query : string) (pq : ParsedQuery) :
  QueryProcessor.process_call (int_max_str_digits py) user_query = Returns pq ->
  (confidence pq < 3 # 10)%Q ->
  BookstoreAISystem.query py indexer user_query
  = Normal {| success := false;
              error := Some ("No handler registered for intent: "
                             +:+ format_intent (version py) UNKNOWN);
              parsed_query := pq;
              result := None |}.
Proof.
  intros Hproc Hconf.
  assert (Hunk : intent pq = UNKNOWN).
  { rewrite (process_call_value _ _ _ Hproc) in *.
    now apply unknown_iff_low_confidence. }
  unfold BookstoreAISystem.query, QueryRouter.route.
  rewrite Hproc, setup_lookup, Hunk. reflexivity.
Qed.

Lemma system_rejects_low_confidence_witness :
  BookstoreAISystem.query {| version := From_3_11; int_max_str_digits := 4300 |}
    (fun _ _ _ => Returns []) "hello there"
  = Normal {| success := false;
              error := Some "No handler registered for intent: QueryIntent.UNKNOWN";
              parsed_query := QueryProcessor.process "hello there";
              result := None |}.
Proof.
  apply (system_rejects_low_confidence
           {| version := From_3_11; int_max_str_digits := 4300 |}
           (fun _ _ _ => Returns []) "hello there"
           (QueryProcessor.process "hello there")).
  - vm_compute. reflexivity.
  - vm_compute. reflexivity.
Defined.

(** X24: for a query that is processed with a confidence of at least 0.3,
    an error of the collaborator ends up in the envelope: the system does
    not raise, it answers with a failure envelope whose message is the
    collaborator's. *)
Theorem system_reports_collaborator_failure (py : Interpreter) (indexer : Indexer)
        (user_query : string) (pq : ParsedQuery) (msg : string) :
  QueryProcessor.process_call (int_max_str_digits py) user_query = Returns pq ->
  (3 # 10 <= confidence pq)%Q ->
  (forall text n f, indexer text n f = Raises msg) ->
  BookstoreAISystem.query py indexer user_query
  = Normal {| success := false; error := Some msg; parsed_query := pq;
              result := None |}.
Proof.
  intros Hproc Hconf Hidx.
  assert (Hknown : intent pq <> UNKNOWN).
  { rewrite (process_call_value _ _ _ Hproc) in *.
    intros H. apply unknown_iff_low_confidence in H.
    apply Qlt_not_le in H. contradiction. }
  unfold BookstoreAISystem.query, QueryRouter.route.
  rewrite Hproc, setup_lookup.
  destruct (intent pq); [| | | | | |congruence];
    unfold BookstoreAISystem.handler_of.
  - now rewrite (search_fails indexer msg Hidx pq).
  - now rewrite (recommendation_fails indexer msg Hidx pq).
  - now rewrite (comparison_fails indexer msg Hidx pq).
  - now rewrite (analytics_fails indexer msg Hidx pq).
  - now rewrite (filter_fails indexer msg Hidx pq).
  - now rewrite (information_fails indexer msg Hidx pq).
Qed.

Lemma system_reports_collaborator_failure_witness :
  BookstoreAISystem.query {| version := From_3_11; int_max_str_digits := 4300 |}
    (fun _ _ _ => Raises "collection not found") "find fantasy books"
  = Normal {| success := false; error := Some "collection not found";
              parsed_query := QueryProcessor.process "find fantasy books";
              result := None |}.
Proof.
  apply (system_reports_collaborator_failure
           {| version := From_3_11; int_max_str_digits := 4300 |}
           (fun _ _ _ => Raises "collection not found") "find fantasy books"
           (QueryProcessor.process "find fantasy books") "collection not found").
  - vm_compute. reflexivity.
  - vm_compute. discriminate.
  - reflexivity.
Defined.



(** ** What a processed query asks of the collaborator *)

Lemma or_default_pos (o : option Z) (d : Z) :
  (forall n, o = Some n -> 0 <= n)%Z -> (1 <= d)%Z ->
  (1 <= QueryRetriever.or_default o d)%Z.
Proof.
  intros Ho Hd. unfold QueryRetriever.or_default.
  destruct o as [n|]; [|exact Hd].
  destruct (Z.eqb_spec n 0); [exact Hd|].
  specialize (Ho n eq_refl). lia.
Qed.

Lemma process_limit (query : string) :
  limit (entities (QueryProcessor.process query))
  = EntityExtractor._extract_limit (PyStr.strip (PyStr.lower query)) /\
  result_limit (metadata (QueryProcessor.process query))
  = EntityExtractor._extract_limit (PyStr.strip (PyStr.lower query)).
Proof.
  destruct (process_fields query) as (-> & _ & ->). split; reflexivity.
Qed.

Lemma process_limit_pos (query : string) :
  (forall d, 1 <= d ->
     1 <= QueryRetriever.or_default
            (limit (entities (QueryProcessor.process query))) d)%Z /\
  (1 <= QueryRetriever.or_default
          (limit (entities (QueryProcessor.process query)))
          (QueryRetriever.or_default
             (result_limit (metadata (QueryProcessor.process query))) 10))%Z.
Proof.
  destruct (process_limit query) as [-> ->].
  assert (H : forall d, (1 <= d)%Z ->
            (1 <= QueryRetriever.or_default
                    (EntityExtractor._extract_limit
                       (PyStr.strip (PyStr.lower query))) d)%Z).
  { intros d Hd. apply or_default_pos; [|exact Hd].
    intros n. apply extract_limit_nonneg. }
  split; [exact H|]. apply H, H. lia.
Qed.

(** X26: whatever the query, no strategy asks the collaborator for fewer
    than one result: a limit of 0 read from the query ("top 0") counts as
    no limit, and a limit is never negative. *)
Theorem processed_query_asks_for_results (indexer : Indexer) (query : string) :
  Forall (fun c => (1 <= call_n_results c)%Z)
    (calls_of (QueryRetriever.retrieve_for_search indexer
                 (QueryProcessor.process query)) ++
     calls_of (QueryRetriever.retrieve_for_recommendation indexer
                 (QueryProcessor.process query)) ++
     calls_of (QueryRetriever.retrieve_for_comparison indexer
                 (QueryProcessor.process query)) ++
     calls_of (QueryRetriever.retrieve_for_analytics indexer
                 (QueryProcessor.process query)) ++
     calls_of (QueryRetriever.retrieve_for_filter indexer
                 (QueryProcessor.process query)) ++
     calls_of (QueryRetriever.retrieve_for_information indexer
                 (QueryProcessor.process query))).
Proof.
  destruct (process_limit_pos query) as [Hd Hs].
  set (pq := QueryProcessor.process query) in *. clearbody pq.
  unfold calls_of.
  rewrite search_log, recommendation_log, comparison_log, analytics_log,
    filter_log, information_log.
  cbn [app].
  pose proof (Hd 10%Z ltac:(lia)) as H10.
  pose proof (Hd 20%Z ltac:(lia)) as H20.
  repeat constructor; cbn [call_n_results]; lia.
Qed.

(** X27: for the recommendation intent, whatever the query: of the hits
    the collaborator returns, the strategy returns a selection without
    repeats that is no longer than the limit it works with, a limit of at
    least 1. *)
Theorem recommendation_selects_hits (indexer : Indexer) (query : string)
        (hits : list Item) :
  indexer
    (QueryRetriever._build_recommendation_text (QueryProcessor.process query))
    (QueryRetriever.or_default
       (limit (entities (QueryProcessor.process query))) 10 * 2)%Z
    (filters (QueryProcessor.process query))
  = Returns hits ->
  exists out,
    result_of (QueryRetriever.retrieve_for_recommendation indexer
                 (QueryProcessor.process query)) = Returns out /\
    (forall x, In x out -> In x hits) /\
    pairwise_distinct out /\
    1 <= Z.to_nat (QueryRetriever.or_default
                     (limit (entities (QueryProcessor.process query))) 10) /\
    length out <= Z.to_nat (QueryRetriever.or_default
                              (limit (entities (QueryProcessor.process query))) 10).
Proof.
  destruct (process_limit_pos query) as [Hd _]. specialize (Hd 10%Z).
  set (pq := QueryProcessor.process query) in *. clearbody pq.
  intros Hidx. rewrite recommendation_result. cbn [call_query call_n_results].
  rewrite Hidx. eexists. split; [reflexivity|].
  destruct (diversify_results_sound hits
              (QueryRetriever.or_default (limit (entities pq)) 10))
    as (Hin & Hdist & Hlen).
  split; [exact Hin|]. split; [exact Hdist|]. split; [lia|]. apply Hlen. lia.
Qed.

Lemma recommendation_selects_hits_witness :
  exists out,
    result_of (QueryRetriever.retrieve_for_recommendation
                 (fun _ _ _ =>
                    Returns [sample_book "1" "Herbert" "science fiction" (12 # 1) None "a";
                             sample_book "1" "Herbert" "science fiction" (12 # 1) None "a"])
                 (QueryProcessor.process "recommend top 0 fantasy books"))
    = Returns out /\
    length out <= 10.
Proof.
  destruct (recommendation_selects_hits
              (fun _ _ _ =>
                 Returns [sample_book "1" "Herbert" "science fiction" (12 # 1) None "a";
                          sample_book "1" "Herbert" "science fiction" (12 # 1) None "a"])
              "recommend top 0 fantasy books"
              [sample_book "1" "Herbert" "science fiction" (12 # 1) None "a";
               sample_book "1" "Herbert" "science fiction" (12 # 1) None "a"]
              eq_refl) as (out & Hout & _ & _ & _ & Hlen).
  exists out. split; [exact Hout|].
  replace 10 with (Z.to_nat (QueryRetriever.or_default
                     (limit (entities (QueryProcessor.process
                                         "recommend top 0 fantasy books"))) 10))
    by (vm_compute; reflexivity).
  exact Hlen.
Defined.

(** ** Bounds read from the query *)

Lemma float_of_nonneg (s : string) : (0 <= PyStr.float_of s)%Q.
Proof.
  unfold PyStr.float_of. destruct (PyStr.split_dot s) as [i [f|]].
  - rewrite Qred_correct. unfold Qle. cbn [Qnum Qden].
    assert (0 <= PyStr.int_of i)%Z by (apply digits_acc_nonneg; lia).
    assert (0 <= PyStr.int_of f)%Z by (apply digits_acc_nonneg; lia).
    assert (0 < 10 ^ Z.of_nat (String.length f))%Z by (apply Z.pow_pos_nonneg; lia).
    nia.
  - unfold Qle, inject_Z. cbn [Qnum Qden].
    assert (0 <= PyStr.int_of i)%Z by (apply digits_acc_nonneg; lia). lia.
Qed.

Lemma float_group_nonneg (n : nat) (m : Re.captures) :
  (0 <= EntityExtractor.float_group n m)%Q.
Proof.
  unfold EntityExtractor.float_group.
  destruct (Re.group n m); [apply float_of_nonneg|apply Qle_refl].
Qed.

Lemma range_or_none_bounds (P : Q -> Prop) (r r' : Range) :
  (forall v, range_min r = Some v -> P v) ->
  (forall v, range_max r = Some v -> P v) ->
  range_or_none r = Some r' ->
  (forall v, range_min r' = Some v -> P v) /\
  (forall v, range_max r' = Some v -> P v).
Proof.
  intros Hmin Hmax. unfold range_or_none.
  destruct (range_truthy r); [|discriminate]. intros [= <-]. now split.
Qed.

(** X28: the bounds read from a query are never negative: every bound of an
    extracted price range and of an extracted rating range is at least
    0. *)
Theorem extract_bounds_nonnegative (query : string) :
  (forall r, price_range (EntityExtractor.extract query) = Some r ->
     (forall v, range_min r = Some v -> 0 <= v)%Q /\
     (forall v, range_max r = Some v -> 0 <= v)%Q) /\
  (forall r, rating_range (EntityExtractor.extract query) = Some r ->
     (forall v, range_min r = Some v -> 0 <= v)%Q /\
     (forall v, range_max r = Some v -> 0 <= v)%Q).
Proof.
  unfold EntityExtractor.extract. cbn [price_range rating_range].
  set (q := PyStr.strip (PyStr.lower query)). clearbody q.
  split; intros r.
  - unfold EntityExtractor._extract_price_range.
    apply range_or_none_bounds;
      repeat match goal with
             | |- context [match Re.search ?p q with _ => _ end] =>
                 destruct (Re.search p q)
             end;
      cbn [set_min set_max empty_range range_min range_max];
      intros v [= <-]; apply float_group_nonneg.
  - unfold EntityExtractor._extract_rating_range.
    apply range_or_none_bounds;
      repeat match goal with
             | |- context [match Re.search ?p q with _ => _ end] =>
                 destruct (Re.search p q)
             end;
      destruct (_ || _);
      cbn [set_min set_max empty_range range_min range_max];
      intros v [= <-]; (apply float_group_nonneg || discriminate).
Qed.

(** X29: "highly rated" and "high rating" take precedence over an explicit
    lower bound: when the lowered query contains one of the two phrases, the
    extracted rating range has the minimum 4, also when the query says
    "rated above" some other number. *)
Theorem highly_rated_sets_minimum (query : string) :
  PyStr.contains "highly rated" (PyStr.strip (PyStr.lower query))
  || PyStr.contains "high rating" (PyStr.strip (PyStr.lower query)) = true ->
  exists r,
    rating_range (EntityExtractor.extract query) = Some r /\
    range_min r = Some 4%Q.
Proof.
  unfold EntityExtractor.extract. cbn [rating_range].
  set (q := PyStr.strip (PyStr.lower query)). clearbody q.
  intros H. unfold EntityExtractor._extract_rating_range. rewrite H.
  eexists. split; reflexivity.
Qed.

Lemma highly_rated_sets_minimum_witness :
  exists r,
    rating_range (EntityExtractor.extract "Highly rated books rated above 3")
    = Some r /\
    range_min r = Some 4%Q.
Proof.
  apply (highly_rated_sets_minimum "Highly rated books rated above 3").
  vm_compute. reflexivity.
Defined.
